(** * The order store of the sweet shop backend

    A shallow embedding of [model/order_model.py]: the five operations of
    the order store ([place_order], [get_orders], [get_daily_summary],
    [update_order_status], [edit_order]) and the two normalisation helpers
    ([_serialize_datetimes], [_serialize_order]), over a model of the
    Python values they handle and of the MongoDB collection they talk to.

    Layout:
    - [Py]: Python values, exceptions, truthiness, [float()], numbers,
      dictionaries, [strftime], [sorted];
    - [Bson]: [ObjectId] parsing and printing;
    - [Mongo]: the collection ([insert_one], [find], [find_one],
      [find_one_and_update]);
    - the functions of [order_model.py], under their own names;
    - the properties of the specification;
    - further properties of the code: what each operation does on the
      inputs and in the sequences the specification leaves open. *)

From Stdlib Require Import ZArith NArith QArith String Ascii List Bool Lia.
From Stdlib Require Import DecimalString.
From Stdlib Require Import Permutation Sorted.
From Stdlib Require Import Floats.SpecFloat.
Import ListNotations.

Set Warnings "-register-all".

Local Close Scope Q_scope.
Local Open Scope string_scope.
Local Open Scope list_scope.
Local Open Scope Z_scope.

(* ===================================================================== *)
(** * Python values                                                       *)
(* ===================================================================== *)

Module Py.

(** ** Exceptions and results *)

(** The exceptions the module can meet.  [RuntimeError] is the one the
    source raises itself; the others come from the built-ins it calls.
    [InvalidId] and [DuplicateKeyError] are the driver's.  [Unsupported]
    is not a Python exception: it marks an input that leaves the fragment
    covered here (see [py_str] and [insert_one]), and no handler catches
    it. *)
Inductive exn : Type :=
| RuntimeError (msg : string)
| ValueError
| TypeError
| OverflowError
| AttributeError
| InvalidId
| DuplicateKeyError
| Unsupported (what : string).

Inductive res (A : Type) : Type :=
| Ok (a : A)
| Raise (e : exn).

Arguments Ok {A} a.
Arguments Raise {A} e.

Definition bind {A B : Type} (c : res A) (k : A -> res B) : res B :=
  match c with
  | Ok a => k a
  | Raise e => Raise e
  end.

Declare Scope py_scope.
Delimit Scope py_scope with py.
Notation "x <- c ;; k" := (bind c (fun x => k))
  (at level 100, c at next level, right associativity) : py_scope.
Notation "' p <- c ;; k" := (bind c (fun p => k))
  (at level 100, p pattern, c at next level, right associativity) : py_scope.

(** [try: body / except (ValueError, TypeError): handler].  Every other
    exception passes through. *)
Definition try_except_ValueError_TypeError {A : Type}
    (body : res A) (handler : res A) : res A :=
  match body with
  | Raise ValueError | Raise TypeError => handler
  | r => r
  end.

(** [try: body / except Exception: handler] *)
Definition try_except_Exception {A : Type}
    (body : res A) (handler : res A) : res A :=
  match body with
  | Ok a => Ok a
  | Raise (Unsupported w) => Raise (Unsupported w)
  | Raise _ => handler
  end.

(** Monadic traversal of a list, left to right: the [for] loops that
    rebuild a list. *)
Fixpoint mapM {A B : Type} (f : A -> res B) (l : list A) : res (list B) :=
  match l with
  | [] => Ok []
  | x :: l' =>
      bind (f x) (fun y => bind (mapM f l') (fun ys => Ok (y :: ys)))
  end.

(** Monadic left fold: the [for] loops that update accumulators. *)
Fixpoint foldM {A S : Type} (f : S -> A -> res S) (l : list A) (s : S)
  : res S :=
  match l with
  | [] => Ok s
  | x :: l' => bind (f s x) (fun s' => foldM f l' s')
  end.

(** ** Floats: IEEE 754 binary64 *)

(** A Python [float] is a binary64 number: [spec_float] with a 53-bit
    significand and infinities at exponent 1024. *)
Abbreviation float := spec_float.

Definition prec : Z := 53.
Definition emax : Z := 1024.

Definition float_add : float -> float -> float := SFadd prec emax.
Definition float_mul : float -> float -> float := SFmul prec emax.

(** The integer [z] rounded to the nearest float, ties to even. *)
Definition float_of_Z (z : Z) : float := binary_normalize prec emax z 0 false.

(** [float(n)] for an [int]: OverflowError ("int too large to convert to
    float") when the rounded value is not finite. *)
Definition float_of_int (z : Z) : res float :=
  match float_of_Z z with
  | S754_infinity _ => Raise OverflowError
  | f => Ok f
  end.

(** The decimal [(-1)^neg * d * 10^e10], for [0 <= d], correctly rounded
    (what [strtod] returns): out of range it is an infinity, below range a
    signed zero. *)
Definition dec_to_float (neg : bool) (d e10 : Z) : float :=
  if d =? 0 then S754_zero neg
  else if 0 <=? e10 then
    binary_normalize prec emax (cond_Zopp neg (d * 10 ^ e10)) 0 neg
  else
    let '(q, e, l) := SFdiv_core_binary prec emax d 0 (10 ^ (- e10)) 0 in
    binary_round_aux prec emax neg q e l.

(** *** [float(str)] *)

Definition code (c : ascii) : nat := nat_of_ascii c.

Definition is_digit (c : ascii) : bool :=
  ((48 <=? code c) && (code c <=? 57))%nat.

Definition digit_val (c : ascii) : Z := Z.of_nat (code c) - 48.

Definition digits_val (ds : list ascii) : Z :=
  fold_left (fun acc c => 10 * acc + digit_val c) ds 0.

Fixpoint span_digits (cs : list ascii) : list ascii * list ascii :=
  match cs with
  | c :: cs' =>
      if is_digit c
      then let '(ds, r) := span_digits cs' in (c :: ds, r)
      else ([], cs)
  | [] => ([], [])
  end.

(** ASCII white space, [Py_ISSPACE]. *)
Definition is_space (c : ascii) : bool :=
  ((9 <=? code c) && (code c <=? 13) || (code c =? 32))%nat.

Fixpoint lstrip (cs : list ascii) : list ascii :=
  match cs with
  | c :: r => if is_space c then lstrip r else cs
  | [] => []
  end.

Definition rstrip (cs : list ascii) : list ascii := rev (lstrip (rev cs)).

(** A [str] is a sequence of code points; the ones below 256 are
    representable here.  Before parsing, code points from 127 on are
    replaced: the white space among them (NEL, NBSP) by a blank, any other
    by a question mark that ends the string. *)
Fixpoint to_ascii_decimal (cs : list ascii) : list ascii :=
  match cs with
  | [] => []
  | c :: r =>
      if (code c <? 127)%nat then c :: to_ascii_decimal r
      else if ((code c =? 133) || (code c =? 160))%nat
           then " "%char :: to_ascii_decimal r
           else ["?"%char]
  end.

(** Underscores are allowed between two digits only; the accepted ones
    are dropped. [prev] is the character just read. *)
Fixpoint strip_underscores (prev : ascii) (cs : list ascii)
  : option (list ascii) :=
  match cs with
  | [] => if Ascii.eqb prev "_" then None else Some []
  | c :: cs' =>
      if Ascii.eqb c "_" then
        if is_digit prev then strip_underscores c cs' else None
      else if Ascii.eqb prev "_" && negb (is_digit c) then None
      else option_map (cons c) (strip_underscores c cs')
  end.

Definition split_sign (cs : list ascii) : bool * list ascii :=
  match cs with
  | "-"%char :: r => (true, r)
  | "+"%char :: r => (false, r)
  | _ => (false, cs)
  end.

Definition lower (c : ascii) : ascii :=
  if ((65 <=? code c) && (code c <=? 90))%nat
  then ascii_of_nat (code c + 32) else c.

Definition matches_word (w : string) (cs : list ascii) : bool :=
  String.eqb w (string_of_list_ascii (map lower cs)).

(** digits [. digits] [e [sign] digits], with a digit in the first or the
    second group, and nothing left over. *)
Definition parse_decimal (neg : bool) (cs : list ascii) : option float :=
  let '(ip, r1) := span_digits cs in
  let '(fp, r2) :=
    match r1 with
    | "."%char :: r => span_digits r
    | _ => ([], r1)
    end in
  match ip ++ fp with
  | [] => None
  | ds =>
      let mant := digits_val ds in
      let frac := Z.of_nat (length fp) in
      match r2 with
      | [] => Some (dec_to_float neg mant (- frac))
      | c :: r3 =>
          if Ascii.eqb (lower c) "e" then
            let '(eneg, r4) := split_sign r3 in
            match span_digits r4 with
            | ((_ :: _) as eds, []) =>
                Some (dec_to_float neg mant
                        (cond_Zopp eneg (digits_val eds) - frac))
            | _ => None
            end
          else None
      end
  end.

(** [float(s)] for a [str]; [None] is ValueError. *)
Definition float_of_string (s : string) : option float :=
  match strip_underscores zero (to_ascii_decimal (list_ascii_of_string s)) with
  | None => None
  | Some cs =>
      let '(neg, r) := split_sign (rstrip (lstrip cs)) in
      if matches_word "inf" r || matches_word "infinity" r
      then Some (S754_infinity neg)
      else if matches_word "nan" r then Some S754_nan
      else parse_decimal neg r
  end.

(** ** Values *)

(** [datetime.datetime], naive.  The library keeps the year between 1
    and 9999 and the other fields in their calendar ranges. *)
Record datetime : Type := mkDatetime {
  year : nat; month : nat; day : nat;
  hour : nat; minute : nat; second : nat; microsecond : nat
}.

(** The values that reach the module: what a JSON body decodes to, plus
    what the driver decodes from BSON.  A [dict] keeps its keys in
    insertion order; its keys are strings.  An [ObjectId] is its bytes:
    the twelve bytes of an identifier the driver generates or reads are a
    number below [2^96]; the shorter byte strings that [ObjectId(s)] can
    hold are numbered from [2^96] on (see [Bson.id_of_bytes]). *)
Inductive value : Type :=
| VNone
| VBool (b : bool)
| VInt (z : Z)
| VFloat (f : float)
| VStr (s : string)
| VList (l : list value)
| VDict (d : list (string * value))
| VDatetime (t : datetime)
| VObjectId (o : N).

Abbreviation dict := (list (string * value)).

(** Truth value of an object, as [if], [or] and [not] test it. *)
Definition truthy (v : value) : bool :=
  match v with
  | VNone => false
  | VBool b => b
  | VInt z => negb (z =? 0)
  | VFloat (S754_zero _) => false
  | VFloat _ => true
  | VStr s => negb (String.eqb s "")
  | VList l => match l with [] => false | _ => true end
  | VDict d => match d with [] => false | _ => true end
  | VDatetime _ => true
  | VObjectId _ => true
  end.

(** [a or b] *)
Definition py_or (a b : value) : value := if truthy a then a else b.

(** [float(v)] *)
Definition py_float (v : value) : res float :=
  match v with
  | VFloat f => Ok f
  | VInt z => float_of_int z
  | VBool b => Ok (float_of_Z (if b then 1 else 0))
  | VStr s =>
      match float_of_string s with
      | Some f => Ok f
      | None => Raise ValueError
      end
  | VNone | VList _ | VDict _ | VDatetime _ | VObjectId _ => Raise TypeError
  end.

(** ** Dictionaries with string keys *)

Fixpoint dict_get (d : dict) (k : string) : option value :=
  match d with
  | [] => None
  | (k', v) :: d' => if String.eqb k' k then Some v else dict_get d' k
  end.

(** [k in d] *)
Definition dict_has (d : dict) (k : string) : bool :=
  match dict_get d k with Some _ => true | None => false end.

(** [d.get(k, default)] *)
Definition get_default (d : dict) (k : string) (default : value) : value :=
  match dict_get d k with Some v => v | None => default end.

(** [d[k] = v]: an existing key keeps its place, a new one goes last. *)
Fixpoint dict_set (d : dict) (k : string) (v : value) : dict :=
  match d with
  | [] => [(k, v)]
  | (k', v') :: d' =>
      if String.eqb k' k then (k, v) :: d' else (k', v') :: dict_set d' k v
  end.

Definition keys (d : dict) : list string := map fst d.

(** ** Operations on an object of unknown type *)

(** [for x in v] *)
Definition py_iter (v : value) : res (list value) :=
  match v with
  | VList l => Ok l
  | VDict d => Ok (map VStr (keys d))
  | VStr s => Ok (map (fun c => VStr (String c EmptyString))
                      (list_ascii_of_string s))
  | _ => Raise TypeError
  end.

(** [k in v], for a string [k]: key of a dict, element of a list,
    substring of a string. *)
Definition py_contains (k : string) (v : value) : res bool :=
  match v with
  | VDict d => Ok (dict_has d k)
  | VList l =>
      Ok (existsb (fun x => match x with
                            | VStr s => String.eqb s k
                            | _ => false
                            end) l)
  | VStr s => Ok (match index 0 k s with Some _ => true | None => false end)
  | _ => Raise TypeError
  end.

(** [v.get(k, default)]: only a dict has the method. *)
Definition py_get (v : value) (k : string) (default : value) : res value :=
  match v with
  | VDict d => Ok (get_default d k default)
  | _ => Raise AttributeError
  end.

(** [v[k] = x], for a string [k]: only a dict accepts it. *)
Definition py_setitem (v : value) (k : string) (x : value) : res value :=
  match v with
  | VDict d => Ok (VDict (dict_set d k x))
  | _ => Raise TypeError
  end.

(** ** Numbers *)

(** The result of arithmetic on [int] and [float]. *)
Inductive number : Type :=
| NInt (z : Z)
| NFloat (f : float).

Definition value_of_number (n : number) : value :=
  match n with
  | NInt z => VInt z
  | NFloat f => VFloat f
  end.

(** [a + b]: an [int] meeting a [float] is converted first. *)
Definition num_add (a b : number) : res number :=
  match a, b with
  | NInt x, NInt y => Ok (NInt (x + y))
  | NFloat x, NFloat y => Ok (NFloat (float_add x y))
  | NInt x, NFloat y =>
      bind (float_of_int x) (fun x' => Ok (NFloat (float_add x' y)))
  | NFloat x, NInt y =>
      bind (float_of_int y) (fun y' => Ok (NFloat (float_add x y')))
  end.

(** [a * b] *)
Definition num_mul (a b : number) : res number :=
  match a, b with
  | NInt x, NInt y => Ok (NInt (x * y))
  | NFloat x, NFloat y => Ok (NFloat (float_mul x y))
  | NInt x, NFloat y =>
      bind (float_of_int x) (fun x' => Ok (NFloat (float_mul x' y)))
  | NFloat x, NInt y =>
      bind (float_of_int y) (fun y' => Ok (NFloat (float_mul x y')))
  end.

(** *** Comparison

    Python compares numbers by their exact values, whatever their types.
    The value of a number is an extended rational; NaN has none. *)
Inductive ereal : Type :=
| NegInf
| Fin (q : Q)
| PosInf.

Definition float_value (f : float) : option ereal :=
  match f with
  | S754_nan => None
  | S754_infinity s => Some (if s then NegInf else PosInf)
  | S754_zero _ => Some (Fin (inject_Z 0))
  | S754_finite s m e =>
      Some (Fin (if 0 <=? e
                 then inject_Z (cond_Zopp s (Zpos m * 2 ^ e))
                 else Qmake (cond_Zopp s (Zpos m)) (2 ^ Z.to_pos (- e))))
  end.

Definition num_value (n : number) : option ereal :=
  match n with
  | NInt z => Some (Fin (inject_Z z))
  | NFloat f => float_value f
  end.

Definition ereal_leb (a b : ereal) : bool :=
  match a, b with
  | NegInf, _ => true
  | _, PosInf => true
  | Fin p, Fin q => Qle_bool p q
  | _, _ => false
  end.

Definition is_nan (n : number) : bool :=
  match num_value n with None => true | Some _ => false end.

(** [a <= b]: false as soon as one side is NaN. *)
Definition num_le (a b : number) : bool :=
  match num_value a, num_value b with
  | Some x, Some y => ereal_leb x y
  | _, _ => false
  end.

(** [a < b] *)
Definition num_lt (a b : number) : bool :=
  match num_value a, num_value b with
  | Some x, Some y => negb (ereal_leb y x)
  | _, _ => false
  end.

(** [a >= b] *)
Definition num_ge (a b : number) : bool := num_le b a.

(** [a == b] *)
Definition num_eq (a b : number) : bool := num_le a b && num_le b a.

(** ** Keys of a dict of arbitrary objects *)

Definition datetime_eqb (a b : datetime) : bool :=
  (Nat.eqb (year a) (year b) && Nat.eqb (month a) (month b)
   && Nat.eqb (day a) (day b) && Nat.eqb (hour a) (hour b)
   && Nat.eqb (minute a) (minute b) && Nat.eqb (second a) (second b)
   && Nat.eqb (microsecond a) (microsecond b))%bool.

(** Lists and dicts cannot be keys: hashing them is a TypeError. *)
Definition hashable (v : value) : bool :=
  match v with
  | VList _ | VDict _ => false
  | _ => true
  end.

Definition as_number (v : value) : option number :=
  match v with
  | VBool b => Some (NInt (if b then 1 else 0))
  | VInt z => Some (NInt z)
  | VFloat f => Some (NFloat f)
  | _ => None
  end.

(** Whether [k] finds the entry stored under [k'].  Numbers are equal by
    value across [bool], [int] and [float]; a NaN decoded from the store
    is a fresh object and equal to nothing. *)
Definition key_eqb (k k' : value) : bool :=
  match as_number k, as_number k' with
  | Some a, Some b => num_eq a b
  | None, None =>
      match k, k' with
      | VNone, VNone => true
      | VStr a, VStr b => String.eqb a b
      | VDatetime a, VDatetime b => datetime_eqb a b
      | VObjectId a, VObjectId b => N.eqb a b
      | _, _ => false
      end
  | _, _ => false
  end.

(** ** Formatting dates *)

Definition digit_char (n : nat) : ascii := ascii_of_nat (48 + n mod 10).

Definition pad2 (n : nat) : string :=
  String (digit_char (n / 10)) (String (digit_char n) "").

(** The year on four digits, as the library documents [%Y] (0001 to
    9999); from 1000 on every platform prints these four digits. *)
Definition pad4 (n : nat) : string :=
  String (digit_char (n / 1000)) (String (digit_char (n / 100)) (pad2 n)).

(** [t.strftime("%Y-%m-%d")] *)
Definition strftime_date (t : datetime) : string :=
  pad4 (year t) ++ "-" ++ pad2 (month t) ++ "-" ++ pad2 (day t).

(** [t.strftime("%Y-%m-%d %H:%M:%S")] *)
Definition strftime_datetime (t : datetime) : string :=
  strftime_date t ++ " " ++
  pad2 (hour t) ++ ":" ++ pad2 (minute t) ++ ":" ++ pad2 (second t).

(** ** [sorted]

    [list.sort] is stable and compares with [<] only.  Each element is
    inserted, from the right, into the prefix already sorted.  CPython
    finds runs and merges them instead; on keys that [<] orders totally
    every stable sort returns the same list. *)
Section Sorting.
Context {A : Type} (lt : A -> A -> bool).

(** [racc] is the sorted prefix, last element first. *)
Fixpoint insert_from_right (x : A) (racc : list A) : list A :=
  match racc with
  | y :: r => if lt x y then y :: insert_from_right x r else x :: racc
  | [] => [x]
  end.

Definition sort (l : list A) : list A :=
  rev (fold_left (fun racc x => insert_from_right x racc) l []).

(** [reverse=True]: the list is reversed, sorted, and reversed again,
    so that equal elements keep their order. *)
Definition sort_reverse (l : list A) : list A := rev (sort (rev l)).
End Sorting.

(** [sorted(l, key=key, reverse=True)] for numeric keys. *)
Definition sorted_reverse {A : Type} (key : A -> number) (l : list A)
  : list A :=
  sort_reverse (fun a b => num_lt (key a) (key b)) l.

End Py.

(* ===================================================================== *)
(** * BSON identifiers                                                    *)
(* ===================================================================== *)

Module Bson.
Import Py.

Definition hex_val (c : ascii) : option N :=
  let n := N_of_ascii c in
  if ((48 <=? n) && (n <=? 57))%N then Some (n - 48)%N
  else if ((97 <=? n) && (n <=? 102))%N then Some (n - 87)%N
  else if ((65 <=? n) && (n <=? 70))%N then Some (n - 55)%N
  else None.

Fixpoint hex_digits (cs : list ascii) (acc : N) : option N :=
  match cs with
  | [] => Some acc
  | c :: r =>
      match hex_val c with
      | Some d => hex_digits r (16 * acc + d)%N
      | None => None
      end
  end.

(** ASCII white space, which [bytes.fromhex] skips between two bytes. *)
Definition is_hex_space (c : ascii) : bool :=
  let n := N_of_ascii c in
  (((9 <=? n) && (n <=? 13)) || (n =? 32))%N.

(** [bytes.fromhex(s)]: two hexadecimal digits a byte.  White space is
    skipped before a byte, never inside one; anything else is a
    ValueError ([None] here). *)
Fixpoint fromhex (cs : list ascii) : option (list N) :=
  match cs with
  | [] => Some []
  | c :: r =>
      if is_hex_space c then fromhex r
      else
        match hex_val c, r with
        | Some hi, c' :: r' =>
            match hex_val c' with
            | Some lo => option_map (cons (16 * hi + lo)%N) (fromhex r')
            | None => None
            end
        | _, _ => None
        end
  end.

Definition bytes_value (bs : list N) : N :=
  fold_left (fun a b => (256 * a + b)%N) bs 0%N.

(** The number that stands for the bytes of an ObjectId: their value
    when there are twelve of them, and a number from [2^96] on, different
    for different bytes, when there are fewer. *)
Definition id_of_bytes (bs : list N) : N :=
  if Nat.eqb (length bs) 12 then bytes_value bs
  else (2 ^ 96 + 256 ^ N.of_nat (length bs) + bytes_value bs)%N.

(** [ObjectId(s)] for a [str]: a string of twenty-four characters that
    [bytes.fromhex] decodes, anything else is InvalidId.  Twenty-four
    digits give twelve bytes.  Digits and white space give fewer bytes,
    which the constructor keeps as they are: an identifier no document
    written by the driver has. *)
Definition ObjectId (s : string) : res N :=
  let cs := list_ascii_of_string s in
  if Nat.eqb (length cs) 24 then
    match fromhex cs with
    | Some bs => Ok (id_of_bytes bs)
    | None => Raise InvalidId
    end
  else Raise InvalidId.

Definition hex_char (d : N) : ascii :=
  if (d <? 10)%N then ascii_of_N (48 + d) else ascii_of_N (87 + d).

Fixpoint hex_fixed (n : nat) (o : N) (acc : string) : string :=
  match n with
  | O => acc
  | S n' => hex_fixed n' (o / 16)%N (String (hex_char (o mod 16)%N) acc)
  end.

(** [str(oid)] for an identifier of twelve bytes: the twenty-four
    digits, in lower case. *)
Definition ObjectId_str (o : N) : string := hex_fixed 24 o "".

(** [str(v)] for the value under [_id].  The printing of floats,
    containers and dates is left out of the model. *)
Definition py_str (v : value) : res string :=
  match v with
  | VObjectId o => Ok (ObjectId_str o)
  | VStr s => Ok s
  | VInt z => Ok (NilZero.string_of_int (Z.to_int z))
  | VBool b => Ok (if b then "True" else "False")
  | VNone => Ok "None"
  | VFloat _ | VList _ | VDict _ | VDatetime _ =>
      Raise (Unsupported "str: a float, a container or a date")
  end.

End Bson.

(* ===================================================================== *)
(** * The collection                                                      *)
(* ===================================================================== *)

(** The part of a MongoDB collection the module relies on: documents in
    insertion order, equality filters on a top-level field, exclusion and
    inclusion projections, a sort on [createdAt], and [$set].

    Of the BSON encoding, the rounding of the two date stamps to the
    millisecond is covered ([stored_field]).  Not covered: the bounds of
    BSON integers, and documents that arrive with an [_id] that is not an
    ObjectId. *)
Module Mongo.
Import Py.

Abbreviation collection := (list dict).

Definition has_id (oid : N) (doc : dict) : bool :=
  match dict_get doc "_id" with
  | Some (VObjectId o) => N.eqb o oid
  | _ => false
  end.

Definition without (k : string) (doc : dict) : dict :=
  filter (fun kv => negb (String.eqb (fst kv) k)) doc.

(** BSON keeps a date to the millisecond. *)
Definition to_milliseconds (t : datetime) : datetime :=
  mkDatetime (year t) (month t) (day t) (hour t) (minute t) (second t)
             (microsecond t / 1000 * 1000).

(** What the store keeps of the value [v] written under the key [k].
    The dates that reach the store are the two stamps the module writes
    itself, [createdAt] and [updatedAt]; every other value comes from a
    JSON body, which has no dates, and is kept as it is. *)
Definition stored_field (k : string) (v : value) : value :=
  match v with
  | VDatetime t =>
      if String.eqb k "createdAt" || String.eqb k "updatedAt"
      then VDatetime (to_milliseconds t)
      else v
  | _ => v
  end.

(** A document as the store keeps it. *)
Definition to_bson (doc : dict) : dict :=
  map (fun kv => (fst kv, stored_field (fst kv) (snd kv))) doc.

(** [insert_one(doc)].  A document without [_id] gets the identifier
    [fresh] the driver generates; [_id] is written first.  An identifier
    already present in the collection is a DuplicateKeyError. *)
Definition insert_one (c : collection) (fresh : N) (doc : dict)
  : res collection :=
  match get_default doc "_id" (VObjectId fresh) with
  | VObjectId o =>
      if existsb (has_id o) c then Raise DuplicateKeyError
      else Ok (c ++ [("_id", VObjectId o) :: without "_id" (to_bson doc)])
  | _ => Raise (Unsupported "insert_one: an identifier that is not an ObjectId")
  end.

(** Projection [{"_id": 0}]. *)
Definition project_without_id (doc : dict) : dict := without "_id" doc.

(** Projection [{k: 1, ...}] for the keys [ks]: the fields named, in the
    order of the document. *)
Definition project_fields (ks : list string) (doc : dict) : dict :=
  filter (fun kv => existsb (String.eqb (fst kv)) ks) doc.

Definition datetime_ltb (a b : datetime) : bool :=
  let fields t :=
    [year t; month t; day t; hour t; minute t; second t; microsecond t] in
  (fix lex (x y : list nat) : bool :=
     match x, y with
     | p :: x', q :: y' => (p <? q)%nat || ((p =? q)%nat && lex x' y')
     | _, _ => false
     end) (fields a) (fields b).

Definition created (doc : dict) : option datetime :=
  match dict_get doc "createdAt" with
  | Some (VDatetime t) => Some t
  | _ => None
  end.

(** Whether [a] comes before [b] under [sort("createdAt", -1)].  Every
    other type of value, and a missing field, sorts below a date; such
    values are not ordered among themselves here. *)
Definition created_after (a b : dict) : bool :=
  match created a, created b with
  | Some x, Some y => datetime_ltb y x
  | Some _, None => true
  | None, _ => false
  end.

(** [find(filter).sort("createdAt", -1)]; documents the sort does not
    tell apart stay in insertion order. *)
Definition find_sorted (c : collection) (flt : dict -> bool) : list dict :=
  sort created_after (filter flt c).

(** The filter [{k: s}] for a string [s], on a field that holds a scalar
    (the server also matches an array that contains [s]; the one field
    queried this way, [orderDate], is a string from the day the order is
    placed). *)
Definition field_is (k s : string) (doc : dict) : bool :=
  match dict_get doc k with
  | Some (VStr s') => String.eqb s' s
  | _ => false
  end.

(** [find_one({"_id": oid})] *)
Definition find_one (c : collection) (oid : N) : option dict :=
  find (has_id oid) c.

(** [{"$set": set}] applied to a document: each value is written as the
    store keeps it. *)
Definition apply_set (doc set : dict) : dict :=
  fold_left (fun acc kv => dict_set acc (fst kv) (stored_field (fst kv) (snd kv)))
            set doc.

(** [find_one_and_update({"_id": oid}, {"$set": set},
    return_document=ReturnDocument.AFTER)]: the first matching document
    is updated in place and returned as it is after the update. *)
Fixpoint find_one_and_update (c : collection) (oid : N) (set : dict)
  : option dict * collection :=
  match c with
  | [] => (None, [])
  | doc :: c' =>
      if has_id oid doc
      then let doc' := apply_set doc set in (Some doc', doc' :: c')
      else let '(r, c'') := find_one_and_update c' oid set in (r, doc :: c'')
  end.

End Mongo.

(* ===================================================================== *)
(** * [order_model.py]                                                    *)
(* ===================================================================== *)

Import Py Bson Mongo.
Local Open Scope py_scope.

(** The module-level [order_collection] is [None] when the connection
    failed at start-up.  Every operation takes it as its first argument;
    the ones that write return the collection as they leave it.  The
    clock ([datetime.now()]) and the identifier the driver generates are
    arguments too. *)

(** [float(v or 0)] *)
Definition float_or_0 (v : value) : res float := py_float (py_or v (VInt 0)).

(** The block
[[
    try:
        if k in d:
            d[k] = float(d.get(k, 0) or 0)
    except (ValueError, TypeError):
        d[k] = 0
]]
    on a dictionary [d]: the [total] of the order in [place_order], the
    [quantity] and the [price] of a copied item in [edit_order]. *)
Definition coerce_dict_field (d : dict) (k : string) : res dict :=
  try_except_ValueError_TypeError
    (if dict_has d k then
       f <- float_or_0 (get_default d k (VInt 0)) ;;
       Ok (dict_set d k (VFloat f))
     else Ok d)
    (Ok (dict_set d k (VInt 0))).

(** The same block
[[
    try:
        if k in item:
            item[k] = float(item.get(k, 0) or 0)
    except (ValueError, TypeError):
        item[k] = 0
]]
    for an [item] of any type, as the loop of [place_order] meets it. *)
Definition coerce_item_field (item : value) (k : string) : res value :=
  try_except_ValueError_TypeError
    (present <- py_contains k item ;;
     if (present : bool) then
       v <- py_get item k (VInt 0) ;;
       f <- float_or_0 v ;;
       py_setitem item k (VFloat f)
     else Ok item)
    (py_setitem item k (VInt 0)).

(** The body of the loop over the items in [place_order]. *)
Definition coerce_item (item : value) : res value :=
  item <- coerce_item_field item "quantity" ;;
  coerce_item_field item "price".

(** The loop [for item in order.get("items", []) or []].  The items of a
    list are dictionaries changed in place, so the order sees them
    changed; the elements of any other iterable are strings, which the
    loop can only inspect. *)
Definition coerce_items (order : dict) : res dict :=
  let items := py_or (get_default order "items" (VList [])) (VList []) in
  elements <- py_iter items ;;
  elements' <- mapM coerce_item elements ;;
  match items with
  | VList [] => Ok order
  | VList _ => Ok (dict_set order "items" (VList elements'))
  | _ => Ok order
  end.

Definition place_order (order_collection : option collection)
    (now : datetime) (fresh : N) (order : dict) : res collection :=
  match order_collection with
  | None => Raise (RuntimeError "Database not connected: cannot place order")
  | Some coll =>
      let order := dict_set order "orderDate" (VStr (strftime_date now)) in
      let order := dict_set order "createdAt" (VDatetime now) in
      let order :=
        match dict_get order "deliveryDate" with
        | Some d => if truthy d then dict_set order "deliveryDate" d else order
        | None => order
        end in
      order <- coerce_dict_field order "total" ;;
      order <- coerce_items order ;;
      insert_one coll fresh order
  end.

(** The statement
[[
    if isinstance(doc.get(k), datetime):
        doc[k] = doc[k].strftime("%Y-%m-%d %H:%M:%S")
]] *)
Definition stringify_datetime (doc : dict) (k : string) : dict :=
  match dict_get doc k with
  | Some (VDatetime t) => dict_set doc k (VStr (strftime_datetime t))
  | _ => doc
  end.

Definition _serialize_datetimes (doc : dict) : dict :=
  match doc with
  | [] => doc
  | _ =>
      let doc := stringify_datetime doc "createdAt" in
      let doc := stringify_datetime doc "updatedAt" in
      doc
  end.

(** [None] in, or an empty document, is [None] out. *)
Definition _serialize_order (doc : option dict) : res (option dict) :=
  match doc with
  | None | Some [] => Ok None
  | Some doc =>
      doc <-
        match get_default doc "_id" VNone with
        | VNone => Ok doc
        | id => s <- py_str id ;; Ok (dict_set doc "_id" (VStr s))
        end ;;
      Ok (Some (_serialize_datetimes doc))
  end.

Arguments _serialize_order : simpl never.

Definition get_orders (order_collection : option collection)
  : res (list (option dict)) :=
  match order_collection with
  | None => Ok []
  | Some coll =>
      let docs := find_sorted coll (fun _ => true) in
      mapM (fun d => _serialize_order (Some d)) docs
  end.

(** One entry of [sweet_stats]:
    [{"name": ..., "quantity": ..., "revenue": ...}]. *)
Record sweet_stat : Type := mkStat {
  name : value;
  quantity : number;
  revenue : number
}.

(** What [get_daily_summary] returns: a dict with these five keys. *)
Record summary : Type := mkSummary {
  total_orders : Z;
  total_revenue : number;
  total_items_sold : number;
  popular_sweets : list sweet_stat;
  orders : list (option dict)
}.

(** The first loop of [get_daily_summary]: an order whose total does not
    convert is skipped. *)
Definition sum_revenue (today_orders : list dict) : res number :=
  foldM (fun total_revenue order =>
           try_except_ValueError_TypeError
             (f <- float_or_0 (get_default order "total" (VInt 0)) ;;
              num_add total_revenue (NFloat f))
             (Ok total_revenue))
        today_orders (NInt 0).

(** [float(item.get(k, 0) or 0)], or [0] when that is a ValueError or a
    TypeError. *)
Definition item_number (item : value) (k : string) : res number :=
  try_except_ValueError_TypeError
    (v <- py_get item k (VInt 0) ;;
     f <- float_or_0 v ;;
     Ok (NFloat f))
    (Ok (NInt 0)).

(** [item.get("sweetName") or item.get("name") or "Unknown"] *)
Definition item_sweet_name (item : value) : res value :=
  a <- py_get item "sweetName" VNone ;;
  if truthy a then Ok a
  else b <- py_get item "name" VNone ;;
       Ok (py_or b (VStr "Unknown")).

(** The three statements that update [sweet_stats]: the entry found under
    [sweet_name], or else a new one at the end, gets the quantity and the
    revenue of the item added. *)
Fixpoint add_to_stats (sweet_stats : list sweet_stat) (sweet_name : value)
    (quantity_ordered price : number) : res (list sweet_stat) :=
  let add st :=
    q <- num_add (quantity st) quantity_ordered ;;
    amount <- num_mul quantity_ordered price ;;
    r <- num_add (revenue st) amount ;;
    Ok (mkStat (name st) q r) in
  match sweet_stats with
  | [] =>
      st <- add (mkStat sweet_name (NInt 0) (NInt 0)) ;;
      Ok [st]
  | st :: rest =>
      if key_eqb sweet_name (name st) then
        st' <- add st ;; Ok (st' :: rest)
      else
        rest' <- add_to_stats rest sweet_name quantity_ordered price ;;
        Ok (st :: rest')
  end.

(** The body of the loop over the items of today's orders. *)
Definition count_item (acc : number * list sweet_stat) (item : value)
  : res (number * list sweet_stat) :=
  let '(total_items_sold, sweet_stats) := acc in
  quantity_ordered <- item_number item "quantity" ;;
  sweet_name <- item_sweet_name item ;;
  price <- item_number item "price" ;;
  total_items_sold <- num_add total_items_sold quantity_ordered ;;
  if hashable sweet_name then
    sweet_stats <- add_to_stats sweet_stats sweet_name quantity_ordered price ;;
    Ok (total_items_sold, sweet_stats)
  else Raise TypeError.

(** What [for item in order.get("items", []) or []] goes through. *)
Definition order_items (order : dict) : res (list value) :=
  py_iter (py_or (get_default order "items" (VList [])) (VList [])).

(** The second loop of [get_daily_summary]. *)
Definition count_items (today_orders : list dict)
  : res (number * list sweet_stat) :=
  foldM (fun acc order =>
           items <- order_items order ;;
           foldM count_item items acc)
        today_orders (NInt 0, []).

(** [find({"orderDate": today}, {"_id": 0}).sort("createdAt", -1)] *)
Definition find_today (coll : collection) (today : string) : list dict :=
  map project_without_id (find_sorted coll (field_is "orderDate" today)).

Definition get_daily_summary (order_collection : option collection)
    (now : datetime) : res summary :=
  match order_collection with
  | None => Ok (mkSummary 0 (NInt 0) (NInt 0) [] [])
  | Some coll =>
      let today := strftime_date now in
      let today_orders := find_today coll today in
      let total_orders := Z.of_nat (length today_orders) in
      total_revenue <- sum_revenue today_orders ;;
      '(total_items_sold, sweet_stats) <- count_items today_orders ;;
      let popular_sweets := sorted_reverse quantity sweet_stats in
      serialized_orders <-
        mapM (fun o => _serialize_order (Some o)) today_orders ;;
      Ok (mkSummary total_orders total_revenue total_items_sold
                    (firstn 5 popular_sweets) serialized_orders)
  end.

(** The first statements of [update_order_status] and of [edit_order]:
[[
    try:
        oid = ObjectId(order_id)
    except Exception:
        return None
]]
    [None] stands for the early return. *)
Definition parse_id (order_id : string) : res (option N) :=
  try_except_Exception (oid <- ObjectId order_id ;; Ok (Some oid)) (Ok None).

(** The projection of [update_order_status]. *)
Definition status_projection : list string :=
  ["_id"; "customerName"; "mobile"; "address"; "status"; "total";
   "orderDate"; "deliveryDate"; "createdAt"; "updatedAt"; "items"].

(** The [$set] document of [update_order_status]. *)
Definition status_payload (status : value) (now : datetime) : dict :=
  [("status", status); ("updatedAt", VDatetime now)].

Definition update_order_status (order_collection : option collection)
    (now : datetime) (order_id : string) (status : value)
  : res (option dict * collection) :=
  match order_collection with
  | None =>
      Raise (RuntimeError "Database not connected: cannot update order status")
  | Some coll =>
      parsed <- parse_id order_id ;;
      match parsed with
      | None => Ok (None, coll)
      | Some oid =>
          let '(updated, coll') :=
            find_one_and_update coll oid (status_payload status now) in
          match option_map (project_fields status_projection) updated with
          | None | Some [] => Ok (None, coll')
          | Some doc => r <- _serialize_order (Some doc) ;; Ok (r, coll')
          end
      end
  end.

(** The table [field_map] of [edit_order]: public name, stored name. *)
Definition field_map : list (string * string) :=
  [("customerName", "customerName");
   ("contact", "mobile");
   ("amount", "total");
   ("status", "status");
   ("address", "address");
   ("mobile", "mobile");
   ("total", "total");
   ("deliveryDate", "deliveryDate");
   ("preference", "preference");
   ("items", "items")].

(** [field_map[k]], [None] when [k not in field_map]. *)
Definition field_map_get (k : string) : option string :=
  option_map snd (find (fun kv => String.eqb (fst kv) k) field_map).

(** The loop that builds [norm_items]: entries that are not dictionaries
    are dropped. *)
Fixpoint normalize_items (v : list value) : res (list value) :=
  match v with
  | [] => Ok []
  | VDict item :: rest =>
      itm <- coerce_dict_field item "quantity" ;;
      itm <- coerce_dict_field itm "price" ;;
      norm_items <- normalize_items rest ;;
      Ok (VDict itm :: norm_items)
  | _ :: rest => normalize_items rest
  end.

(** The value stored under [dest] for the value [v] received. *)
Definition coerce_update (dest : string) (v : value) : res value :=
  v <- (if String.eqb dest "total" then
          try_except_ValueError_TypeError
            (f <- float_or_0 v ;; Ok (VFloat f))
            (Ok (VInt 0))
        else Ok v) ;;
  match String.eqb dest "items", v with
  | true, VList l => norm_items <- normalize_items l ;; Ok (VList norm_items)
  | _, _ => Ok v
  end.

(** One turn of the loop over [(updates or {}).items()]. *)
Definition add_update (set_payload : dict) (kv : string * value) : res dict :=
  let '(k, v) := kv in
  match field_map_get k with
  | None => Ok set_payload
  | Some dest => v <- coerce_update dest v ;; Ok (dict_set set_payload dest v)
  end.

(** [(updates or {}).items()]: anything true that is not a dict has no
    such method. *)
Definition update_items (updates : value) : res dict :=
  match py_or updates (VDict []) with
  | VDict d => Ok d
  | _ => Raise AttributeError
  end.

(** [set_payload] as it stands after the loop. *)
Definition build_set_payload (updates : value) : res dict :=
  items <- update_items updates ;;
  foldM add_update items [].

Definition edit_order (order_collection : option collection)
    (now : datetime) (order_id : string) (updates : value)
  : res (option dict * collection) :=
  match order_collection with
  | None => Raise (RuntimeError "Database not connected: cannot edit order")
  | Some coll =>
      parsed <- parse_id order_id ;;
      match parsed with
      | None => Ok (None, coll)
      | Some oid =>
          set_payload <- build_set_payload updates ;;
          match set_payload with
          | [] =>
              match find_one coll oid with
              | None | Some [] => Ok (None, coll)
              | Some current =>
                  r <- _serialize_order (Some current) ;; Ok (r, coll)
              end
          | _ =>
              let set_payload :=
                dict_set set_payload "updatedAt" (VDatetime now) in
              let '(updated, coll') :=
                find_one_and_update coll oid set_payload in
              match updated with
              | None | Some [] => Ok (None, coll')
              | Some doc => r <- _serialize_order (Some doc) ;; Ok (r, coll')
              end
          end
      end
  end.

(* ===================================================================== *)
(** * Vocabulary of the properties                                        *)
(* ===================================================================== *)

(** A mutation of a stored order, with the clock it runs under. *)
Inductive mutation : Type :=
| Update_order_status (now : datetime) (order_id : string) (status : value)
| Edit_order (now : datetime) (order_id : string) (updates : value).

(** The collection a mutation leaves behind; one that raises has written
    nothing. *)
Definition mutate (coll : collection) (m : mutation) : collection :=
  let after r :=
    match r with
    | Ok (_, coll') => coll'
    | Raise _ => coll
    end in
  match m with
  | Update_order_status now order_id status =>
      after (update_order_status (Some coll) now order_id status)
  | Edit_order now order_id updates =>
      after (edit_order (Some coll) now order_id updates)
  end.

Definition mutate_all (coll : collection) (ms : list mutation) : collection :=
  fold_left mutate ms coll.

(** Two states of one order: same identifier, same creation stamps. *)
Definition same_creation (doc doc' : dict) : Prop :=
  dict_get doc' "_id" = dict_get doc "_id"
  /\ dict_get doc' "orderDate" = dict_get doc "orderDate"
  /\ dict_get doc' "createdAt" = dict_get doc "createdAt".

(** The value a field has once the document is normalised: a datetime
    under [createdAt] or [updatedAt] is printed, anything else is as it
    was. *)
Definition rendered (k : string) (v : option value) : option value :=
  match v with
  | Some (VDatetime t) =>
      if String.eqb k "createdAt" || String.eqb k "updatedAt"
      then Some (VStr (strftime_datetime t))
      else v
  | _ => v
  end.

(** A stored document next to the entry [get_orders] returns for it: the
    same keys, the identifier as its twenty-four digits, the other fields
    rendered. *)
Definition listed_as (doc : dict) (entry : option dict) : Prop :=
  match entry with
  | None => doc = []
  | Some d =>
      keys d = keys doc
      /\ (forall oid, dict_get doc "_id" = Some (VObjectId oid) ->
                      dict_get d "_id" = Some (VStr (ObjectId_str oid)))
      /\ (forall k, k <> "_id" -> dict_get d k = rendered k (dict_get doc k))
  end.

(** A stored document next to the entry [get_daily_summary] returns for
    it: no identifier, the other keys in their order, the other fields
    rendered. *)
Definition summarised_as (doc : dict) (entry : option dict) : Prop :=
  match entry with
  | None => without "_id" doc = []
  | Some d =>
      dict_get d "_id" = None
      /\ keys d = keys (without "_id" doc)
      /\ (forall k, k <> "_id" -> dict_get d k = rendered k (dict_get doc k))
  end.

(** A float that is neither negative nor a NaN. *)
Definition float_nonneg (f : float) : bool :=
  match f with
  | S754_zero _ => true
  | S754_infinity s => negb s
  | S754_nan => false
  | S754_finite s _ _ => negb s
  end.

Definition nonneg (n : number) : bool :=
  match n with
  | NInt z => 0 <=? z
  | NFloat f => float_nonneg f
  end.

(** The quantity the summary reads from an item is not negative, and not
    a NaN. *)
Definition quantity_nonneg (item : value) : Prop :=
  forall q, item_number item "quantity" = Ok q -> nonneg q = true.

Definition quantities_nonneg (order : dict) : Prop :=
  forall items, order_items order = Ok items -> Forall quantity_nonneg items.

(** Descending order of the quantities, each at least the ones after it. *)
Definition descending (l : list sweet_stat) : Prop :=
  StronglySorted (fun a b => num_ge (quantity a) (quantity b) = true) l.

(** How a numeric field of the input relates to what is stored: nothing
    when the input has no such key; [float(v or 0)] when that converts;
    the integer [0] when the conversion is a ValueError or a TypeError. *)
Definition coerced_as (input stored : option value) : Prop :=
  match input with
  | None => stored = None
  | Some v =>
      (forall f, float_or_0 v = Ok f -> stored = Some (VFloat f))
      /\ (float_or_0 v = Raise ValueError \/ float_or_0 v = Raise TypeError ->
          stored = Some (VInt 0))
  end.

(** A line item next to its stored form: the same keys in the same order,
    [quantity] and [price] coerced each from its own input, every other
    field as it was. *)
Definition item_as_stored (item item' : value) : Prop :=
  exists d d',
    item = VDict d /\ item' = VDict d'
    /\ keys d' = keys d
    /\ (forall k, k <> "quantity" -> k <> "price" ->
                  dict_get d' k = dict_get d k)
    /\ coerced_as (dict_get d "quantity") (dict_get d' "quantity")
    /\ coerced_as (dict_get d "price") (dict_get d' "price").

(** An [int] beyond the range of [float]: the one input [float(v or 0)]
    answers with an OverflowError. *)
Definition too_large (v : value) : bool :=
  match py_or v (VInt 0) with
  | VInt z =>
      match float_of_Z z with
      | S754_infinity _ => true
      | _ => false
      end
  | _ => false
  end.

Definition field_fits (d : dict) (k : string) : Prop :=
  forall v, dict_get d k = Some v -> too_large v = false.

(** The items of an order are missing, or false, or a list of
    dictionaries whose quantities and prices fit. *)
Definition plain_items (order : dict) : Prop :=
  match get_default order "items" (VList []) with
  | VList l =>
      Forall (fun item => exists d, item = VDict d
                                    /\ field_fits d "quantity"
                                    /\ field_fits d "price") l
  | v => truthy v = false
  end.

(** An update whose numeric values all fit: the value resolved to
    [total], and the quantities and prices of the items. *)
Definition update_fits (kv : string * value) : Prop :=
  match field_map_get (fst kv), snd kv with
  | Some "total", v => too_large v = false
  | Some "items", VList l =>
      Forall (fun item => forall d, item = VDict d ->
                                    field_fits d "quantity"
                                    /\ field_fits d "price") l
  | _, _ => True
  end.

(** An [orderDate] that is not an array: the server's equality filter
    also matches an array that holds the string, and no document this
    module writes has one. *)
Definition orderDate_is_scalar (doc : dict) : Prop :=
  forall l, dict_get doc "orderDate" <> Some (VList l).

(** What an order adds to the revenue of its day: [float(total or 0)],
    and nothing when that is a ValueError or a TypeError. *)
Definition revenue_share (doc : dict) : list number :=
  match float_or_0 (get_default doc "total" (VInt 0)) with
  | Ok f => [NFloat f]
  | Raise _ => []
  end.

(** The items of an order: the elements of the list under [items]. *)
Definition items_of (doc : dict) : list value :=
  match dict_get doc "items" with
  | Some (VList l) => l
  | _ => []
  end.

(** What an item adds to the items sold: [float(quantity or 0)], and the
    integer [0] when that is a ValueError or a TypeError. *)
Definition quantity_share (item : value) : number :=
  match item with
  | VDict d =>
      match float_or_0 (get_default d "quantity" (VInt 0)) with
      | Ok f => NFloat f
      | Raise _ => NInt 0
      end
  | _ => NInt 0
  end.

(** The sum of numbers, added one by one to the integer [0]. *)
Definition py_sum (ns : list number) : res number := foldM num_add ns (NInt 0).

(** ** Sample data *)

(** The clock of the examples: 3 November 2026, 09:05:00. *)
Definition sample_now : datetime := mkDatetime 2026 11 3 9 5 0 0.

(** The day before, at noon. *)
Definition sample_yesterday : datetime := mkDatetime 2026 11 2 12 0 0 0.

Definition sample_id : string := "65a1b2c3d4e5f60718293a4b".

(** The same identifier as a number. *)
Definition sample_oid : N := 31453467242603790624579205707.

(** A stored order, as [place_order] leaves it. *)
Definition sample_order : dict :=
  [("_id", VObjectId sample_oid);
   ("customerName", VStr "Asha");
   ("mobile", VStr "98450");
   ("total", VFloat (dec_to_float false 250 0));
   ("items",
    VList [VDict [("sweetName", VStr "Laddu");
                  ("quantity", VFloat (dec_to_float false 2 0));
                  ("price", VFloat (dec_to_float false 125 0))]]);
   ("orderDate", VStr "2026-11-03");
   ("createdAt", VDatetime sample_now)].

(** An order of the day before. *)
Definition sample_old_order : dict :=
  [("_id", VObjectId 1);
   ("customerName", VStr "Ravi");
   ("total", VFloat (dec_to_float false 90 0));
   ("items",
    VList [VDict [("name", VStr "Barfi");
                  ("quantity", VFloat (dec_to_float false 3 0));
                  ("price", VFloat (dec_to_float false 30 0))]]);
   ("orderDate", VStr "2026-11-02");
   ("createdAt", VDatetime sample_yesterday)].

(** A second order of the same day, placed later in the morning. *)
Definition sample_second_order : dict :=
  [("_id", VObjectId 2);
   ("customerName", VStr "Meena");
   ("total", VFloat (dec_to_float false 1205 (-1)));
   ("items",
    VList [VDict [("sweetName", VStr "Barfi");
                  ("quantity", VFloat (dec_to_float false 9 0))];
           VDict [("sweetName", VStr "Jalebi");
                  ("quantity", VFloat (dec_to_float false 1 0))];
           VDict [("sweetName", VStr "Peda");
                  ("quantity", VFloat (dec_to_float false 7 0))];
           VDict [("sweetName", VStr "Kaju");
                  ("quantity", VFloat (dec_to_float false 6 0))];
           VDict [("sweetName", VStr "Rasgulla");
                  ("quantity", VFloat (dec_to_float false 8 0))];
           VDict [("sweetName", VStr "Halwa");
                  ("quantity", VFloat (dec_to_float false 4 0))];
           VDict [("sweetName", VStr "Laddu");
                  ("quantity", VFloat (dec_to_float false 3 0))]]);
   ("orderDate", VStr "2026-11-03");
   ("createdAt", VDatetime (mkDatetime 2026 11 3 10 30 0 0))].

(** A collection with one order of the day before and two of the day,
    seven sweets between them. *)
Definition sample_busy_day : list dict :=
  [sample_old_order; sample_order; sample_second_order].

(** The same instant read from a clock that counts microseconds. *)
Definition sample_instant : datetime := mkDatetime 2026 11 3 9 5 0 1500.

(** ** Vocabulary of the further properties *)

(** The fields of a date, the most significant first, and the order
    [datetime_ltb] puts on them. *)
Definition datetime_fields (t : datetime) : list nat :=
  [year t; month t; day t; hour t; minute t; second t; microsecond t].

Fixpoint lex_ltb (x y : list nat) : bool :=
  match x, y with
  | p :: x', q :: y' => (p <? q)%nat || ((p =? q)%nat && lex_ltb x' y')
  | _, _ => false
  end.

(** Documents as [sort("createdAt", -1)] leaves them: no document would
    sort before one that precedes it.  For two documents with a date, the
    later one in the list is not the more recent. *)
Definition newest_first (docs : list dict) : Prop :=
  StronglySorted (fun a b => created_after b a = false) docs.

(** [isinstance(v, dict)] *)
Definition is_dict (v : value) : bool :=
  match v with
  | VDict _ => true
  | _ => false
  end.

(** A value that is neither a container nor a string: [k in v] and
    [v[k] = x] are both a TypeError. *)
Definition is_scalar (v : value) : bool :=
  match v with
  | VList _ | VDict _ | VStr _ => false
  | _ => true
  end.

(** A dictionary item whose quantity and price fit. *)
Definition item_fits (item : value) : Prop :=
  exists d, item = VDict d /\ field_fits d "quantity" /\ field_fits d "price".

(** No two entries under the same sweet. *)
Definition distinct_names (stats : list sweet_stat) : Prop :=
  ForallOrdPairs (fun a b => key_eqb (name a) (name b) = false) stats.

(** The identifier a mutation is called with. *)
Definition mutation_id (m : mutation) : string :=
  match m with
  | Update_order_status _ order_id _ => order_id
  | Edit_order _ order_id _ => order_id
  end.

(** Two states of a collection that differ at most on the documents
    identified by [oid]. *)
Definition untouched_except (oid : N) (coll coll' : collection) : Prop :=
  Forall2 (fun d d' => has_id oid d = false -> d' = d) coll coll'.

(** A value that holds no date, at any depth: what a JSON body decodes
    to.  The store keeps such a value as it is. *)
Fixpoint has_no_date (v : value) : bool :=
  match v with
  | VDatetime _ => false
  | VList l => forallb has_no_date l
  | VDict d => forallb (fun kv => has_no_date (snd kv)) d
  | _ => true
  end.

(** The fields [place_order] writes itself. *)
Definition written_by_place_order : list string :=
  ["_id"; "orderDate"; "createdAt"; "total"; "items"].

(** The summary of a day on which nothing was ordered. *)
Definition empty_summary : summary := mkSummary 0 (NInt 0) (NInt 0) [] [].

(** Every document carries an ObjectId, as the ones [place_order] stores. *)
Definition ids_are_ObjectIds (coll : collection) : Prop :=
  Forall (fun doc => exists oid, dict_get doc "_id" = Some (VObjectId oid)) coll.

(* ===================================================================== *)
(** * Facts about the model                                               *)
(* ===================================================================== *)

(** ** The built-ins on a few inputs *)

Example float_of_decimal_string :
  py_float (VStr "12.5") = Ok (S754_finite false 7036874417766400 (-49)).
Proof. vm_compute. reflexivity. Qed.

Example float_of_padded_string :
  py_float (VStr " 1_250e-2 ") = py_float (VStr "12.5").
Proof. vm_compute. reflexivity. Qed.

Example float_of_words : py_float (VStr "a dozen") = Raise ValueError.
Proof. vm_compute. reflexivity. Qed.

Example float_of_nan_string : py_float (VStr "nan") = Ok S754_nan.
Proof. vm_compute. reflexivity. Qed.

Example float_of_list : float_or_0 (VList [VInt 1]) = Raise TypeError.
Proof. reflexivity. Qed.

Example float_of_nothing :
  float_or_0 VNone = Ok (S754_zero false)
  /\ float_or_0 (VStr "") = Ok (S754_zero false)
  /\ float_or_0 (VList []) = Ok (S754_zero false).
Proof. vm_compute. repeat split. Qed.

Example float_of_huge_int : py_float (VInt (10 ^ 400)) = Raise OverflowError.
Proof. vm_compute. reflexivity. Qed.

Example largest_int_that_converts :
  py_float (VInt (2 ^ 1024 - 2 ^ 970 - 1))
  = Ok (S754_finite false 9007199254740991 971)
  /\ py_float (VInt (2 ^ 1024 - 2 ^ 970)) = Raise OverflowError.
Proof. vm_compute. split; reflexivity. Qed.

Example int_against_float :
  num_lt (NInt 1) (NFloat (dec_to_float false 15 (-1))) = true
  /\ num_lt (NFloat (dec_to_float false 15 (-1))) (NInt 2) = true
  /\ num_eq (NInt 2) (NFloat (float_of_Z 2)) = true.
Proof. vm_compute. repeat split. Qed.

Example sorted_keeps_ties_in_order :
  map fst (sorted_reverse snd
             [("a", NInt 1); ("b", NFloat (float_of_Z 3));
              ("c", NFloat (float_of_Z 1)); ("d", NInt 3)])
  = ["b"; "d"; "a"; "c"].
Proof. vm_compute. reflexivity. Qed.

Example strftime_pads : strftime_datetime sample_now = "2026-11-03 09:05:00".
Proof. reflexivity. Qed.

Example ObjectId_of_sample : ObjectId sample_id = Ok sample_oid.
Proof. vm_compute. reflexivity. Qed.

Example ObjectId_of_a_name : ObjectId "laddu" = Raise InvalidId.
Proof. reflexivity. Qed.

(** ** Dictionaries *)

Section DictFacts.
Implicit Types (d : dict) (k : string) (v : value).

Lemma dict_get_set_eq d k v : dict_get (dict_set d k v) k = Some v.
Proof.
  induction d as [|[k' v'] d IH]; simpl.
  - now rewrite String.eqb_refl.
  - destruct (String.eqb k' k) eqn:E; simpl.
    + now rewrite String.eqb_refl.
    + now rewrite E.
Qed.

Lemma dict_get_set_neq d k k' v :
  k' <> k -> dict_get (dict_set d k v) k' = dict_get d k'.
Proof.
  intros Hne. induction d as [|[k0 v0] d IH]; simpl.
  - destruct (String.eqb k k') eqn:E; [|reflexivity].
    apply String.eqb_eq in E. congruence.
  - destruct (String.eqb k0 k) eqn:E; simpl.
    + apply String.eqb_eq in E. subst k0.
      destruct (String.eqb k k') eqn:E'; [|reflexivity].
      apply String.eqb_eq in E'. congruence.
    + now rewrite IH.
Qed.

Lemma dict_get_cons_neq d k k' v :
  k' <> k -> dict_get ((k', v) :: d) k = dict_get d k.
Proof.
  intros H. simpl. destruct (String.eqb k' k) eqn:E; [|reflexivity].
  apply String.eqb_eq in E. contradiction.
Qed.

Lemma dict_has_true d k : dict_has d k = true <-> dict_get d k <> None.
Proof.
  unfold dict_has. destruct (dict_get d k); split; congruence.
Qed.

Lemma dict_get_In d k v : dict_get d k = Some v -> In (k, v) d.
Proof.
  induction d as [|[k' v'] d IH]; simpl; [discriminate|].
  destruct (String.eqb k' k) eqn:E.
  - apply String.eqb_eq in E. intros [= ->]. subst. now left.
  - intros H. right. now apply IH.
Qed.

Lemma dict_get_None_keys d k : dict_get d k = None <-> ~ In k (keys d).
Proof.
  induction d as [|[k' v'] d IH]; simpl.
  - tauto.
  - destruct (String.eqb k' k) eqn:E.
    + apply String.eqb_eq in E. split; [discriminate|]. intros H. tauto.
    + apply String.eqb_neq in E. rewrite IH. tauto.
Qed.

(** Assigning to a key that is present keeps the keys and their order. *)
Lemma keys_set_present d k v :
  dict_get d k <> None -> keys (dict_set d k v) = keys d.
Proof.
  induction d as [|[k' v'] d IH]; simpl; [congruence|].
  destruct (String.eqb k' k) eqn:E; simpl.
  - apply String.eqb_eq in E. now subst.
  - intros H. now rewrite IH.
Qed.

Lemma keys_set d k v : forall k', In k' (keys (dict_set d k v)) <-> k' = k \/ In k' (keys d).
Proof.
  intros k'. induction d as [|[k0 v0] d IH]; simpl.
  - intuition.
  - destruct (String.eqb k0 k) eqn:E; simpl.
    + apply String.eqb_eq in E. subst. intuition.
    + rewrite IH. intuition.
Qed.

Lemma dict_get_without_eq d k : dict_get (without k d) k = None.
Proof.
  induction d as [|[k' v'] d IH]; simpl; [reflexivity|].
  destruct (String.eqb k' k) eqn:E; simpl; [assumption|].
  now rewrite E.
Qed.

Lemma dict_get_without_neq d k k' :
  k' <> k -> dict_get (without k d) k' = dict_get d k'.
Proof.
  intros Hne. induction d as [|[k0 v0] d IH]; simpl; [reflexivity|].
  destruct (String.eqb k0 k) eqn:E; simpl.
  - apply String.eqb_eq in E. subst k0.
    destruct (String.eqb k k') eqn:E'; [|assumption].
    apply String.eqb_eq in E'. congruence.
  - now rewrite IH.
Qed.

(** [$set] leaves alone the fields it does not name. *)
Lemma dict_get_apply_set_other set : forall d k,
  dict_get set k = None -> dict_get (apply_set d set) k = dict_get d k.
Proof.
  unfold apply_set.
  induction set as [|[k0 v0] set IH]; intros d k Hk; simpl in *.
  - reflexivity.
  - destruct (String.eqb k0 k) eqn:E; [discriminate|].
    rewrite IH by assumption.
    apply dict_get_set_neq. apply String.eqb_neq in E. congruence.
Qed.

(** What the store keeps: everything but a date under one of the two
    stamps. *)
Lemma stored_field_other k v :
  k <> "createdAt" -> k <> "updatedAt" -> stored_field k v = v.
Proof.
  intros H1 H2. unfold stored_field. destruct v; try reflexivity.
  destruct (String.eqb_spec k "createdAt"); [contradiction|].
  destruct (String.eqb_spec k "updatedAt"); [contradiction|]. reflexivity.
Qed.

Lemma stored_other k (o : option value) :
  k <> "createdAt" -> k <> "updatedAt" -> option_map (stored_field k) o = o.
Proof.
  intros H1 H2. destruct o; simpl; [|reflexivity].
  now rewrite stored_field_other.
Qed.

Lemma stored_field_no_date k v :
  has_no_date v = true -> stored_field k v = v.
Proof. destruct v; try reflexivity. discriminate. Qed.

Lemma dict_get_to_bson d k :
  dict_get (to_bson d) k = option_map (stored_field k) (dict_get d k).
Proof.
  induction d as [|[k' v'] d IH]; simpl; [reflexivity|].
  destruct (String.eqb_spec k' k) as [->|]; [reflexivity | exact IH].
Qed.

Lemma keys_to_bson d : keys (to_bson d) = keys d.
Proof.
  unfold keys, to_bson. rewrite map_map. reflexivity.
Qed.

(** [$set] with distinct field names stores each value it names. *)
Lemma dict_get_apply_set_named set : forall d k v,
  NoDup (keys set) -> dict_get set k = Some v ->
  dict_get (apply_set d set) k = Some (stored_field k v).
Proof.
  unfold apply_set.
  induction set as [|[k0 v0] set IH]; intros d k v Hnd Hk; simpl in *.
  - discriminate.
  - inversion Hnd as [|? ? Hnotin Hnd']; subst.
    destruct (String.eqb k0 k) eqn:E.
    + apply String.eqb_eq in E. subst k0. injection Hk as ->.
      fold (apply_set (dict_set d k (stored_field k v)) set).
      rewrite dict_get_apply_set_other.
      * apply dict_get_set_eq.
      * now apply dict_get_None_keys.
    + now apply IH.
Qed.

Lemma NoDup_keys_set d k v : NoDup (keys d) -> NoDup (keys (dict_set d k v)).
Proof.
  induction d as [|[k0 v0] d IH]; simpl; intros Hnd.
  - constructor; [tauto | constructor].
  - inversion Hnd as [|? ? Hnotin Hnd']; subst.
    destruct (String.eqb k0 k) eqn:E; simpl.
    + apply String.eqb_eq in E. subst. now constructor.
    + constructor; [|now apply IH].
      rewrite keys_set. apply String.eqb_neq in E. intuition.
Qed.
End DictFacts.

(** ** The collection *)

Section MongoFacts.
Implicit Types (c : collection) (oid : N) (set doc : dict).

Lemma find_one_and_update_missing c oid set :
  find_one c oid = None -> find_one_and_update c oid set = (None, c).
Proof.
  unfold find_one. induction c as [|doc c IH]; simpl; [reflexivity|].
  destruct (has_id oid doc); [discriminate|].
  intros H. now rewrite IH.
Qed.

(** The document found is the one updated; the update is what comes
    back, and what the next lookup finds when [$set] spares [_id]. *)
Lemma find_one_and_update_found c oid set doc :
  find_one c oid = Some doc ->
  dict_get set "_id" = None ->
  exists c',
    find_one_and_update c oid set = (Some (apply_set doc set), c')
    /\ find_one c' oid = Some (apply_set doc set)
    /\ length c' = length c.
Proof.
  unfold find_one. intros Hfind Hset.
  induction c as [|d c IH]; simpl in *; [discriminate|].
  destruct (has_id oid d) eqn:E.
  - injection Hfind as ->. eexists. split; [reflexivity|]. simpl.
    unfold has_id in *. rewrite dict_get_apply_set_other by assumption.
    now rewrite E.
  - destruct (IH Hfind) as (c' & -> & Hf & Hl).
    eexists. split; [reflexivity|]. simpl. rewrite E. auto.
Qed.

(** Every document is as it was, or is its own update. *)
Lemma find_one_and_update_each c oid set :
  Forall2 (fun d d' => d' = d \/ d' = apply_set d set)
          c (snd (find_one_and_update c oid set)).
Proof.
  induction c as [|d c IH]; simpl; [constructor|].
  destruct (has_id oid d).
  - simpl. constructor; [now right|].
    clear. induction c; constructor; auto.
  - destruct (find_one_and_update c oid set) as [r c'']. simpl in *.
    constructor; [now left | assumption].
Qed.

Lemma find_one_has_id c oid doc :
  find_one c oid = Some doc -> dict_get doc "_id" = Some (VObjectId oid).
Proof.
  unfold find_one. intros H. apply find_some in H as [_ H].
  unfold has_id in H. destruct (dict_get doc "_id") as [[]|]; try discriminate.
  apply N.eqb_eq in H. now subst.
Qed.
End MongoFacts.

(** ** Identifiers *)

(** A string that does not have twenty-four characters is no identifier. *)
Lemma ObjectId_wrong_length (s : string) :
  length (list_ascii_of_string s) <> 24%nat -> ObjectId s = Raise InvalidId.
Proof.
  intros H. unfold ObjectId.
  destruct (Nat.eqb (length (list_ascii_of_string s)) 24) eqn:E.
  - apply Nat.eqb_eq in E. contradiction.
  - reflexivity.
Qed.

Lemma hex_val_hex_char (d : N) :
  (d < 16)%N -> hex_val (hex_char d) = Some d.
Proof.
  intros H. rewrite <- (N2Nat.id d).
  assert (Hn : (N.to_nat d < 16)%nat) by lia.
  revert Hn. generalize (N.to_nat d) as n. intros n Hn.
  do 16 (destruct n as [|n]; [reflexivity|]). lia.
Qed.

Lemma length_hex_fixed (n : nat) : forall o acc,
  length (list_ascii_of_string (hex_fixed n o acc))
  = (n + length (list_ascii_of_string acc))%nat.
Proof.
  induction n as [|n IH]; intros o acc; simpl; [reflexivity|].
  rewrite IH. simpl. lia.
Qed.

Lemma hex_digits_hex_fixed (n : nat) : forall o acc a,
  hex_digits (list_ascii_of_string (hex_fixed n o acc)) a
  = hex_digits (list_ascii_of_string acc)
      (a * 16 ^ N.of_nat n + o mod 16 ^ N.of_nat n)%N.
Proof.
  induction n as [|n IH]; intros o acc a.
  - simpl. now rewrite N.mod_1_r, N.mul_1_r, N.add_0_r.
  - cbn [hex_fixed]. rewrite IH. cbn [list_ascii_of_string hex_digits].
    rewrite hex_val_hex_char by (apply N.mod_lt; discriminate).
    f_equal. rewrite Nat2N.inj_succ, N.pow_succ_r', N.Div0.mod_mul_r. lia.
Qed.

Lemma is_hex_space_not_digit (c : ascii) :
  is_hex_space c = true -> hex_val c = None.
Proof. destruct c as [[] [] [] [] [] [] [] []]; vm_compute; congruence. Qed.

(** On digits alone, [bytes.fromhex] reads the bytes of the number the
    digits spell. *)
Lemma fromhex_digits (n : nat) : forall cs acc o,
  length cs = (2 * n)%nat -> hex_digits cs acc = Some o ->
  exists bs,
    fromhex cs = Some bs /\ length bs = n
    /\ fold_left (fun a b => (256 * a + b)%N) bs acc = o.
Proof.
  induction n as [|n IH]; intros cs acc o Hlen Hd.
  - destruct cs; [|discriminate]. injection Hd as <-. now exists [].
  - destruct cs as [|c1 [|c2 cs]]; try (simpl in Hlen; lia).
    cbn [hex_digits] in Hd.
    destruct (hex_val c1) as [d1|] eqn:H1; [|discriminate].
    destruct (hex_val c2) as [d2|] eqn:H2; [|discriminate].
    destruct (IH cs (16 * (16 * acc + d1) + d2)%N o) as (bs & Hbs & Hl & Hv);
      [simpl in Hlen; lia | exact Hd |].
    exists ((16 * d1 + d2)%N :: bs). cbn [fromhex].
    destruct (is_hex_space c1) eqn:S1;
      [apply is_hex_space_not_digit in S1; congruence|].
    rewrite H1, H2, Hbs. cbn [option_map length fold_left].
    split; [reflexivity|]. split; [now rewrite Hl|].
    rewrite <- Hv. f_equal. lia.
Qed.

(** Every string is an identifier or an InvalidId: parsing raises nothing
    else. *)
Lemma ObjectId_total (s : string) :
  (exists oid, ObjectId s = Ok oid) \/ ObjectId s = Raise InvalidId.
Proof.
  unfold ObjectId.
  destruct (Nat.eqb _ 24); [|now right].
  destruct (fromhex _); [left; eauto | now right].
Qed.

(** The string form is canonical: it has twenty-four characters, and
    parsing it gives the identifier back. *)
Lemma ObjectId_str_canonical (o : N) :
  (o < 2 ^ 96)%N ->
  length (list_ascii_of_string (ObjectId_str o)) = 24%nat
  /\ ObjectId (ObjectId_str o) = Ok o.
Proof.
  intros H. unfold ObjectId, ObjectId_str.
  assert (Hlen : length (list_ascii_of_string (hex_fixed 24 o "")) = 24%nat)
    by (rewrite length_hex_fixed; reflexivity).
  split; [exact Hlen|]. rewrite Hlen. cbn [Nat.eqb].
  destruct (fromhex_digits 12 (list_ascii_of_string (hex_fixed 24 o "")) 0 o)
    as (bs & -> & Hl & Hv).
  - exact Hlen.
  - rewrite hex_digits_hex_fixed. cbn [hex_digits list_ascii_of_string].
    now rewrite N.mul_0_l, N.add_0_l, N.mod_small.
  - unfold id_of_bytes, bytes_value. rewrite Hl, Hv. reflexivity.
Qed.

Lemma parse_id_ok order_id oid :
  ObjectId order_id = Ok oid -> parse_id order_id = Ok (Some oid).
Proof. unfold parse_id. now intros ->. Qed.

Lemma parse_id_invalid order_id :
  ObjectId order_id = Raise InvalidId -> parse_id order_id = Ok None.
Proof. unfold parse_id. now intros ->. Qed.

(** ** Normalisation *)

(** A document that carries an ObjectId is normalised to a document. *)
Lemma _serialize_order_with_id doc oid :
  dict_get doc "_id" = Some (VObjectId oid) ->
  _serialize_order (Some doc) =
    Ok (Some (_serialize_datetimes
                (dict_set doc "_id" (VStr (ObjectId_str oid))))).
Proof.
  intros H. unfold _serialize_order, get_default. rewrite H.
  destruct doc; [discriminate|]. reflexivity.
Qed.

(** ** The payload of [edit_order] *)

Lemma field_map_get_dest k dest :
  field_map_get k = Some dest -> In dest (map snd field_map).
Proof.
  unfold field_map_get.
  destruct (find _ field_map) as [[k' d']|] eqn:E; [|discriminate].
  intros [= <-]. apply find_some in E as [E _].
  now apply (in_map snd) in E.
Qed.

Lemma add_update_keys acc kv acc' :
  add_update acc kv = Ok acc' ->
  forall k, In k (keys acc') -> In k (map snd field_map) \/ In k (keys acc).
Proof.
  destruct kv as [k0 v0]. unfold add_update.
  destruct (field_map_get k0) as [dest|] eqn:E.
  - destruct (coerce_update dest v0) as [v|e]; simpl; [|discriminate].
    intros [= <-] k Hk. apply keys_set in Hk as [-> | Hk]; [|now right].
    left. eapply field_map_get_dest; eassumption.
  - intros [= <-] k Hk. now right.
Qed.

Lemma foldM_add_update_keys fields : forall acc payload,
  foldM add_update fields acc = Ok payload ->
  forall k, In k (keys payload) -> In k (map snd field_map) \/ In k (keys acc).
Proof.
  induction fields as [|kv fields IH]; simpl; intros acc payload H k Hk.
  - injection H as <-. now right.
  - destruct (add_update acc kv) as [acc'|e] eqn:E; simpl in H; [|discriminate].
    destruct (IH _ _ H k Hk) as [Hd | Hacc]; [now left|].
    eapply add_update_keys; eassumption.
Qed.

(** Every key of the payload is a stored name of [field_map]. *)
Lemma build_set_payload_keys updates payload :
  build_set_payload updates = Ok payload ->
  forall k, In k (keys payload) -> In k (map snd field_map).
Proof.
  unfold build_set_payload. intros H k Hk.
  destruct (update_items updates) as [fields|e]; simpl in H; [|discriminate].
  destruct (foldM_add_update_keys _ _ _ H k Hk) as [Hd | []]. exact Hd.
Qed.

Lemma foldM_add_update_unrecognized fields : forall acc,
  Forall (fun kv => field_map_get (fst kv) = None) fields ->
  foldM add_update fields acc = Ok acc.
Proof.
  induction fields as [|[k v] fields IH]; intros acc Hall; simpl.
  - reflexivity.
  - inversion Hall as [|? ? Hk Hrest]; subst. simpl in Hk. rewrite Hk. simpl.
    now apply IH.
Qed.

(** The payload is built by assignments, so no key occurs twice. *)
Lemma foldM_add_update_NoDup fields : forall acc payload,
  NoDup (keys acc) -> foldM add_update fields acc = Ok payload ->
  NoDup (keys payload).
Proof.
  induction fields as [|[k v] fields IH]; simpl; intros acc payload Hnd H.
  - now injection H as <-.
  - destruct (field_map_get k) as [dest|]; simpl in H.
    + destruct (coerce_update dest v) as [v'|e]; simpl in H; [|discriminate].
      eapply IH; [|eassumption]. now apply NoDup_keys_set.
    + eapply IH; eassumption.
Qed.

(* ===================================================================== *)
(** * Properties of the specification                                     *)
(* ===================================================================== *)

(** ** No database handle *)

(** C1.  When [order_collection] is [None], [get_orders] returns the
    empty list, [get_daily_summary] returns the zeroed summary (no order,
    revenue 0, no item sold, no popular sweet, no order listed), and
    [place_order], [update_order_status] and [edit_order] each raise a
    RuntimeError that says the database is not connected. *)
Theorem no_handle :
  get_orders None = Ok []
  /\ (forall now,
        get_daily_summary None now = Ok (mkSummary 0 (NInt 0) (NInt 0) [] []))
  /\ (forall now fresh order,
        place_order None now fresh order =
        Raise (RuntimeError "Database not connected: cannot place order"))
  /\ (forall now order_id status,
        update_order_status None now order_id status =
        Raise (RuntimeError
                 "Database not connected: cannot update order status"))
  /\ (forall now order_id updates,
        edit_order None now order_id updates =
        Raise (RuntimeError "Database not connected: cannot edit order")).
Proof. repeat split. Qed.

(** ** Identifiers that name no order *)

(** C7.  With a collection at hand, [update_order_status] returns [None]
    and raises nothing, and writes nothing, for every identifier string
    that does not parse, and for every one that parses and names no
    stored document.  Every string is of one kind or the other: parsing
    raises nothing but InvalidId, which the function catches. *)
Theorem update_order_status_not_found
    (coll : collection) (now : datetime) (order_id : string) (status : value) :
  ((exists oid, ObjectId order_id = Ok oid)
   \/ ObjectId order_id = Raise InvalidId)
  /\ (ObjectId order_id = Raise InvalidId ->
      update_order_status (Some coll) now order_id status = Ok (None, coll))
  /\ (forall oid,
        ObjectId order_id = Ok oid -> find_one coll oid = None ->
        update_order_status (Some coll) now order_id status = Ok (None, coll))
  /\ ((forall oid, ObjectId order_id = Ok oid -> find_one coll oid = None) ->
      update_order_status (Some coll) now order_id status = Ok (None, coll)).
Proof.
  assert (Hbad : ObjectId order_id = Raise InvalidId ->
                 update_order_status (Some coll) now order_id status
                 = Ok (None, coll)).
  { intros H. unfold update_order_status. now rewrite (parse_id_invalid _ H). }
  assert (Hmiss : forall oid,
             ObjectId order_id = Ok oid -> find_one coll oid = None ->
             update_order_status (Some coll) now order_id status
             = Ok (None, coll)).
  { intros oid H Hnone. unfold update_order_status.
    rewrite (parse_id_ok _ _ H). simpl.
    now rewrite (find_one_and_update_missing _ _ _ Hnone). }
  split; [apply ObjectId_total|]. split; [exact Hbad|]. split; [exact Hmiss|].
  intros Hall. destruct (ObjectId_total order_id) as [[oid Hid] | Hid].
  - apply (Hmiss oid Hid). now apply Hall.
  - now apply Hbad.
Qed.

Lemma update_order_status_not_found_witness :
  update_order_status (Some [sample_order]) sample_now "laddu" (VStr "x")
    = Ok (None, [sample_order])
  /\ update_order_status (Some [sample_order]) sample_now
       "6 5a1b2c3d4e5f60718293a4" (VStr "x")
     = Ok (None, [sample_order])
  /\ update_order_status (Some [sample_order]) sample_now
       "65a1b2c3d4e5f60718293a  " (VStr "x")
     = Ok (None, [sample_order])
  /\ update_order_status (Some [sample_order]) sample_now
       "0123456789abcdef01234567" (VStr "delivered")
     = Ok (None, [sample_order]).
Proof.
  destruct (update_order_status_not_found
              [sample_order] sample_now "laddu" (VStr "x"))
    as (_ & Hname & _).
  destruct (update_order_status_not_found
              [sample_order] sample_now "6 5a1b2c3d4e5f60718293a4" (VStr "x"))
    as (_ & Hblank & _).
  destruct (update_order_status_not_found
              [sample_order] sample_now "65a1b2c3d4e5f60718293a  " (VStr "x"))
    as (_ & _ & _ & Hshort).
  destruct (update_order_status_not_found
              [sample_order] sample_now "0123456789abcdef01234567"
              (VStr "delivered"))
    as (_ & _ & _ & Hmiss).
  split; [apply Hname; reflexivity|].
  split; [apply Hblank; reflexivity|].
  split.
  - apply Hshort. intros oid H. vm_compute in H. injection H as <-.
    reflexivity.
  - apply Hmiss. intros oid H. vm_compute in H. injection H as <-.
    reflexivity.
Defined.

(** ** Creation stamps *)

Lemma same_creation_refl (coll : collection) : Forall2 same_creation coll coll.
Proof. induction coll; constructor; unfold same_creation; auto. Qed.

Lemma same_creation_trans (c1 c2 c3 : collection) :
  Forall2 same_creation c1 c2 -> Forall2 same_creation c2 c3 ->
  Forall2 same_creation c1 c3.
Proof.
  intros H12. revert c3.
  induction H12 as [|d1 d2 c1 c2 (Ha & Hb & Hc) _ IH]; intros c3 H23;
    inversion H23 as [|? d3 ? c3' (Ha' & Hb' & Hc') Hrest]; subst;
    constructor; auto.
  unfold same_creation. repeat split; congruence.
Qed.

(** A [$set] that names none of [_id], [orderDate], [createdAt] leaves
    them as they are, in every document. *)
Lemma find_one_and_update_same_creation (c : collection) (oid : N) (set : dict) :
  dict_get set "_id" = None ->
  dict_get set "orderDate" = None ->
  dict_get set "createdAt" = None ->
  Forall2 same_creation c (snd (find_one_and_update c oid set)).
Proof.
  intros Hid Hdate Hcreated.
  eapply Forall2_impl; [|apply find_one_and_update_each].
  intros d d' [-> | ->]; unfold same_creation.
  - auto.
  - now rewrite !dict_get_apply_set_other by assumption.
Qed.

(** The payload of [edit_order], [updatedAt] included, has no key outside
    the stored names of [field_map] and [updatedAt]. *)
Lemma edit_payload_spares (updates : value) (now : datetime) (payload : dict)
    (k : string) :
  build_set_payload updates = Ok payload ->
  ~ In k (map snd field_map) -> k <> "updatedAt" ->
  dict_get (dict_set payload "updatedAt" (VDatetime now)) k = None.
Proof.
  intros H Hk Hne. rewrite dict_get_set_neq by assumption.
  apply dict_get_None_keys. intros Hin. apply Hk.
  eapply build_set_payload_keys; eassumption.
Qed.

Ltac not_a_stored_name :=
  simpl; intuition discriminate.

(** Lookups through assignments to literal keys. *)
Ltac dict_lookup :=
  repeat (rewrite dict_get_set_eq
          || rewrite dict_get_set_neq by discriminate).

Lemma mutate_same_creation (coll : collection) (m : mutation) :
  Forall2 same_creation coll (mutate coll m).
Proof.
  destruct m as [now order_id status | now order_id updates]; simpl.
  - unfold update_order_status.
    destruct (parse_id order_id) as [[oid|]|e]; simpl;
      try apply same_creation_refl.
    pose proof (find_one_and_update_same_creation coll oid
                  (status_payload status now) eq_refl eq_refl eq_refl) as H.
    destruct (find_one_and_update coll oid (status_payload status now))
      as [updated coll']. simpl in H.
    destruct (option_map (project_fields status_projection) updated)
      as [[|kv d]|]; try assumption.
    destruct (_serialize_order (Some (kv :: d))); simpl;
      [assumption | apply same_creation_refl].
  - unfold edit_order.
    destruct (parse_id order_id) as [[oid|]|e]; simpl;
      try apply same_creation_refl.
    destruct (build_set_payload updates) as [payload|e] eqn:Hp; simpl;
      [|apply same_creation_refl].
    destruct payload as [|kv payload].
    + destruct (find_one coll oid) as [[|kv d]|]; try apply same_creation_refl.
      destruct (_serialize_order (Some (kv :: d))); simpl;
        apply same_creation_refl.
    + set (set_payload := dict_set (kv :: payload) "updatedAt" (VDatetime now)).
      assert (H : Forall2 same_creation coll
                    (snd (find_one_and_update coll oid set_payload))).
      { apply find_one_and_update_same_creation;
          apply (edit_payload_spares updates now _ _ Hp);
          solve [not_a_stored_name | discriminate]. }
      destruct (find_one_and_update coll oid set_payload) as [updated coll'].
      simpl in H.
      destruct updated as [[|kv' d]|]; try assumption.
      destruct (_serialize_order (Some (kv' :: d))); simpl;
        [assumption | apply same_creation_refl].
Qed.

(** C10.  Neither mutation can write [orderDate] or [createdAt]: the
    [$set] document of [update_order_status] and the one [edit_order]
    builds never hold these keys.  So, after any sequence of the two
    operations, every stored order still has the identifier, the
    [orderDate] and the [createdAt] it had before. *)
Theorem creation_stamps_never_rewritten :
  (forall status now,
      ~ In "orderDate" (keys (status_payload status now))
      /\ ~ In "createdAt" (keys (status_payload status now)))
  /\ (forall updates now payload,
        build_set_payload updates = Ok payload ->
        let set_payload := dict_set payload "updatedAt" (VDatetime now) in
        ~ In "orderDate" (keys set_payload)
        /\ ~ In "createdAt" (keys set_payload))
  /\ (forall coll ms, Forall2 same_creation coll (mutate_all coll ms)).
Proof.
  split; [|split].
  - intros status now. split; not_a_stored_name.
  - intros updates now payload Hp set_payload.
    split; apply dict_get_None_keys;
      apply (edit_payload_spares updates now _ _ Hp);
      solve [not_a_stored_name | discriminate].
  - intros coll ms. revert coll. unfold mutate_all.
    induction ms as [|m ms IH]; intros coll; simpl.
    + apply same_creation_refl.
    + eapply same_creation_trans; [apply mutate_same_creation | apply IH].
Qed.

Lemma creation_stamps_never_rewritten_witness :
  (~ In "orderDate"
       (keys (dict_set [("mobile", VStr "555")] "updatedAt"
                       (VDatetime sample_now)))
   /\ ~ In "createdAt"
         (keys (dict_set [("mobile", VStr "555")] "updatedAt"
                         (VDatetime sample_now))))
  /\ Forall2 same_creation [sample_order]
       (mutate_all [sample_order]
          [Update_order_status sample_now sample_id (VStr "delivered");
           Edit_order sample_now sample_id
             (VDict [("orderDate", VStr "1999-01-01");
                     ("contact", VStr "555")])]).
Proof.
  split.
  - apply (proj1 (proj2 creation_stamps_never_rewritten)
             (VDict [("contact", VStr "555")]) sample_now).
    reflexivity.
  - apply (proj2 (proj2 creation_stamps_never_rewritten)).
Defined.

(** ** Editing fields *)

(** Where each entry of the payload comes from. *)
Lemma foldM_add_update_source fields : forall acc payload,
  foldM add_update fields acc = Ok payload ->
  forall dest x,
    dict_get payload dest = Some x ->
    dict_get acc dest = Some x
    \/ exists k v, In (k, v) fields /\ field_map_get k = Some dest
                   /\ coerce_update dest v = Ok x.
Proof.
  induction fields as [|[k v] fields IH]; simpl; intros acc payload H dest x Hx.
  - injection H as <-. now left.
  - destruct (field_map_get k) as [d|] eqn:Ek; simpl in H.
    + destruct (coerce_update d v) as [v'|e] eqn:Ev; simpl in H; [|discriminate].
      destruct (IH _ _ H dest x Hx) as [Hacc | (k' & v0 & Hin & Hk' & Hv)].
      * destruct (String.eqb d dest) eqn:E.
        -- apply String.eqb_eq in E. subst d.
           rewrite dict_get_set_eq in Hacc. injection Hacc as ->.
           right. exists k, v. auto.
        -- apply String.eqb_neq in E.
           rewrite dict_get_set_neq in Hacc by congruence. now left.
      * right. exists k', v0. auto.
    + destruct (IH _ _ H dest x Hx) as [Hacc | (k' & v0 & Hin & Hk' & Hv)].
      * now left.
      * right. exists k', v0. auto.
Qed.

(** Every recognised key sets its stored name. *)
Lemma foldM_add_update_sets fields : forall acc payload,
  foldM add_update fields acc = Ok payload ->
  (forall dest, dict_get acc dest <> None -> dict_get payload dest <> None)
  /\ (forall k v dest, In (k, v) fields -> field_map_get k = Some dest ->
                       dict_get payload dest <> None).
Proof.
  induction fields as [|[k v] fields IH]; simpl; intros acc payload H.
  - injection H as <-. split; [auto | intros ? ? ? []].
  - assert (Hset : forall d x dest, dict_get acc dest <> None ->
                                    dict_get (dict_set acc d x) dest <> None).
    { intros d x dest Hacc. destruct (String.eqb d dest) eqn:E.
      - apply String.eqb_eq in E. subst. now rewrite dict_get_set_eq.
      - apply String.eqb_neq in E. rewrite dict_get_set_neq; congruence. }
    destruct (field_map_get k) as [d|] eqn:Ek; simpl in H.
    + destruct (coerce_update d v) as [v'|e] eqn:Ev; simpl in H; [|discriminate].
      destruct (IH _ _ H) as [Hkeep Hnew]. split.
      * intros dest Hacc. apply Hkeep. now apply Hset.
      * intros k' v0 dest [[= -> ->] | Hin] Hk'.
        -- rewrite Ek in Hk'. injection Hk' as ->. apply Hkeep.
           now rewrite dict_get_set_eq.
        -- eapply Hnew; eassumption.
    + destruct (IH _ _ H) as [Hkeep Hnew]. split; [exact Hkeep|].
      intros k' v0 dest [[= -> ->] | Hin] Hk'; [congruence|].
      eapply Hnew; eassumption.
Qed.

(** With something to set, [edit_order] applies the payload and
    [updatedAt] to the document found, and returns the result normalised. *)
Lemma edit_order_stores
    (coll : collection) (now : datetime) (order_id : string) (oid : N)
    (doc : dict) (updates : value) (payload : dict) :
  ObjectId order_id = Ok oid ->
  find_one coll oid = Some doc ->
  build_set_payload updates = Ok payload ->
  payload <> [] ->
  let doc' := apply_set doc (dict_set payload "updatedAt" (VDatetime now)) in
  exists r coll',
    edit_order (Some coll) now order_id updates = Ok (Some r, coll')
    /\ find_one coll' oid = Some doc'
    /\ _serialize_order (Some doc') = Ok (Some r).
Proof.
  intros Hid Hfind Hp Hne doc'.
  assert (Hset : dict_get (dict_set payload "updatedAt" (VDatetime now)) "_id"
                 = None).
  { apply (edit_payload_spares updates now _ _ Hp);
      solve [not_a_stored_name | discriminate]. }
  destruct (find_one_and_update_found _ _ _ _ Hfind Hset) as (coll' & Hu & Hf & _).
  assert (Hdoc' : dict_get doc' "_id" = Some (VObjectId oid)).
  { unfold doc'. rewrite dict_get_apply_set_other by assumption.
    eapply find_one_has_id; eassumption. }
  eexists _, coll'. split; [|split; [exact Hf | apply (_serialize_order_with_id _ _ Hdoc')]].
  unfold edit_order. rewrite (parse_id_ok _ _ Hid). simpl. rewrite Hp. simpl.
  destruct payload as [|kv payload]; [congruence|].
  rewrite Hu. fold doc'.
  destruct doc' as [|kv' d'] eqn:E; [discriminate|].
  now rewrite (_serialize_order_with_id _ _ Hdoc').
Qed.

Lemma field_map_get_unknown (k : string) :
  ~ In k (map fst field_map) -> field_map_get k = None.
Proof.
  intros H. unfold field_map_get.
  destruct (find _ field_map) as [[k' d]|] eqn:E; [|reflexivity].
  apply find_some in E as [Hin E]. simpl in E.
  apply String.eqb_eq in E. subst k'.
  exfalso. apply H. now apply (in_map fst) in Hin.
Qed.

Lemma coerce_update_total (v : value) :
  (forall f, float_or_0 v = Ok f -> coerce_update "total" v = Ok (VFloat f))
  /\ (float_or_0 v = Raise ValueError \/ float_or_0 v = Raise TypeError ->
      coerce_update "total" v = Ok (VInt 0)).
Proof.
  unfold coerce_update. simpl. split.
  - now intros f ->.
  - now intros [-> | ->].
Qed.

(** C5, as the code has it.  [edit_order] on a valid identifier that
    names a document:
    - the table sends [contact] to [mobile] and [amount] to [total], sends
      each of [customerName], [status], [address], [mobile], [total],
      [deliveryDate], [preference], [items] to itself, and knows no other
      key;
    - a value resolved to [total] becomes [float(v or 0)], or the integer
      [0] when that conversion is a ValueError or a TypeError;
    - every recognised key has its stored name set, to the coerced value
      of an update that resolves to that name; a field no update resolves
      to ([updatedAt] apart) keeps the value it had, so unknown keys and
      the aliases themselves write nothing;
    - [{"contact": "555", "amount": "12.5"}] stores [mobile = "555"] and
      [total = 12.5], a float, and leaves [contact] and [amount] as they
      were (absent, if they were absent). *)
Theorem edit_order_field_mapping :
  (field_map_get "contact" = Some "mobile"
   /\ field_map_get "amount" = Some "total"
   /\ (forall k,
         In k ["customerName"; "status"; "address"; "mobile"; "total";
               "deliveryDate"; "preference"; "items"] ->
         field_map_get k = Some k)
   /\ (forall k,
         ~ In k ["contact"; "amount"; "customerName"; "status"; "address";
                 "mobile"; "total"; "deliveryDate"; "preference"; "items"] ->
         field_map_get k = None))
  /\ (forall v,
        (forall f, float_or_0 v = Ok f ->
                   coerce_update "total" v = Ok (VFloat f))
        /\ (float_or_0 v = Raise ValueError \/ float_or_0 v = Raise TypeError ->
            coerce_update "total" v = Ok (VInt 0)))
  /\ (forall coll now order_id oid doc updates fields payload,
        ObjectId order_id = Ok oid ->
        find_one coll oid = Some doc ->
        update_items updates = Ok fields ->
        foldM add_update fields [] = Ok payload ->
        payload <> [] ->
        exists doc' r coll',
          edit_order (Some coll) now order_id updates = Ok (Some r, coll')
          /\ find_one coll' oid = Some doc'
          /\ _serialize_order (Some doc') = Ok (Some r)
          /\ (forall k v dest,
                In (k, v) fields -> field_map_get k = Some dest ->
                exists k' v' x,
                  In (k', v') fields /\ field_map_get k' = Some dest
                  /\ coerce_update dest v' = Ok x
                  /\ dict_get doc' dest = Some x)
          /\ (forall dest,
                (forall k v, In (k, v) fields -> field_map_get k <> Some dest) ->
                dest <> "updatedAt" ->
                dict_get doc' dest = dict_get doc dest))
  /\ (forall coll now order_id oid doc,
        ObjectId order_id = Ok oid ->
        find_one coll oid = Some doc ->
        exists doc' r coll',
          edit_order (Some coll) now order_id
            (VDict [("contact", VStr "555"); ("amount", VStr "12.5")])
          = Ok (Some r, coll')
          /\ find_one coll' oid = Some doc'
          /\ dict_get doc' "mobile" = Some (VStr "555")
          /\ dict_get doc' "total"
             = Some (VFloat (S754_finite false 7036874417766400 (-49)))
          /\ dict_get doc' "contact" = dict_get doc "contact"
          /\ dict_get doc' "amount" = dict_get doc "amount").
Proof.
  split; [|split; [|split]].
  - split; [reflexivity|]. split; [reflexivity|]. split.
    + intros k Hk. simpl in Hk.
      repeat (destruct Hk as [<- | Hk]; [reflexivity|]). destruct Hk.
    + intros k Hk. apply field_map_get_unknown. simpl in *. tauto.
  - apply coerce_update_total.
  - intros coll now order_id oid doc updates fields payload
           Hid Hfind Hitems Hfold Hne.
    assert (Hp : build_set_payload updates = Ok payload).
    { unfold build_set_payload. now rewrite Hitems. }
    destruct (edit_order_stores _ now _ _ _ _ _ Hid Hfind Hp Hne)
      as (r & coll' & Hedit & Hf & Hser).
    set (set_payload := dict_set payload "updatedAt" (VDatetime now)) in *.
    assert (Hnd : NoDup (keys set_payload)).
    { apply NoDup_keys_set.
      eapply foldM_add_update_NoDup; [|eassumption]. constructor. }
    exists (apply_set doc set_payload), r, coll'.
    repeat split; try assumption.
    + intros k v dest Hin Hk.
      destruct (foldM_add_update_sets _ _ _ Hfold) as [_ Hsets].
      specialize (Hsets _ _ _ Hin Hk).
      destruct (dict_get payload dest) as [x|] eqn:Hx; [|congruence].
      destruct (foldM_add_update_source _ _ _ Hfold _ _ Hx)
        as [Hnil | (k' & v' & Hin' & Hk' & Hv')]; [discriminate|].
      exists k', v', x. repeat split; try assumption.
      assert (Hdest : dest <> "createdAt" /\ dest <> "updatedAt").
      { apply field_map_get_dest in Hk.
        split; intros ->; revert Hk; not_a_stored_name. }
      rewrite (dict_get_apply_set_named set_payload doc dest x Hnd).
      * now rewrite stored_field_other.
      * unfold set_payload. rewrite dict_get_set_neq; [assumption | tauto].
    + intros dest Hnone Hupd.
      apply dict_get_apply_set_other.
      unfold set_payload. rewrite dict_get_set_neq by assumption.
      destruct (dict_get payload dest) as [x|] eqn:Hx; [|reflexivity].
      destruct (foldM_add_update_source _ _ _ Hfold _ _ Hx)
        as [Hnil | (k' & v' & Hin' & Hk' & _)]; [discriminate|].
      exfalso. eapply Hnone; eassumption.
  - intros coll now order_id oid doc Hid Hfind.
    set (updates := VDict [("contact", VStr "555"); ("amount", VStr "12.5")]).
    set (payload := [("mobile", VStr "555");
                     ("total", VFloat (S754_finite false 7036874417766400 (-49)))]).
    assert (Hp : build_set_payload updates = Ok payload)
      by (vm_compute; reflexivity).
    assert (Hne : payload <> []) by discriminate.
    destruct (edit_order_stores _ now _ _ _ _ _ Hid Hfind Hp Hne)
      as (r & coll' & Hedit & Hf & _).
    eexists _, r, coll'. split; [exact Hedit|]. split; [exact Hf|].
    unfold apply_set, payload. simpl.
    repeat split; dict_lookup; reflexivity.
Qed.

Lemma edit_order_field_mapping_witness :
  coerce_update "total" (VStr "12.5")
    = Ok (VFloat (S754_finite false 7036874417766400 (-49)))
  /\ coerce_update "total" (VStr "a dozen") = Ok (VInt 0)
  /\ exists doc' r coll',
       edit_order (Some [sample_order]) sample_now sample_id
         (VDict [("contact", VStr "555"); ("amount", VStr "12.5")])
       = Ok (Some r, coll')
       /\ find_one coll' sample_oid = Some doc'
       /\ dict_get doc' "mobile" = Some (VStr "555")
       /\ dict_get doc' "total"
          = Some (VFloat (S754_finite false 7036874417766400 (-49)))
       /\ dict_get doc' "contact" = dict_get sample_order "contact"
       /\ dict_get doc' "amount" = dict_get sample_order "amount".
Proof.
  pose proof edit_order_field_mapping as (_ & Htotal & _ & Hexample).
  split; [|split].
  - apply (proj1 (Htotal (VStr "12.5"))). vm_compute. reflexivity.
  - apply (proj2 (Htotal (VStr "a dozen"))). left. vm_compute. reflexivity.
  - apply (Hexample [sample_order] sample_now sample_id sample_oid sample_order).
    + vm_compute. reflexivity.
    + reflexivity.
Defined.

(** C5 as stated fails.  A total that does not convert is stored as the
    integer [0], not as a float; an integer beyond the range of floats is
    not defaulted at all: the edit raises OverflowError; and an order
    placed with a [contact] key still has it in storage after the edit of
    the example, since [place_order] stores the keys it is given and the
    edit only writes [mobile]. *)
Lemma edit_order_field_mapping_counterexample :
  (exists doc' r coll',
      edit_order (Some [sample_order]) sample_now sample_id
        (VDict [("amount", VStr "a dozen")])
      = Ok (Some r, coll')
      /\ find_one coll' sample_oid = Some doc'
      /\ dict_get doc' "total" = Some (VInt 0)
      /\ forall f, dict_get doc' "total" <> Some (VFloat f))
  /\ edit_order (Some [sample_order]) sample_now sample_id
       (VDict [("amount", VInt (10 ^ 400))])
     = Raise OverflowError
  /\ (exists coll doc' r coll',
        place_order (Some []) sample_yesterday sample_oid
          [("customerName", VStr "Ravi"); ("contact", VStr "98450")]
        = Ok coll
        /\ edit_order (Some coll) sample_now sample_id
             (VDict [("contact", VStr "555"); ("amount", VStr "12.5")])
           = Ok (Some r, coll')
        /\ find_one coll' sample_oid = Some doc'
        /\ dict_get doc' "mobile" = Some (VStr "555")
        /\ dict_get doc' "contact" = Some (VStr "98450")).
Proof.
  split; [|split].
  - eexists _, _, _. vm_compute. repeat split. discriminate.
  - vm_compute. reflexivity.
  - eexists _, _, _, _. vm_compute. repeat split.
Qed.

(** ** Placing an order *)

Lemma dict_set_same (d : dict) (k : string) (v : value) :
  dict_get d k = Some v -> dict_set d k v = d.
Proof.
  induction d as [|[k' v'] d IH]; simpl; [discriminate|].
  destruct (String.eqb k' k) eqn:E.
  - apply String.eqb_eq in E. now intros [= ->]; subst.
  - intros H. now rewrite IH.
Qed.

(** [float(v or 0)] ends in one of four ways. *)
Lemma float_or_0_cases (v : value) :
  (exists f, float_or_0 v = Ok f)
  \/ float_or_0 v = Raise ValueError
  \/ float_or_0 v = Raise TypeError
  \/ (float_or_0 v = Raise OverflowError /\ too_large v = true).
Proof.
  unfold float_or_0, too_large.
  destruct (py_or v (VInt 0)) as [| b | z | f | s | l | d | t | o]; simpl; eauto.
  - unfold float_of_int. destruct (float_of_Z z); eauto 6.
  - destruct (float_of_string s); eauto.
Qed.

Lemma float_or_0_fits (v : value) :
  too_large v = false ->
  (exists f, float_or_0 v = Ok f)
  \/ float_or_0 v = Raise ValueError
  \/ float_or_0 v = Raise TypeError.
Proof.
  intros H. destruct (float_or_0_cases v) as [?|[?|[?|[_ ?]]]]; auto.
  congruence.
Qed.

(** What the coercion of one field does to a dictionary. *)
Lemma coerce_dict_field_spec (d : dict) (k : string) (d' : dict) :
  coerce_dict_field d k = Ok d' ->
  keys d' = keys d
  /\ (forall k', k' <> k -> dict_get d' k' = dict_get d k')
  /\ coerced_as (dict_get d k) (dict_get d' k).
Proof.
  unfold coerce_dict_field, dict_has, get_default, coerced_as.
  destruct (dict_get d k) as [v|] eqn:Hk.
  - assert (Hpresent : dict_get d k <> None) by congruence.
    destruct (float_or_0 v) as [f|e] eqn:Hf; simpl.
    + intros [= <-]. rewrite dict_get_set_eq.
      split; [now apply keys_set_present|].
      split; [intros k' Hne; now apply dict_get_set_neq|].
      split; [now intros f' [= ->] | intros [?|?]; discriminate].
    + destruct e; simpl; try discriminate; intros [= <-];
        rewrite dict_get_set_eq;
        (split; [now apply keys_set_present|]);
        (split; [intros k' Hne; now apply dict_get_set_neq|]);
        (split; [intros; discriminate | reflexivity]).
  - simpl. intros [= <-]. repeat split; assumption.
Qed.

Lemma coerce_dict_field_fits (d : dict) (k : string) :
  field_fits d k -> exists d', coerce_dict_field d k = Ok d'.
Proof.
  unfold coerce_dict_field, dict_has, get_default, field_fits. intros Hfit.
  destruct (dict_get d k) as [v|]; [|simpl; eauto].
  destruct (float_or_0_fits v (Hfit v eq_refl)) as [[f ->] | [-> | ->]];
    simpl; eauto.
Qed.

(** On a dictionary, the block of [place_order] is the one of
    [edit_order]. *)
Lemma coerce_item_field_dict (d : dict) (k : string) :
  coerce_item_field (VDict d) k =
  bind (coerce_dict_field d k) (fun d' => Ok (VDict d')).
Proof.
  unfold coerce_item_field, coerce_dict_field. simpl.
  destruct (dict_has d k); [|reflexivity].
  destruct (float_or_0 (get_default d k (VInt 0))) as [f|[]]; reflexivity.
Qed.

Lemma coerce_item_spec (d : dict) (item' : value) :
  coerce_item (VDict d) = Ok item' -> item_as_stored (VDict d) item'.
Proof.
  unfold coerce_item. rewrite coerce_item_field_dict.
  destruct (coerce_dict_field d "quantity") as [d1|e] eqn:H1; simpl;
    [|discriminate].
  rewrite coerce_item_field_dict.
  destruct (coerce_dict_field d1 "price") as [d2|e] eqn:H2; simpl;
    [|discriminate].
  intros [= <-].
  apply coerce_dict_field_spec in H1 as (Hk1 & Ho1 & Hq).
  apply coerce_dict_field_spec in H2 as (Hk2 & Ho2 & Hp).
  exists d, d2. repeat split.
  - congruence.
  - intros k Hq' Hp'. rewrite Ho2, Ho1 by assumption. reflexivity.
  - rewrite Ho2 by discriminate. exact Hq.
  - rewrite Ho1 in Hp by discriminate. exact Hp.
Qed.

Lemma mapM_coerce_item_spec (l : list value) : forall l',
  Forall (fun item => exists d, item = VDict d) l ->
  mapM coerce_item l = Ok l' -> Forall2 item_as_stored l l'.
Proof.
  induction l as [|item l IH]; simpl; intros l' Hall H.
  - injection H as <-. constructor.
  - inversion Hall as [|? ? [d ->] Hrest]; subst.
    destruct (coerce_item (VDict d)) as [item'|e] eqn:E; simpl in H;
      [|discriminate].
    destruct (mapM coerce_item l) as [l0|e]; simpl in H; [|discriminate].
    injection H as <-. constructor; [now apply coerce_item_spec | now apply IH].
Qed.

Lemma coerce_item_fits (d : dict) :
  field_fits d "quantity" -> field_fits d "price" ->
  exists item', coerce_item (VDict d) = Ok item'.
Proof.
  intros Hq Hp. unfold coerce_item. rewrite coerce_item_field_dict.
  destruct (coerce_dict_field_fits d "quantity" Hq) as [d1 H1].
  rewrite H1. simpl. rewrite coerce_item_field_dict.
  assert (Hp1 : field_fits d1 "price").
  { apply coerce_dict_field_spec in H1 as (_ & Ho & _).
    unfold field_fits in *. now rewrite Ho by discriminate. }
  destruct (coerce_dict_field_fits d1 "price" Hp1) as [d2 ->]. simpl. eauto.
Qed.

Lemma mapM_coerce_item_fits (l : list value) :
  Forall (fun item => exists d, item = VDict d
                                /\ field_fits d "quantity"
                                /\ field_fits d "price") l ->
  exists l', mapM coerce_item l = Ok l'.
Proof.
  induction 1 as [|item l (d & -> & Hq & Hp) _ [l' IH]]; cbn [mapM]; [eauto|].
  destruct (coerce_item_fits d Hq Hp) as [item' ->].
  rewrite IH. simpl. eauto.
Qed.

(** The first two statements of [place_order]. *)
Lemma place_order_steps (coll : collection) (now : datetime) (fresh : N)
    (order : dict) :
  place_order (Some coll) now fresh order =
  (let stamped :=
     dict_set (dict_set order "orderDate" (VStr (strftime_date now)))
              "createdAt" (VDatetime now) in
   order <- coerce_dict_field stamped "total" ;;
   order <- coerce_items order ;;
   insert_one coll fresh order).
Proof.
  unfold place_order. cbv zeta.
  set (stamped := dict_set (dict_set order "orderDate" _) "createdAt" _).
  destruct (dict_get stamped "deliveryDate") as [d|] eqn:E; [|reflexivity].
  destruct (truthy d); [|reflexivity].
  now rewrite (dict_set_same _ _ _ E).
Qed.

(** The loop over the items changes nothing but [items]. *)
Lemma coerce_items_other (order order' : dict) (k : string) :
  coerce_items order = Ok order' -> k <> "items" ->
  dict_get order' k = dict_get order k.
Proof.
  unfold coerce_items. intros H Hk.
  destruct (py_iter _) as [elements|e]; simpl in H; [|discriminate].
  destruct (mapM coerce_item elements) as [elements'|e]; simpl in H;
    [|discriminate].
  destruct (py_or _ _) as [| | | | | [|x l] | | |]; injection H as <-;
    try reflexivity.
  now apply dict_get_set_neq.
Qed.

(** What [insert_one] appends. *)
Lemma insert_one_stored (coll : collection) (fresh : N) (order : dict)
    (coll' : collection) :
  insert_one coll fresh order = Ok coll' ->
  exists stored,
    coll' = coll ++ [stored]
    /\ forall k, k <> "_id" ->
                 dict_get stored k
                 = option_map (stored_field k) (dict_get order k).
Proof.
  unfold insert_one.
  destruct (get_default order "_id" (VObjectId fresh)); try discriminate.
  destruct (existsb (has_id o) coll); [discriminate|].
  intros [= <-]. eexists. split; [reflexivity|].
  intros k Hk. rewrite dict_get_cons_neq by congruence.
  rewrite dict_get_without_neq by assumption. apply dict_get_to_bson.
Qed.

Lemma coerce_items_plain (order : dict) :
  plain_items order -> exists order', coerce_items order = Ok order'.
Proof.
  unfold plain_items, coerce_items. intros H.
  destruct (get_default order "items" (VList [])) as [| b | z | f | s | l | d | t | o]
    eqn:E; unfold py_or; try (rewrite H; simpl; eauto).
  destruct l as [|x l]; simpl; [eauto|].
  change (exists order',
            (elements' <- mapM coerce_item (x :: l) ;;
             Ok (dict_set order "items" (VList elements'))) = Ok order').
  destruct (mapM_coerce_item_fits _ H) as [l' ->]. simpl. eauto.
Qed.

(** C2, as the code has it.  [place_order] appends one document.  When
    the order has a [total], the document stores [float(total or 0)] if
    that converts, and the integer [0] if the conversion is a ValueError
    or a TypeError; when the order has no [total], the document has none
    either.  With an identifier to spare, items that are missing, false
    or a list of dictionaries, and no integer beyond the range of floats
    in the numeric fields, [place_order] does not raise, whatever the
    values of [total], [quantity] and [price] are. *)
Theorem place_order_total
    (coll : collection) (now : datetime) (fresh : N) (order : dict) :
  (forall coll',
      place_order (Some coll) now fresh order = Ok coll' ->
      exists stored,
        coll' = coll ++ [stored]
        /\ coerced_as (dict_get order "total") (dict_get stored "total"))
  /\ (dict_get order "_id" = None ->
      existsb (has_id fresh) coll = false ->
      plain_items order ->
      field_fits order "total" ->
      exists coll', place_order (Some coll) now fresh order = Ok coll').
Proof.
  rewrite place_order_steps. cbv zeta.
  set (stamped := dict_set (dict_set order "orderDate" _) "createdAt" _).
  assert (Hstamped : forall k, k <> "orderDate" -> k <> "createdAt" ->
                               dict_get stamped k = dict_get order k).
  { intros k H1 H2. unfold stamped. now rewrite !dict_get_set_neq. }
  split.
  - intros coll' H.
    destruct (coerce_dict_field stamped "total") as [o3|e] eqn:H3; simpl in H;
      [|discriminate].
    destruct (coerce_items o3) as [o4|e] eqn:H4; simpl in H; [|discriminate].
    apply insert_one_stored in H as (stored & -> & Hstored).
    exists stored. split; [reflexivity|].
    apply coerce_dict_field_spec in H3 as (_ & _ & Htotal).
    rewrite Hstored, stored_other by discriminate.
    rewrite (coerce_items_other _ _ "total" H4) by discriminate.
    rewrite Hstamped in Htotal by discriminate. exact Htotal.
  - intros Hid Hfresh Hitems Hfits.
    assert (Hfits' : field_fits stamped "total").
    { unfold field_fits. now rewrite Hstamped by discriminate. }
    destruct (coerce_dict_field_fits _ _ Hfits') as [o3 H3]. rewrite H3. simpl.
    apply coerce_dict_field_spec in H3 as (_ & Ho3 & _).
    assert (Hplain : plain_items o3).
    { unfold plain_items, get_default in *.
      now rewrite Ho3, Hstamped by discriminate. }
    destruct (coerce_items_plain _ Hplain) as [o4 H4]. rewrite H4. simpl.
    unfold insert_one, get_default.
    rewrite (coerce_items_other _ _ "_id" H4), Ho3, Hstamped, Hid
      by discriminate.
    rewrite Hfresh. eauto.
Qed.

Lemma place_order_total_witness :
  (exists stored,
      [sample_order; [("_id", VObjectId 7);
                      ("total", VFloat (dec_to_float false 250 0));
                      ("orderDate", VStr "2026-11-03");
                      ("createdAt", VDatetime sample_now)]]
      = [sample_order] ++ [stored]
      /\ coerced_as (Some (VStr "250")) (dict_get stored "total"))
  /\ exists coll',
       place_order (Some [sample_order]) sample_now 7
         [("total", VList [VStr "a"; VStr "dozen"]);
          ("items", VList [VDict [("quantity", VNone); ("price", VStr "ten")]])]
       = Ok coll'.
Proof.
  split.
  - apply (proj1 (place_order_total [sample_order] sample_now 7
                    [("total", VStr "250")])).
    vm_compute. reflexivity.
  - apply (proj2 (place_order_total [sample_order] sample_now 7 _)).
    + reflexivity.
    + reflexivity.
    + repeat constructor. eexists. split; [reflexivity|].
      split; intros v [= <-]; reflexivity.
    + intros v [= <-]. reflexivity.
Defined.

(** C2 as stated fails.  An order without [total] is stored without
    [total], not with [0]; an order whose [total] does not convert is
    stored with the integer [0], not with a float. *)
Lemma place_order_total_counterexample :
  exists stored stored',
    place_order (Some []) sample_now sample_oid
      [("customerName", VStr "Asha")] = Ok [stored]
    /\ dict_get stored "total" = None
    /\ place_order (Some []) sample_now sample_oid
         [("customerName", VStr "Asha"); ("total", VStr "plenty")]
       = Ok [stored']
    /\ dict_get stored' "total" = Some (VInt 0)
    /\ forall f, dict_get stored' "total" <> Some (VFloat f).
Proof.
  eexists _, _. vm_compute. repeat split. discriminate.
Qed.

(** C3, as the code has it.  When the items of an order are a list of
    dictionaries, the stored document holds a list of as many items, each
    with the keys of its input in the same order.  A [quantity] or a
    [price] the input carries is stored as [float(v or 0)] if that
    converts and as the integer [0] if the conversion is a ValueError or
    a TypeError; one the input lacks stays missing; each of the two
    depends on its own input only; every other field is untouched. *)
Theorem place_order_items
    (coll : collection) (now : datetime) (fresh : N) (order : dict)
    (items : list value) (coll' : collection) :
  place_order (Some coll) now fresh order = Ok coll' ->
  dict_get order "items" = Some (VList items) ->
  Forall (fun item => exists d, item = VDict d) items ->
  exists stored items',
    coll' = coll ++ [stored]
    /\ dict_get stored "items" = Some (VList items')
    /\ Forall2 item_as_stored items items'.
Proof.
  rewrite place_order_steps. cbv zeta.
  set (stamped := dict_set (dict_set order "orderDate" _) "createdAt" _).
  intros H Hitems Hdicts.
  destruct (coerce_dict_field stamped "total") as [o3|e] eqn:H3; simpl in H;
    [|discriminate].
  destruct (coerce_items o3) as [o4|e] eqn:H4; simpl in H; [|discriminate].
  apply insert_one_stored in H as (stored & -> & Hstored).
  apply coerce_dict_field_spec in H3 as (_ & Ho3 & _).
  assert (Ho3items : dict_get o3 "items" = Some (VList items)).
  { rewrite Ho3 by discriminate. unfold stamped.
    now rewrite !dict_get_set_neq by discriminate. }
  exists stored. rewrite Hstored, stored_other by discriminate.
  revert H4. unfold coerce_items, get_default. rewrite Ho3items.
  destruct items as [|x items].
  - simpl. intros [= <-]. exists []. repeat split; [assumption | constructor].
  - unfold py_or. cbn [truthy py_iter bind].
    destruct (mapM coerce_item (x :: items)) as [items'|e] eqn:Hm;
      cbn [bind]; [|discriminate].
    intros [= <-]. exists items'. rewrite dict_get_set_eq.
    repeat split. now apply mapM_coerce_item_spec.
Qed.

Lemma place_order_items_witness :
  exists stored items',
    [[("_id", VObjectId 7);
      ("items", VList [VDict [("sweetName", VStr "Jalebi");
                              ("quantity", VFloat (dec_to_float false 15 (-1)));
                              ("price", VInt 0)]]);
      ("orderDate", VStr "2026-11-03");
      ("createdAt", VDatetime sample_now)]]
    = [] ++ [stored]
    /\ dict_get stored "items" = Some (VList items')
    /\ Forall2 item_as_stored
         [VDict [("sweetName", VStr "Jalebi"); ("quantity", VStr "1.5");
                 ("price", VStr "forty")]]
         items'.
Proof.
  apply (place_order_items [] sample_now 7
           [("items", VList [VDict [("sweetName", VStr "Jalebi");
                                    ("quantity", VStr "1.5");
                                    ("price", VStr "forty")]])]).
  - vm_compute. reflexivity.
  - reflexivity.
  - repeat constructor. eexists. reflexivity.
Defined.

(** C3 as stated fails.  A quantity that does not convert is stored as
    the integer [0], not as a float, and an item without [price] is
    stored without [price]. *)
Lemma place_order_items_counterexample :
  exists stored item',
    place_order (Some []) sample_now sample_oid
      [("items", VList [VDict [("sweetName", VStr "Laddu");
                               ("quantity", VStr "two")]])]
    = Ok [stored]
    /\ dict_get stored "items" = Some (VList [VDict item'])
    /\ dict_get item' "quantity" = Some (VInt 0)
    /\ (forall f, dict_get item' "quantity" <> Some (VFloat f))
    /\ dict_get item' "price" = None.
Proof.
  eexists _, _. vm_compute. repeat split. discriminate.
Qed.

(** ** Sorting *)

Section SortFacts.
Context {A : Type} (lt : A -> A -> bool).

Lemma insert_from_right_perm (x : A) (racc : list A) :
  Permutation (insert_from_right lt x racc) (x :: racc).
Proof.
  induction racc as [|y r IH]; simpl; [reflexivity|].
  destruct (lt x y); [|reflexivity].
  rewrite IH. apply perm_swap.
Qed.

Lemma fold_insert_perm (l : list A) : forall acc,
  Permutation (fold_left (fun racc x => insert_from_right lt x racc) l acc)
              (l ++ acc).
Proof.
  induction l as [|x l IH]; intros acc; simpl; [reflexivity|].
  rewrite IH, insert_from_right_perm. symmetry. apply Permutation_middle.
Qed.

Lemma sort_perm (l : list A) : Permutation (sort lt l) l.
Proof.
  unfold sort. rewrite <- Permutation_rev, fold_insert_perm.
  now rewrite app_nil_r.
Qed.

Lemma sort_reverse_perm (l : list A) : Permutation (sort_reverse lt l) l.
Proof.
  unfold sort_reverse. rewrite <- Permutation_rev, sort_perm.
  symmetry. apply Permutation_rev.
Qed.

(** Sorting in reverse is insertion into a descending list, from the
    last element of the input to the first. *)
Lemma sort_reverse_fold (l : list A) :
  sort_reverse lt l = fold_right (insert_from_right lt) [] l.
Proof.
  unfold sort_reverse, sort. rewrite rev_involutive.
  rewrite <- (rev_involutive l) at 2. now rewrite fold_left_rev_right.
Qed.

(** On a domain [D] where [lt] is the strict part of a total preorder
    [ge], the result is in descending order. *)
Variable D : A -> Prop.
Variable ge : A -> A -> Prop.
Hypothesis not_lt_ge : forall a b, D a -> D b -> lt a b = false -> ge a b.
Hypothesis lt_ge : forall a b, D a -> D b -> lt a b = true -> ge b a.
Hypothesis ge_trans : forall a b c, ge a b -> ge b c -> ge a c.

Lemma insert_from_right_sorted (x : A) (acc : list A) :
  D x -> Forall D acc -> StronglySorted ge acc ->
  StronglySorted ge (insert_from_right lt x acc).
Proof.
  intros Hx. induction acc as [|y r IH]; simpl; intros HD Hs.
  - repeat constructor.
  - inversion HD as [|? ? Hy Hr]; subst.
    inversion Hs as [|? ? Hsr Hall]; subst.
    destruct (lt x y) eqn:E.
    + constructor; [now apply IH|].
      apply (Permutation_Forall (Permutation_sym (insert_from_right_perm x r))).
      constructor; [now apply lt_ge | assumption].
    + constructor; [assumption|].
      assert (Hxy : ge x y) by now apply not_lt_ge.
      constructor; [assumption|].
      eapply Forall_impl; [|exact Hall]. intros z Hz. eapply ge_trans; eassumption.
Qed.

Lemma sort_reverse_sorted (l : list A) :
  Forall D l -> StronglySorted ge (sort_reverse lt l).
Proof.
  rewrite sort_reverse_fold.
  induction 1 as [|x l Hx Hl IH]; simpl; [constructor|].
  apply insert_from_right_sorted; try assumption.
  rewrite <- sort_reverse_fold.
  now apply (Permutation_Forall (Permutation_sym (sort_reverse_perm l))).
Qed.
End SortFacts.

Lemma StronglySorted_firstn {A : Type} (R : A -> A -> Prop) (n : nat) :
  forall l, StronglySorted R l -> StronglySorted R (firstn n l).
Proof.
  induction n as [|n IH]; intros l Hs; simpl; [constructor|].
  destruct Hs as [|a l Hs Hall]; constructor.
  - now apply IH.
  - rewrite <- (firstn_skipn n l) in Hall. now apply Forall_app in Hall.
Qed.

(** ** The order of numbers *)

Lemma ereal_leb_total (a b : ereal) :
  ereal_leb a b = false -> ereal_leb b a = true.
Proof.
  destruct a as [|p|], b as [|q|]; simpl; try reflexivity; try discriminate.
  intros H. apply Qle_bool_iff. apply Qlt_le_weak, Qnot_le_lt.
  intros Hle. apply Qle_bool_iff in Hle. congruence.
Qed.

Lemma ereal_leb_trans (a b c : ereal) :
  ereal_leb a b = true -> ereal_leb b c = true -> ereal_leb a c = true.
Proof.
  destruct a as [|p|], b as [|q|], c as [|r|]; simpl;
    try reflexivity; try discriminate.
  rewrite !Qle_bool_iff. apply Qle_trans.
Qed.

Lemma num_not_lt_ge (a b : number) :
  is_nan a = false -> is_nan b = false ->
  num_lt a b = false -> num_ge a b = true.
Proof.
  unfold is_nan, num_lt, num_ge, num_le.
  destruct (num_value a), (num_value b); try discriminate.
  intros _ _ H. now apply negb_false_iff in H.
Qed.

Lemma num_lt_ge (a b : number) : num_lt a b = true -> num_ge b a = true.
Proof.
  unfold num_lt, num_ge, num_le.
  destruct (num_value a), (num_value b); try discriminate.
  intros H. apply negb_true_iff in H. now apply ereal_leb_total.
Qed.

Lemma num_ge_trans (a b c : number) :
  num_ge a b = true -> num_ge b c = true -> num_ge a c = true.
Proof.
  unfold num_ge, num_le.
  destruct (num_value a), (num_value b), (num_value c); try discriminate.
  intros H1 H2. eapply ereal_leb_trans; eassumption.
Qed.

(** Without a NaN among the keys, [sorted(..., reverse=True)] is in
    descending order. *)
Lemma sorted_reverse_descending (stats : list sweet_stat) :
  Forall (fun st => is_nan (quantity st) = false) stats ->
  descending (sorted_reverse quantity stats).
Proof.
  apply (sort_reverse_sorted _ (fun st => is_nan (quantity st) = false)).
  - intros a b. apply num_not_lt_ge.
  - intros a b _ _. apply num_lt_ge.
  - intros a b c. apply num_ge_trans.
Qed.

(** ** Sums of quantities that are not negative *)

Lemma shr_1_nonneg (mrs : shr_record) :
  0 <= shr_m mrs -> 0 <= shr_m (shr_1 mrs).
Proof.
  destruct mrs as [m r s]. destruct m as [|p|p]; simpl; try lia;
    destruct p; simpl; lia.
Qed.

Lemma iter_shr_1_nonneg (p : positive) : forall mrs,
  0 <= shr_m mrs -> 0 <= shr_m (iter_pos shr_1 p mrs).
Proof.
  induction p as [p IH|p IH|]; intros mrs H; simpl.
  - apply IH, IH. now apply shr_1_nonneg.
  - now apply IH, IH.
  - now apply shr_1_nonneg.
Qed.

Lemma shr_fexp_nonneg (m e : Z) (l : location) :
  0 <= m -> 0 <= shr_m (fst (shr_fexp prec emax m e l)).
Proof.
  intros H. unfold shr_fexp, shr.
  assert (H0 : 0 <= shr_m (shr_record_of_loc m l)) by (destruct l as [|[]]; exact H).
  destruct (fexp prec emax (Zdigits2 m + e) - e); simpl; try exact H0.
  now apply iter_shr_1_nonneg.
Qed.

Lemma binary_round_aux_nonneg (m e : Z) (l : location) :
  0 <= m -> float_nonneg (binary_round_aux prec emax false m e l) = true.
Proof.
  intros H. unfold binary_round_aux.
  pose proof (shr_fexp_nonneg m e l H) as H1.
  destruct (shr_fexp prec emax m e l) as [mrs' e']. simpl in H1.
  assert (H2 : 0 <= round_nearest_even (shr_m mrs') (loc_of_shr_record mrs')).
  { unfold round_nearest_even.
    destruct (loc_of_shr_record mrs') as [|[]]; try destruct (Z.even _); lia. }
  pose proof (shr_fexp_nonneg _ e' loc_Exact H2) as H3.
  destruct (shr_fexp prec emax _ e' loc_Exact) as [mrs'' e'']. simpl in H3.
  destruct (shr_m mrs'') as [|p|p]; try reflexivity; [|lia].
  now destruct (e'' <=? emax - prec).
Qed.

Lemma float_of_Z_nonneg (z : Z) :
  0 <= z -> float_nonneg (float_of_Z z) = true.
Proof.
  intros H. unfold float_of_Z, binary_normalize.
  destruct z as [|p|p]; [reflexivity| |lia].
  unfold binary_round. destruct (shl_align _ _ _) as [mz ez].
  now apply binary_round_aux_nonneg.
Qed.

Lemma float_add_nonneg (x y : float) :
  float_nonneg x = true -> float_nonneg y = true ->
  float_nonneg (float_add x y) = true.
Proof.
  unfold float_add, SFadd.
  destruct x as [sx|sx| |sx mx ex], y as [sy|sy| |sy my ey]; simpl;
    try discriminate; try (destruct sx; discriminate);
    try (destruct sy; discriminate);
    try (destruct sx, sy; reflexivity || discriminate);
    try (intros _ H; exact H); try (intros H _; exact H).
  destruct sx, sy; try discriminate. intros _ _.
  unfold binary_normalize, cond_Zopp. simpl Z.add.
  unfold binary_round. destruct (shl_align _ _ _) as [mz ez].
  now apply binary_round_aux_nonneg.
Qed.

Lemma nonneg_not_nan (n : number) : nonneg n = true -> is_nan n = false.
Proof.
  destruct n as [z|[s|s| |s m e]]; try reflexivity; discriminate.
Qed.

Lemma num_add_nonneg (a b c : number) :
  nonneg a = true -> nonneg b = true -> num_add a b = Ok c -> nonneg c = true.
Proof.
  assert (Hconv : forall z f, 0 <= z -> float_of_int z = Ok f ->
                              float_nonneg f = true).
  { intros z f Hz. unfold float_of_int.
    pose proof (float_of_Z_nonneg z Hz) as H.
    destruct (float_of_Z z); try discriminate; now intros [= <-]. }
  destruct a as [x|x], b as [y|y]; simpl; intros Ha Hb.
  - intros [= <-]. simpl. lia.
  - destruct (float_of_int x) as [x'|e] eqn:E; simpl; [|discriminate].
    intros [= <-]. apply float_add_nonneg; [|assumption].
    apply (Hconv x); [lia | assumption].
  - destruct (float_of_int y) as [y'|e] eqn:E; simpl; [|discriminate].
    intros [= <-]. apply float_add_nonneg; [assumption|].
    apply (Hconv y); [lia | assumption].
  - intros [= <-]. now apply float_add_nonneg.
Qed.

Lemma add_to_stats_nonneg (stats : list sweet_stat) (sweet_name : value)
    (q p : number) : forall stats',
  nonneg q = true ->
  Forall (fun st => nonneg (quantity st) = true) stats ->
  add_to_stats stats sweet_name q p = Ok stats' ->
  Forall (fun st => nonneg (quantity st) = true) stats'.
Proof.
  assert (Hadd : forall st st',
             nonneg (quantity st) = true -> nonneg q = true ->
             (q' <- num_add (quantity st) q ;;
              amount <- num_mul q p ;;
              r <- num_add (revenue st) amount ;;
              Ok (mkStat (name st) q' r)) = Ok st' ->
             nonneg (quantity st') = true).
  { intros st st' Hst Hq.
    destruct (num_add (quantity st) q) as [q'|e] eqn:E; cbn [bind];
      [|discriminate].
    destruct (num_mul q p) as [amount|e]; cbn [bind]; [|discriminate].
    destruct (num_add (revenue st) amount) as [r|e]; cbn [bind];
      [|discriminate].
    intros [= <-]. simpl. now apply (num_add_nonneg (quantity st) q). }
  induction stats as [|st rest IH]; intros stats' Hq Hall; cbn [add_to_stats].
  - match goal with
    | |- bind ?c _ = _ -> _ => destruct c as [st'|e] eqn:E
    end; cbn [bind]; [|discriminate].
    intros [= <-]. constructor; [|constructor].
    apply (Hadd (mkStat sweet_name (NInt 0) (NInt 0)) st'); auto.
  - inversion Hall as [|? ? Hst Hrest]; subst.
    destruct (key_eqb sweet_name (name st)).
    + match goal with
      | |- bind ?c _ = _ -> _ => destruct c as [st'|e] eqn:E
      end; cbn [bind]; [|discriminate].
      intros [= <-]. constructor; [|assumption]. now apply (Hadd st st').
    + destruct (add_to_stats rest sweet_name q p) as [rest'|e]; cbn [bind];
        [|discriminate].
      intros [= <-]. constructor; [assumption|]. now apply IH.
Qed.

Lemma count_item_nonneg (acc acc' : number * list sweet_stat) (item : value) :
  quantity_nonneg item ->
  Forall (fun st => nonneg (quantity st) = true) (snd acc) ->
  count_item acc item = Ok acc' ->
  Forall (fun st => nonneg (quantity st) = true) (snd acc').
Proof.
  unfold count_item, quantity_nonneg. destruct acc as [sold stats].
  intros Hitem Hall.
  destruct (item_number item "quantity") as [q|e]; cbn [bind]; [|discriminate].
  destruct (item_sweet_name item) as [sweet_name|e]; cbn [bind]; [|discriminate].
  destruct (item_number item "price") as [p|e]; cbn [bind]; [|discriminate].
  destruct (num_add sold q) as [sold'|e]; cbn [bind]; [|discriminate].
  destruct (hashable sweet_name); [|discriminate].
  destruct (add_to_stats stats sweet_name q p) as [stats'|e] eqn:E; cbn [bind];
    [|discriminate].
  intros [= <-]. simpl. eapply add_to_stats_nonneg; eauto.
Qed.

Lemma foldM_count_item_nonneg (items : list value) : forall acc acc',
  Forall quantity_nonneg items ->
  Forall (fun st => nonneg (quantity st) = true) (snd acc) ->
  foldM count_item items acc = Ok acc' ->
  Forall (fun st => nonneg (quantity st) = true) (snd acc').
Proof.
  induction items as [|item items IH]; intros acc acc' Hitems Hall; cbn [foldM].
  - now intros [= <-].
  - inversion Hitems as [|? ? Hitem Hrest]; subst.
    destruct (count_item acc item) as [acc1|e] eqn:E; cbn [bind]; [|discriminate].
    apply IH; [assumption|]. eapply count_item_nonneg; eassumption.
Qed.

(** Quantities that are not negative add up to quantities that are not
    negative: no aggregate is a NaN. *)
Lemma count_items_nonneg (today_orders : list dict) (sold : number)
    (stats : list sweet_stat) :
  Forall quantities_nonneg today_orders ->
  count_items today_orders = Ok (sold, stats) ->
  Forall (fun st => is_nan (quantity st) = false) stats.
Proof.
  intros Horders H.
  enough (Hnn : Forall (fun st => nonneg (quantity st) = true) stats).
  { eapply Forall_impl; [|exact Hnn]. intros st. apply nonneg_not_nan. }
  change stats with (snd (sold, stats)).
  revert H. unfold count_items.
  assert (Hnil : Forall (fun st => nonneg (quantity st) = true)
                        (snd (NInt 0, @nil sweet_stat))) by constructor.
  revert Hnil. generalize (NInt 0, @nil sweet_stat) as acc.
  generalize (sold, stats) as acc'.
  induction Horders as [|order orders Horder _ IH]; intros acc' acc Hall;
    cbn [foldM].
  - now intros [= <-].
  - destruct (order_items order) as [items|e] eqn:E; cbn [bind]; [|discriminate].
    destruct (foldM count_item items acc) as [acc1|e] eqn:E1; cbn [bind];
      [|discriminate].
    apply IH. eapply foldM_count_item_nonneg; [apply Horder| |]; eassumption.
Qed.

(** ** The daily summary *)

(** The parts of a summary, as [get_daily_summary] computes them from
    today's orders. *)
Lemma get_daily_summary_parts (coll : collection) (now : datetime) (s : summary) :
  get_daily_summary (Some coll) now = Ok s ->
  let today_orders := find_today coll (strftime_date now) in
  exists stats,
    total_orders s = Z.of_nat (length today_orders)
    /\ sum_revenue today_orders = Ok (total_revenue s)
    /\ count_items today_orders = Ok (total_items_sold s, stats)
    /\ popular_sweets s = firstn 5 (sorted_reverse quantity stats)
    /\ mapM (fun o => _serialize_order (Some o)) today_orders = Ok (orders s).
Proof.
  unfold get_daily_summary. cbv zeta.
  set (today_orders := find_today coll (strftime_date now)).
  destruct (sum_revenue today_orders) as [revenue|e]; cbn [bind];
    [|discriminate].
  destruct (count_items today_orders) as [[sold stats]|e]; cbn [bind];
    [|discriminate].
  destruct (mapM _ today_orders) as [serialized|e]; cbn [bind];
    [|discriminate].
  intros [= <-]. exists stats. simpl. auto.
Qed.

(** C9, as the code has it.  [popular_sweets] never has more than five
    entries, and it is in descending order of quantity provided no
    aggregated quantity is a NaN; that is the case whenever no quantity
    read from the items of today's orders is negative or a NaN. *)
Theorem popular_sweets_sorted
    (coll : collection) (now : datetime) (s : summary) :
  get_daily_summary (Some coll) now = Ok s ->
  (length (popular_sweets s) <= 5)%nat
  /\ (forall sold stats,
        count_items (find_today coll (strftime_date now)) = Ok (sold, stats) ->
        Forall (fun st => is_nan (quantity st) = false) stats ->
        descending (popular_sweets s))
  /\ (Forall quantities_nonneg (find_today coll (strftime_date now)) ->
      descending (popular_sweets s)).
Proof.
  intros H. apply get_daily_summary_parts in H as (stats & _ & _ & Hc & Hp & _).
  rewrite Hp.
  assert (Hsorted : Forall (fun st => is_nan (quantity st) = false) stats ->
                    descending (firstn 5 (sorted_reverse quantity stats))).
  { intros Hnan. apply StronglySorted_firstn.
    now apply sorted_reverse_descending. }
  split; [|split].
  - rewrite length_firstn. apply Nat.le_min_l.
  - intros sold stats' Hc' Hnan. rewrite Hc in Hc'. injection Hc' as _ <-.
    now apply Hsorted.
  - intros Hnn. apply Hsorted. eapply count_items_nonneg; eassumption.
Qed.

Lemma popular_sweets_sorted_witness :
  exists s,
    get_daily_summary (Some sample_busy_day) sample_now = Ok s
    /\ (length (popular_sweets s) <= 5)%nat
    /\ descending (popular_sweets s)
    /\ map name (popular_sweets s)
       = [VStr "Barfi"; VStr "Rasgulla"; VStr "Peda"; VStr "Kaju";
          VStr "Laddu"]
    /\ map quantity (popular_sweets s)
       = [NFloat (dec_to_float false 9 0); NFloat (dec_to_float false 8 0);
          NFloat (dec_to_float false 7 0); NFloat (dec_to_float false 6 0);
          NFloat (dec_to_float false 5 0)].
Proof.
  eexists. split; [vm_compute; reflexivity|].
  destruct (popular_sweets_sorted sample_busy_day sample_now _ eq_refl)
    as (Hlen & Hnan & _).
  split; [exact Hlen|]. split.
  - eapply Hnan; [vm_compute; reflexivity|]. repeat constructor.
  - split; vm_compute; reflexivity.
Defined.

(** C9 as stated fails.  An order placed with the quantities [1], ["nan"]
    and [2] is stored with the floats 1.0, NaN and 2.0; the summary of
    the day lists them in that order, 1.0 before 2.0. *)
Lemma popular_sweets_sorted_counterexample :
  exists coll s,
    place_order (Some []) sample_now sample_oid
      [("items",
        VList [VDict [("name", VStr "Laddu"); ("quantity", VInt 1)];
               VDict [("name", VStr "Barfi"); ("quantity", VStr "nan")];
               VDict [("name", VStr "Jalebi"); ("quantity", VInt 2)]])]
    = Ok coll
    /\ get_daily_summary (Some coll) sample_now = Ok s
    /\ map quantity (popular_sweets s)
       = [NFloat (float_of_Z 1); NFloat S754_nan; NFloat (float_of_Z 2)]
    /\ num_lt (NFloat (float_of_Z 1)) (NFloat (float_of_Z 2)) = true
    /\ ~ descending (popular_sweets s).
Proof.
  eexists _, _.
  split; [vm_compute; reflexivity|].
  split; [vm_compute; reflexivity|].
  split; [reflexivity|].
  split; [reflexivity|].
  intros H. inversion H as [|a l _ Hall]; subst.
  inversion Hall as [|b l' _ Hall']; subst.
  inversion Hall' as [|c l'' Hge _]; subst.
  vm_compute in Hge. discriminate.
Qed.

(** ** Normalised documents *)

Lemma stringify_datetime_spec (doc : dict) (k0 : string) :
  keys (stringify_datetime doc k0) = keys doc
  /\ forall k,
       dict_get (stringify_datetime doc k0) k =
       if String.eqb k k0
       then match dict_get doc k with
            | Some (VDatetime t) => Some (VStr (strftime_datetime t))
            | v => v
            end
       else dict_get doc k.
Proof.
  unfold stringify_datetime.
  destruct (dict_get doc k0) as [v|] eqn:E.
  - assert (Hpresent : dict_get doc k0 <> None) by congruence.
    destruct v; try (split; [reflexivity|]; intros k;
                     destruct (String.eqb k k0) eqn:Ek; [|reflexivity];
                     apply String.eqb_eq in Ek; subst k; now rewrite E).
    split; [now apply keys_set_present|]. intros k.
    destruct (String.eqb k k0) eqn:Ek.
    + apply String.eqb_eq in Ek. subst k. now rewrite dict_get_set_eq, E.
    + apply String.eqb_neq in Ek. apply dict_get_set_neq. exact Ek.
  - split; [reflexivity|]. intros k.
    destruct (String.eqb k k0) eqn:Ek; [|reflexivity].
    apply String.eqb_eq in Ek. subst k. now rewrite E.
Qed.

Lemma _serialize_datetimes_spec (doc : dict) :
  keys (_serialize_datetimes doc) = keys doc
  /\ forall k, dict_get (_serialize_datetimes doc) k = rendered k (dict_get doc k).
Proof.
  destruct doc as [|kv doc]; [split; reflexivity|].
  unfold _serialize_datetimes. cbv zeta.
  set (d := kv :: doc).
  destruct (stringify_datetime_spec d "createdAt") as [Hk1 Hg1].
  destruct (stringify_datetime_spec (stringify_datetime d "createdAt")
              "updatedAt") as [Hk2 Hg2].
  clearbody d.
  split; [congruence|]. intros k. rewrite Hg2, Hg1. unfold rendered.
  destruct (String.eqb k "updatedAt") eqn:Eu.
  - apply String.eqb_eq in Eu. subst k. simpl.
    now destruct (dict_get d "updatedAt") as [[]|].
  - rewrite orb_false_r.
    destruct (String.eqb k "createdAt");
      now destruct (dict_get d k) as [[]|].
Qed.

Lemma mapM_Forall2 {A B : Type} (f : A -> res B) (l : list A) : forall l',
  mapM f l = Ok l' -> Forall2 (fun x y => f x = Ok y) l l'.
Proof.
  induction l as [|x l IH]; simpl; intros l' H.
  - injection H as <-. constructor.
  - destruct (f x) as [y|e] eqn:E; simpl in H; [|discriminate].
    destruct (mapM f l) as [ys|e]; simpl in H; [|discriminate].
    injection H as <-. constructor; auto.
Qed.

(** What [_serialize_order] makes of a stored document. *)
Lemma _serialize_order_listed (doc : dict) (entry : option dict) :
  _serialize_order (Some doc) = Ok entry -> listed_as doc entry.
Proof.
  unfold _serialize_order, listed_as.
  destruct doc as [|kv doc]; [now intros [= <-]|].
  cbv beta iota. set (d := kv :: doc). clearbody d.
  unfold get_default, py_str.
  destruct (dict_get d "_id") as [id|] eqn:E.
  - assert (Hset : forall s,
               (forall oid, id = VObjectId oid -> s = ObjectId_str oid) ->
               let d' := _serialize_datetimes (dict_set d "_id" (VStr s)) in
               keys d' = keys d
               /\ (forall oid, Some id = Some (VObjectId oid) ->
                               dict_get d' "_id" = Some (VStr (ObjectId_str oid)))
               /\ (forall k, k <> "_id" ->
                             dict_get d' k = rendered k (dict_get d k))).
    { intros s Hs d'.
      destruct (_serialize_datetimes_spec (dict_set d "_id" (VStr s)))
        as [Hk Hg].
      split; [unfold d'; rewrite Hk; apply keys_set_present; congruence|].
      split.
      - intros oid [= ->]. unfold d'.
        now rewrite Hg, dict_get_set_eq, (Hs oid eq_refl).
      - intros k Hne. unfold d'. now rewrite Hg, dict_get_set_neq. }
    destruct id; cbn [bind]; try discriminate; intros [= <-];
      try (apply Hset; intros; congruence).
    destruct (_serialize_datetimes_spec d) as [Hk Hg].
    split; [exact Hk|]. split; [discriminate|]. intros k _. apply Hg.
  - cbn [bind]. intros [= <-].
    destruct (_serialize_datetimes_spec d) as [Hk Hg].
    split; [exact Hk|]. split; [discriminate|]. intros k _. apply Hg.
Qed.

(** ** Nothing to update *)

(** C6.  When the identifier is valid and names a document, and no key of
    the updates is a recognised field (the mapping is empty, or [None], or
    holds unknown keys only), [edit_order] returns that document,
    normalised: the same keys, the identifier as its twenty-four digits,
    a date under [createdAt] or [updatedAt] printed, every other field as
    it is stored.  The collection is exactly as it was: nothing is
    written, [updatedAt] included. *)
Theorem edit_order_nothing_to_update
    (coll : collection) (now : datetime) (order_id : string) (oid : N)
    (doc : dict) (updates : value) (fields : dict) :
  ObjectId order_id = Ok oid ->
  find_one coll oid = Some doc ->
  update_items updates = Ok fields ->
  Forall (fun kv => field_map_get (fst kv) = None) fields ->
  exists current,
    _serialize_order (Some doc) = Ok (Some current)
    /\ edit_order (Some coll) now order_id updates = Ok (Some current, coll)
    /\ keys current = keys doc
    /\ dict_get current "_id" = Some (VStr (ObjectId_str oid))
    /\ (forall k, k <> "_id" -> dict_get current k = rendered k (dict_get doc k))
    /\ dict_get current "updatedAt" = rendered "updatedAt" (dict_get doc "updatedAt")
    /\ listed_as doc (Some current).
Proof.
  intros Hid Hfind Hitems Hnone.
  pose proof (find_one_has_id _ _ _ Hfind) as Hdoc.
  pose proof (_serialize_order_with_id _ _ Hdoc) as Hser.
  pose proof (_serialize_order_listed _ _ Hser) as Hlisted.
  eexists. split; [exact Hser|]. split.
  - unfold edit_order. rewrite (parse_id_ok _ _ Hid). simpl.
    unfold build_set_payload. rewrite Hitems. simpl.
    rewrite (foldM_add_update_unrecognized _ _ Hnone). simpl.
    rewrite Hfind. destruct doc as [|kv doc]; [discriminate|].
    now rewrite Hser.
  - destruct Hlisted as (Hkeys & Hoid & Hother).
    split; [exact Hkeys|]. split; [now apply Hoid|].
    split; [exact Hother|]. split; [now apply Hother|].
    repeat split; assumption.
Qed.

Lemma edit_order_nothing_to_update_witness :
  exists current,
    _serialize_order (Some sample_order) = Ok (Some current)
    /\ edit_order (Some [sample_order]) sample_now sample_id
         (VDict [("unknownField", VInt 1)])
       = Ok (Some current, [sample_order])
    /\ keys current = keys sample_order
    /\ dict_get current "_id" = Some (VStr sample_id)
    /\ (forall k, k <> "_id" ->
                  dict_get current k = rendered k (dict_get sample_order k))
    /\ dict_get current "updatedAt" = None
    /\ listed_as sample_order (Some current).
Proof.
  apply (edit_order_nothing_to_update
           [sample_order] sample_now sample_id sample_oid sample_order
           (VDict [("unknownField", VInt 1)]) [("unknownField", VInt 1)]).
  - vm_compute. reflexivity.
  - reflexivity.
  - reflexivity.
  - repeat constructor.
Defined.

(** What [_serialize_order] makes of a document projected without its
    identifier. *)
Lemma _serialize_order_summarised (doc : dict) (entry : option dict) :
  _serialize_order (Some (project_without_id doc)) = Ok entry ->
  summarised_as doc entry.
Proof.
  unfold _serialize_order, get_default, project_without_id, summarised_as.
  rewrite dict_get_without_eq.
  destruct (without "_id" doc) as [|kv d] eqn:E; [now intros [= <-]|].
  cbn [bind]. intros [= <-].
  destruct (_serialize_datetimes_spec (kv :: d)) as [Hk Hg].
  change (stringify_datetime (stringify_datetime (kv :: d) "createdAt")
            "updatedAt") with (_serialize_datetimes (kv :: d)).
  rewrite <- E in *.
  split; [now rewrite Hg, dict_get_without_eq|].
  split; [exact Hk|].
  intros k Hne. now rewrite Hg, dict_get_without_neq.
Qed.

Lemma summary_orders (coll : collection) (now : datetime) (s : summary) :
  get_daily_summary (Some coll) now = Ok s ->
  Forall2 summarised_as
    (find_sorted coll (field_is "orderDate" (strftime_date now))) (orders s).
Proof.
  intros H. apply get_daily_summary_parts in H as (_ & _ & _ & _ & _ & H).
  apply mapM_Forall2 in H. unfold find_today in H.
  set (docs := find_sorted _ _) in *. clearbody docs.
  remember (map project_without_id docs) as projected eqn:Hp.
  revert docs Hp.
  induction H as [|o entry l l' Hx _ IH]; intros docs Hp;
    destruct docs as [|doc docs]; try discriminate; constructor.
  - injection Hp as -> _. now apply _serialize_order_summarised.
  - injection Hp as _ ->. now apply IH.
Qed.

(** C4, as the code has it.  The orders listed in the summary are today's
    documents, each without its identifier (the query leaves [_id] out)
    and otherwise normalised as in [get_orders]: a datetime under
    [createdAt] or [updatedAt] is printed as [YYYY-MM-DD HH:MM:SS], every
    other field, [orderDate] and [deliveryDate] included, is as stored.
    [get_orders] does the same and also prints the identifier. *)
Theorem summary_orders_normalized
    (coll : collection) (now : datetime) (s : summary) :
  get_daily_summary (Some coll) now = Ok s ->
  Forall2 summarised_as
    (find_sorted coll (field_is "orderDate" (strftime_date now))) (orders s)
  /\ (forall listed,
        get_orders (Some coll) = Ok listed ->
        Forall2 listed_as (find_sorted coll (fun _ => true)) listed).
Proof.
  intros H. split; [now apply summary_orders|].
  unfold get_orders. intros listed Hl. apply mapM_Forall2 in Hl.
  eapply Forall2_impl; [|exact Hl].
  intros doc entry. apply _serialize_order_listed.
Qed.

Lemma summary_orders_normalized_witness :
  exists s,
    get_daily_summary (Some [sample_old_order; sample_order]) sample_now = Ok s
    /\ Forall2 summarised_as [sample_order] (orders s).
Proof.
  eexists. split; [vm_compute; reflexivity|].
  apply (proj1 (summary_orders_normalized
                  [sample_old_order; sample_order] sample_now _ eq_refl)).
Defined.

(** C4 as stated fails.  For the same stored order, [get_orders] returns
    the identifier as a string and the summary returns no identifier. *)
Lemma summary_orders_normalized_counterexample :
  exists s entry entry',
    get_daily_summary (Some [sample_order]) sample_now = Ok s
    /\ orders s = [Some entry]
    /\ dict_get entry "_id" = None
    /\ get_orders (Some [sample_order]) = Ok [Some entry']
    /\ dict_get entry' "_id" = Some (VStr sample_id).
Proof.
  eexists _, _, _. vm_compute. repeat split.
Qed.

(** ** Today's orders *)

Lemma field_is_spec (k s : string) (doc : dict) :
  field_is k s doc = true <-> dict_get doc k = Some (VStr s).
Proof.
  unfold field_is. destruct (dict_get doc k) as [[]|]; split;
    try discriminate; try (intros [=]; discriminate).
  - intros H. apply String.eqb_eq in H. now subst.
  - intros [= ->]. apply String.eqb_refl.
Qed.

Lemma filter_idempotent {A : Type} (f : A -> bool) (l : list A) :
  filter f (filter f l) = filter f l.
Proof.
  induction l as [|x l IH]; simpl; [reflexivity|].
  destruct (f x) eqn:E; simpl; [|assumption].
  now rewrite E, IH.
Qed.

(** The query sees the documents the filter keeps, all of them and no
    other. *)
Lemma find_sorted_perm (c : collection) (flt : dict -> bool) :
  Permutation (find_sorted c flt) (filter flt c).
Proof. apply sort_perm. Qed.

Lemma foldM_app {A S : Type} (f : S -> A -> res S) (l1 l2 : list A) :
  forall s, foldM f (l1 ++ l2) s = bind (foldM f l1 s) (foldM f l2).
Proof.
  induction l1 as [|x l1 IH]; intros s; simpl; [reflexivity|].
  destruct (f s x); simpl; [apply IH | reflexivity].
Qed.

(** Addition raises nothing but an OverflowError. *)
Lemma num_add_raises (a b : number) (e : exn) :
  num_add a b = Raise e -> e = OverflowError.
Proof.
  destruct a as [x|x], b as [y|y]; cbn [num_add]; try discriminate;
    unfold float_of_int;
    match goal with |- context [float_of_Z ?z] => destruct (float_of_Z z) end;
    cbn [bind]; congruence.
Qed.

(** One turn of the loop that adds up the revenue. *)
Lemma revenue_step (acc : number) (doc : dict) (r : number) :
  try_except_ValueError_TypeError
    (f <- float_or_0 (get_default doc "total" (VInt 0)) ;;
     num_add acc (NFloat f))
    (Ok acc) = Ok r ->
  foldM num_add (revenue_share doc) acc = Ok r.
Proof.
  unfold revenue_share.
  destruct (float_or_0 (get_default doc "total" (VInt 0))) as [f|e];
    cbn [bind].
  - destruct (num_add acc (NFloat f)) as [a|e] eqn:E.
    + cbn [foldM]. rewrite E. exact (fun H => H).
    + apply num_add_raises in E. subst e. discriminate.
  - destruct e; simpl; try discriminate; trivial.
Qed.

Lemma get_default_without_id (doc : dict) (k : string) (v : value) :
  k <> "_id" ->
  get_default (project_without_id doc) k v = get_default doc k v.
Proof.
  intros H. unfold get_default, project_without_id.
  now rewrite dict_get_without_neq.
Qed.

(** The revenue is the sum of the shares of the documents. *)
Lemma sum_revenue_shares (docs : list dict) : forall acc r,
  foldM (fun total_revenue order =>
           try_except_ValueError_TypeError
             (f <- float_or_0 (get_default order "total" (VInt 0)) ;;
              num_add total_revenue (NFloat f))
             (Ok total_revenue))
        (map project_without_id docs) acc = Ok r ->
  foldM num_add (flat_map revenue_share docs) acc = Ok r.
Proof.
  induction docs as [|doc docs IH]; intros acc r; cbn [map foldM flat_map].
  - trivial.
  - rewrite get_default_without_id by discriminate.
    match goal with
    | |- bind ?c _ = _ -> _ => destruct c as [acc1|e] eqn:E
    end; cbn [bind]; [|discriminate].
    intros H. rewrite foldM_app, (revenue_step _ _ _ E). cbn [bind].
    now apply IH.
Qed.

(** An item the summary counts is a dictionary, and counts for its
    share. *)
Lemma item_number_quantity (item : value) (q : number) :
  item_number item "quantity" = Ok q ->
  is_dict item = true /\ q = quantity_share item.
Proof.
  unfold item_number. destruct item; cbn [py_get bind]; try discriminate.
  cbn [quantity_share is_dict].
  destruct (float_or_0 (get_default d "quantity" (VInt 0))) as [f|[]];
    simpl; try discriminate; intros [= <-]; auto.
Qed.

Lemma count_item_quantity (sold : number) (stats : list sweet_stat)
    (item : value) (sold' : number) (stats' : list sweet_stat) :
  count_item (sold, stats) item = Ok (sold', stats') ->
  is_dict item = true /\ num_add sold (quantity_share item) = Ok sold'.
Proof.
  unfold count_item.
  destruct (item_number item "quantity") as [q|e] eqn:Q; cbn [bind];
    [|discriminate].
  apply item_number_quantity in Q as [Hd ->].
  destruct (item_sweet_name item) as [n|e]; cbn [bind]; [|discriminate].
  destruct (item_number item "price") as [p|e]; cbn [bind]; [|discriminate].
  destruct (num_add sold (quantity_share item)) as [sold1|e]; cbn [bind];
    [|discriminate].
  destruct (hashable n); [|discriminate].
  destruct (add_to_stats stats n (quantity_share item) p) as [stats1|e];
    cbn [bind]; [|discriminate].
  intros [= <- <-]. auto.
Qed.

Lemma foldM_count_item_quantities (items : list value) :
  forall sold stats sold' stats',
    foldM count_item items (sold, stats) = Ok (sold', stats') ->
    Forall (fun item => is_dict item = true) items
    /\ foldM num_add (map quantity_share items) sold = Ok sold'.
Proof.
  induction items as [|item items IH]; intros sold stats sold' stats';
    cbn [foldM map].
  - intros [= <- <-]. split; [constructor | reflexivity].
  - destruct (count_item (sold, stats) item) as [[sold1 stats1]|e] eqn:E;
      cbn [bind]; [|discriminate].
    apply count_item_quantity in E as [Hd Hadd].
    intros H. apply IH in H as [Hall Hsum].
    split; [now constructor|]. rewrite Hadd. exact Hsum.
Qed.

(** The loop of the summary goes through the items of the order, when
    all of them are dictionaries. *)
Lemma order_items_dicts (doc : dict) (items : list value) :
  order_items doc = Ok items ->
  Forall (fun item => is_dict item = true) items ->
  items = items_of doc.
Proof.
  unfold order_items, items_of, get_default, py_or.
  destruct (dict_get doc "items") as [[| b | z | f | s | l | d | t | o]|];
    cbn [truthy]; try (now intros [= <-]).
  - destruct b; cbn [py_iter]; [discriminate | now intros [= <-]].
  - destruct (z =? 0); cbn [negb py_iter]; [now intros [= <-] | discriminate].
  - destruct f; cbn [py_iter]; try discriminate. now intros [= <-].
  - destruct s as [|c s]; cbn [String.eqb negb py_iter]; [now intros [= <-]|].
    intros [= <-] H. inversion H. discriminate.
  - destruct l; cbn [py_iter]; now intros [= <-].
  - destruct d as [|[k v] d]; cbn [py_iter]; [now intros [= <-]|].
    intros [= <-] H. inversion H. discriminate.
Qed.

Lemma order_items_without_id (doc : dict) :
  order_items (project_without_id doc) = order_items doc
  /\ items_of (project_without_id doc) = items_of doc.
Proof.
  unfold order_items, items_of, project_without_id.
  rewrite get_default_without_id by discriminate.
  now rewrite dict_get_without_neq by discriminate.
Qed.

(** The items sold are the sum of the shares of the items of the
    documents. *)
Lemma count_items_shares (docs : list dict) :
  forall sold stats sold' stats',
    foldM (fun acc order =>
             items <- order_items order ;;
             foldM count_item items acc)
          (map project_without_id docs) (sold, stats) = Ok (sold', stats') ->
    foldM num_add (map quantity_share (flat_map items_of docs)) sold
    = Ok sold'.
Proof.
  induction docs as [|doc docs IH]; intros sold stats sold' stats';
    cbn [map foldM flat_map].
  - now intros [= <- <-].
  - destruct (order_items_without_id doc) as [-> _].
    destruct (order_items doc) as [items|e] eqn:I; cbn [bind];
      [|discriminate].
    destruct (foldM count_item items (sold, stats)) as [[sold1 stats1]|e] eqn:E;
      cbn [bind]; [|discriminate].
    apply foldM_count_item_quantities in E as [Hall Hsum].
    rewrite <- (order_items_dicts _ _ I Hall).
    intros H. rewrite map_app, foldM_app, Hsum. cbn [bind].
    now apply (IH _ _ _ _ H).
Qed.

(** C8.  In a collection where no [orderDate] is an array,
    [get_daily_summary] works on the documents whose stored [orderDate]
    is the string of the current day, on all of them and on no other.
    These are the documents the query returns.  The count is
    their number.  The orders listed are these documents, one entry
    each.  The revenue is the sum of what each of them adds,
    [float(total or 0)] when that converts; the items sold are the sum of
    what each of their items adds, [float(quantity or 0)] or [0].  And
    the whole summary is the one of the collection with every other
    document removed, so that an order of another day, yesterday's for
    one, changes nothing. *)
Theorem daily_summary_selects_today (coll : collection) (now : datetime) :
  Forall orderDate_is_scalar coll ->
  let today := strftime_date now in
  let todays := filter (field_is "orderDate" today) coll in
  (forall doc,
      In doc (find_sorted coll (field_is "orderDate" today))
      <-> In doc coll /\ dict_get doc "orderDate" = Some (VStr today))
  /\ get_daily_summary (Some coll) now = get_daily_summary (Some todays) now
  /\ (forall s,
        get_daily_summary (Some coll) now = Ok s ->
        total_orders s = Z.of_nat (length todays)
        /\ Forall2 summarised_as
             (find_sorted coll (field_is "orderDate" today)) (orders s)
        /\ py_sum (flat_map revenue_share
                            (find_sorted coll (field_is "orderDate" today)))
           = Ok (total_revenue s)
        /\ py_sum (map quantity_share
                       (flat_map items_of
                          (find_sorted coll (field_is "orderDate" today))))
           = Ok (total_items_sold s)
        /\ exists stats,
             sum_revenue (find_today todays today) = Ok (total_revenue s)
             /\ count_items (find_today todays today)
                = Ok (total_items_sold s, stats)
             /\ popular_sweets s = firstn 5 (sorted_reverse quantity stats)).
Proof.
  intros _ today todays.
  assert (Hsame : find_today todays today = find_today coll today).
  { unfold find_today, find_sorted, todays. now rewrite filter_idempotent. }
  split; [|split].
  - intros doc. rewrite <- field_is_spec, <- filter_In. split.
    + apply Permutation_in, find_sorted_perm.
    + apply Permutation_in. symmetry. apply find_sorted_perm.
  - unfold get_daily_summary. cbv zeta. fold today. now rewrite Hsame.
  - intros s H.
    destruct (get_daily_summary_parts _ _ _ H)
      as (stats & Hn & Hr & Hc & Hp & _).
    fold today in Hn, Hr, Hc.
    split; [|split; [|split; [|split]]].
    + rewrite Hn. unfold find_today. rewrite length_map. f_equal.
      apply Permutation_length, find_sorted_perm.
    + now apply summary_orders.
    + apply sum_revenue_shares. exact Hr.
    + apply (count_items_shares _ _ _ _ _ Hc).
    + rewrite Hsame. exists stats. auto.
Qed.

Lemma daily_summary_selects_today_witness :
  get_daily_summary (Some sample_busy_day) sample_now
  = get_daily_summary (Some [sample_order; sample_second_order]) sample_now
  /\ exists s,
       get_daily_summary (Some sample_busy_day) sample_now = Ok s
       /\ total_orders s = 2
       /\ Forall2 summarised_as [sample_second_order; sample_order] (orders s)
       /\ py_sum [NFloat (dec_to_float false 1205 (-1));
                  NFloat (dec_to_float false 250 0)]
          = Ok (total_revenue s)
       /\ total_revenue s = NFloat (dec_to_float false 3705 (-1))
       /\ py_sum (map quantity_share
                      (items_of sample_second_order ++ items_of sample_order))
          = Ok (total_items_sold s)
       /\ total_items_sold s = NFloat (dec_to_float false 40 0).
Proof.
  assert (Hscalar : Forall orderDate_is_scalar sample_busy_day)
    by (repeat constructor; intros l; discriminate).
  pose proof (daily_summary_selects_today sample_busy_day sample_now Hscalar)
    as (_ & Hsame & Hparts).
  split; [exact Hsame|].
  eexists. split; [vm_compute; reflexivity|].
  destruct (Hparts _ eq_refl) as (Hcount & Horders & Hrev & Hsold & _).
  split; [exact Hcount|]. split; [exact Horders|].
  split; [exact Hrev|]. split; [vm_compute; reflexivity|].
  split; [exact Hsold | vm_compute; reflexivity].
Defined.

(** ** An integer beyond the floats *)

(** The handlers catch ValueError and TypeError; the OverflowError of an
    integer too large for a float passes through them. *)
Example overflow_is_not_caught :
  place_order (Some []) sample_now sample_oid [("total", VInt (10 ^ 400))]
  = Raise OverflowError.
Proof. vm_compute. reflexivity. Qed.

(** ** Updates that fit *)

Lemma normalize_items_fits (l : list value) :
  Forall (fun item => forall d, item = VDict d ->
                                field_fits d "quantity"
                                /\ field_fits d "price") l ->
  exists norm_items, normalize_items l = Ok norm_items.
Proof.
  induction 1 as [|item l Hitem _ [rest IH]]; [simpl; eauto|].
  destruct item; cbn [normalize_items]; rewrite IH; eauto.
  destruct (Hitem d eq_refl) as [Hq Hp].
  destruct (coerce_dict_field_fits d "quantity" Hq) as [d1 H1].
  rewrite H1. cbn [bind].
  assert (Hp1 : field_fits d1 "price").
  { apply coerce_dict_field_spec in H1 as (_ & Ho & _).
    unfold field_fits in *. now rewrite Ho by discriminate. }
  destruct (coerce_dict_field_fits d1 "price" Hp1) as [d2 ->]. cbn [bind].
  eauto.
Qed.

(** With numeric values that fit, the payload of [edit_order] is built:
    the loop raises nothing. *)
Lemma foldM_add_update_fits (fields : dict) : forall acc,
  Forall update_fits fields ->
  exists payload, foldM add_update fields acc = Ok payload.
Proof.
  induction fields as [|[k v] fields IH]; intros acc Hall; cbn [foldM];
    [eauto|].
  inversion Hall as [|? ? Hkv Hrest]; subst.
  unfold add_update, update_fits in *. cbn [fst snd] in Hkv.
  destruct (field_map_get k) as [dest|] eqn:Ek; cbn [bind]; [|now apply IH].
  assert (Hv : exists v', coerce_update dest v = Ok v').
  { unfold coerce_update.
    destruct (String.eqb dest "total") eqn:Et.
    - apply String.eqb_eq in Et. subst dest.
      destruct (float_or_0_fits v Hkv) as [[f ->] | [-> | ->]]; simpl; eauto.
    - cbn [bind]. destruct (String.eqb dest "items") eqn:Ei; [|eauto].
      apply String.eqb_eq in Ei. subst dest.
      destruct v; eauto.
      destruct (normalize_items_fits l Hkv) as [norm_items ->]. simpl. eauto. }
  destruct Hv as [v' ->]. cbn [bind]. now apply IH.
Qed.
(* ===================================================================== *)
(** * Further properties of the code                                      *)
(* ===================================================================== *)

(** ** The order of the documents read *)

Lemma datetime_ltb_lex (a b : datetime) :
  datetime_ltb a b = lex_ltb (datetime_fields a) (datetime_fields b).
Proof. reflexivity. Qed.

Lemma lex_ltb_asym (x : list nat) : forall y,
  lex_ltb x y = true -> lex_ltb y x = false.
Proof.
  induction x as [|p x IH]; intros [|q y]; simpl;
    try reflexivity; try discriminate.
  intros H. apply orb_true_iff in H. apply orb_false_iff.
  destruct H as [H | H].
  - apply Nat.ltb_lt in H. split.
    + apply Nat.ltb_ge. lia.
    + apply andb_false_iff. left. apply Nat.eqb_neq. lia.
  - apply andb_true_iff in H. destruct H as [E H].
    apply Nat.eqb_eq in E. subst q. split.
    + apply Nat.ltb_irrefl.
    + rewrite Nat.eqb_refl. simpl. apply IH, H.
Qed.

Lemma lex_ltb_neg_trans (x : list nat) : forall y z,
  length y = length x -> length z = length x ->
  lex_ltb y x = false -> lex_ltb z y = false -> lex_ltb z x = false.
Proof.
  induction x as [|p x IH]; intros [|q y] [|r z]; simpl;
    try reflexivity; try discriminate.
  intros [= Ly] [= Lz] H1 H2.
  apply orb_false_iff in H1 as [A1 B1]. apply orb_false_iff in H2 as [A2 B2].
  apply Nat.ltb_ge in A1, A2. apply orb_false_iff. split.
  - apply Nat.ltb_ge. lia.
  - destruct (Nat.eqb_spec r p) as [E|]; [|reflexivity]. simpl. subst r.
    assert (q = p) by lia. subst q.
    rewrite Nat.eqb_refl in B1, B2. simpl in B1, B2.
    now apply (IH y z).
Qed.

Lemma created_after_asym (a b : dict) :
  created_after a b = true -> created_after b a = false.
Proof.
  unfold created_after.
  destruct (created a) as [x|], (created b) as [y|];
    try discriminate; try reflexivity.
  rewrite !datetime_ltb_lex. apply lex_ltb_asym.
Qed.

Lemma created_after_neg_trans (a b c : dict) :
  created_after a b = false -> created_after b c = false ->
  created_after a c = false.
Proof.
  unfold created_after.
  destruct (created a) as [x|], (created b) as [y|], (created c) as [z|];
    try discriminate; try reflexivity.
  rewrite !datetime_ltb_lex. intros H1 H2.
  now apply (lex_ltb_neg_trans _ (datetime_fields y)).
Qed.

Lemma StronglySorted_snoc {A : Type} (R : A -> A -> Prop) (l : list A) (a : A) :
  StronglySorted R l -> Forall (fun x => R x a) l ->
  StronglySorted R (l ++ [a]).
Proof.
  induction 1 as [|x l Hs IH Hx]; intros Hf; simpl.
  - repeat constructor.
  - inversion Hf; subst. constructor.
    + now apply IH.
    + apply Forall_app. split; [assumption|]. now repeat constructor.
Qed.

Lemma StronglySorted_rev {A : Type} (R : A -> A -> Prop) (l : list A) :
  StronglySorted R l -> StronglySorted (fun a b => R b a) (rev l).
Proof.
  induction 1 as [|x l Hs IH Hx]; simpl; [constructor|].
  apply StronglySorted_snoc; [assumption|]. now apply Forall_rev.
Qed.

Lemma find_sorted_newest_first (c : collection) (flt : dict -> bool) :
  newest_first (find_sorted c flt).
Proof.
  unfold newest_first, find_sorted.
  replace (sort created_after (filter flt c))
    with (rev (sort_reverse created_after (rev (filter flt c))))
    by (unfold sort_reverse; now rewrite !rev_involutive).
  apply (StronglySorted_rev (fun a b => created_after a b = false)).
  apply (sort_reverse_sorted created_after (fun _ => True)
           (fun a b => created_after a b = false)).
  - auto.
  - intros a b _ _. apply created_after_asym.
  - apply created_after_neg_trans.
  - apply Forall_forall. auto.
Qed.

Lemma get_orders_listed (coll : collection) (listed : list (option dict)) :
  get_orders (Some coll) = Ok listed ->
  Forall2 listed_as (find_sorted coll (fun _ => true)) listed.
Proof.
  unfold get_orders. intros Hl. apply mapM_Forall2 in Hl.
  eapply Forall2_impl; [|exact Hl].
  intros doc entry. apply _serialize_order_listed.
Qed.

Lemma filter_all {A : Type} (l : list A) : filter (fun _ => true) l = l.
Proof. induction l; simpl; congruence. Qed.

(** X1.  [get_orders] returns every stored order once, the most recent
    first: the entries are the normalised forms of the documents of the
    collection, taken in an order in which no document is more recent
    than one before it. *)
Theorem get_orders_newest_first
    (coll : collection) (listed : list (option dict)) :
  get_orders (Some coll) = Ok listed ->
  exists docs,
    Permutation docs coll
    /\ newest_first docs
    /\ Forall2 listed_as docs listed.
Proof.
  intros H. exists (find_sorted coll (fun _ => true)). split; [|split].
  - rewrite <- (filter_all coll) at 2. apply find_sorted_perm.
  - apply find_sorted_newest_first.
  - now apply get_orders_listed.
Qed.

Lemma get_orders_newest_first_witness :
  exists listed docs,
    get_orders (Some [sample_old_order; sample_order]) = Ok listed
    /\ Permutation docs [sample_old_order; sample_order]
    /\ newest_first docs
    /\ Forall2 listed_as docs listed.
Proof.
  eexists.
  destruct (get_orders_newest_first [sample_old_order; sample_order] _ eq_refl)
    as (docs & H).
  exists docs. split; [vm_compute; reflexivity | exact H].
Defined.

(** X2.  With a handle, and documents that carry ObjectIds, [get_orders]
    does not raise and returns one entry per stored document, none of
    them [None]. *)
Theorem get_orders_answers (coll : collection) :
  ids_are_ObjectIds coll ->
  exists listed,
    get_orders (Some coll) = Ok listed
    /\ length listed = length coll
    /\ Forall (fun entry => entry <> None) listed.
Proof.
  intros Hids. unfold get_orders.
  assert (Hs : Forall (fun doc => exists oid,
                         dict_get doc "_id" = Some (VObjectId oid))
                      (find_sorted coll (fun _ => true))).
  { eapply Permutation_Forall; [|exact Hids].
    apply Permutation_sym. rewrite <- (filter_all coll) at 2.
    apply find_sorted_perm. }
  assert (Hlen : length (find_sorted coll (fun _ => true)) = length coll).
  { apply Permutation_length. rewrite <- (filter_all coll) at 2.
    apply find_sorted_perm. }
  revert Hs Hlen. generalize (find_sorted coll (fun _ => true)) as docs.
  intros docs Hs <-. clear Hids.
  induction Hs as [|doc docs [oid Hoid] _ (listed & IH & Hlen & Hsome)].
  - exists []. simpl. auto.
  - simpl. rewrite (_serialize_order_with_id doc oid Hoid). cbn [bind].
    rewrite IH. cbn [bind]. eexists. split; [reflexivity|]. simpl. split.
    + now rewrite Hlen.
    + constructor; [discriminate | assumption].
Qed.

Lemma get_orders_answers_witness :
  exists listed,
    get_orders (Some [sample_old_order; sample_order]) = Ok listed
    /\ length listed = 2%nat
    /\ Forall (fun entry => entry <> None) listed.
Proof.
  apply (get_orders_answers [sample_old_order; sample_order]).
  repeat constructor; eexists; reflexivity.
Defined.

(** ** What [place_order] stores *)

Lemma place_order_result (coll : collection) (now : datetime) (fresh : N)
    (order : dict) (coll' : collection) :
  place_order (Some coll) now fresh order = Ok coll' ->
  exists stored oid,
    coll' = coll ++ [stored]
    /\ dict_get stored "_id" = Some (VObjectId oid)
    /\ find_one coll oid = None
    /\ (dict_get order "_id" = None -> oid = fresh)
    /\ dict_get stored "orderDate" = Some (VStr (strftime_date now))
    /\ dict_get stored "createdAt" = Some (VDatetime (to_milliseconds now))
    /\ (forall k, ~ In k written_by_place_order ->
                  dict_get stored k
                  = option_map (stored_field k) (dict_get order k)).
Proof.
  rewrite place_order_steps. cbv zeta.
  set (stamped := dict_set (dict_set order "orderDate" _) "createdAt" _).
  intros H.
  destruct (coerce_dict_field stamped "total") as [o3|e] eqn:H3; simpl in H;
    [|discriminate].
  destruct (coerce_items o3) as [o4|e] eqn:H4; simpl in H; [|discriminate].
  apply coerce_dict_field_spec in H3 as (_ & Ho3 & _).
  assert (Hget : forall k, k <> "total" -> k <> "items" ->
                           dict_get o4 k = dict_get stamped k).
  { intros k H1 H2.
    now rewrite (coerce_items_other _ _ k H4), Ho3 by assumption. }
  assert (Hid : dict_get o4 "_id" = dict_get order "_id").
  { rewrite Hget by discriminate. unfold stamped. now dict_lookup. }
  revert H. unfold insert_one.
  destruct (get_default o4 "_id" (VObjectId fresh)) eqn:Hd; try discriminate.
  destruct (existsb (has_id o) coll) eqn:Hfresh; [discriminate|].
  intros [= <-]. eexists _, o. split; [reflexivity|].
  split; [reflexivity|].
  assert (Hst : forall k, k <> "_id" -> k <> "total" -> k <> "items" ->
              dict_get (("_id", VObjectId o) :: without "_id" (to_bson o4)) k
              = option_map (stored_field k) (dict_get stamped k)).
  { intros k K1 K2 K3. rewrite dict_get_cons_neq by congruence.
    now rewrite dict_get_without_neq, dict_get_to_bson, Hget by assumption. }
  split; [|split; [|split; [|split]]].
  - unfold find_one. destruct (find (has_id o) coll) as [doc|] eqn:E;
      [|reflexivity].
    apply find_some in E as [Hin Hhas].
    assert (existsb (has_id o) coll = true)
      by (apply existsb_exists; eauto).
    congruence.
  - intros Hnone. unfold get_default in Hd. rewrite Hid, Hnone in Hd.
    congruence.
  - rewrite Hst by discriminate. unfold stamped. now dict_lookup.
  - rewrite Hst by discriminate. unfold stamped. now dict_lookup.
  - intros k Hk. unfold written_by_place_order in Hk. simpl in Hk.
    assert (k <> "_id" /\ k <> "orderDate" /\ k <> "createdAt"
            /\ k <> "total" /\ k <> "items") as (K1 & K2 & K3 & K4 & K5)
      by (repeat split; intros ->; apply Hk; auto 6).
    rewrite Hst by assumption.
    unfold stamped. now rewrite !dict_get_set_neq by assumption.
Qed.

(** X3.  [place_order] appends one document and leaves the others as
    they are.  For an order that arrives without [_id], the document has
    the identifier the driver generates, which no stored document has;
    the day of the call under [orderDate] and the instant of the call,
    to the millisecond, under [createdAt], whatever the caller had put
    there; and every field other than [total] and [items] as it was
    received: absent if it was absent, and with the value received when
    that holds no date. *)
Theorem place_order_appends_stamped
    (coll : collection) (now : datetime) (fresh : N) (order : dict)
    (coll' : collection) :
  place_order (Some coll) now fresh order = Ok coll' ->
  dict_get order "_id" = None ->
  exists stored,
    coll' = coll ++ [stored]
    /\ dict_get stored "_id" = Some (VObjectId fresh)
    /\ find_one coll fresh = None
    /\ dict_get stored "orderDate" = Some (VStr (strftime_date now))
    /\ dict_get stored "createdAt" = Some (VDatetime (to_milliseconds now))
    /\ (forall k, ~ In k written_by_place_order ->
                  dict_get order k = None -> dict_get stored k = None)
    /\ (forall k v, ~ In k written_by_place_order ->
                    dict_get order k = Some v ->
                    has_no_date v = true ->
                    dict_get stored k = Some v).
Proof.
  intros Hp Hnoid.
  destruct (place_order_result _ _ _ _ _ Hp)
    as (stored & oid & -> & Hid & Hnew & Hfresh & Hdate & Hcreated & Hrest).
  specialize (Hfresh Hnoid). subst oid.
  exists stored. repeat split; try assumption.
  - intros k Hk Hv. now rewrite (Hrest k Hk), Hv.
  - intros k v Hk Hv Hnodate.
    rewrite (Hrest k Hk), Hv. simpl. now rewrite stored_field_no_date.
Qed.

Lemma place_order_appends_stamped_witness :
  exists coll' stored,
    place_order (Some [sample_old_order]) sample_instant 7
      [("customerName", VStr "Asha"); ("orderDate", VStr "1999-01-01");
       ("createdAt", VStr "long ago"); ("deliveryDate", VStr "")]
    = Ok coll'
    /\ coll' = [sample_old_order] ++ [stored]
    /\ dict_get stored "_id" = Some (VObjectId 7)
    /\ find_one [sample_old_order] 7 = None
    /\ dict_get stored "orderDate" = Some (VStr "2026-11-03")
    /\ dict_get stored "createdAt"
       = Some (VDatetime (mkDatetime 2026 11 3 9 5 0 1000))
    /\ dict_get stored "customerName" = Some (VStr "Asha")
    /\ dict_get stored "deliveryDate" = Some (VStr "").
Proof.
  eexists.
  destruct (place_order_appends_stamped [sample_old_order] sample_instant 7
              [("customerName", VStr "Asha"); ("orderDate", VStr "1999-01-01");
               ("createdAt", VStr "long ago"); ("deliveryDate", VStr "")]
              _ eq_refl eq_refl)
    as (stored & Hc & Hid & Hnew & Hdate & Hcreated & _ & Hrest).
  exists stored. split; [vm_compute; reflexivity|].
  repeat split; try assumption.
  - apply (Hrest "customerName" (VStr "Asha")); [|reflexivity|reflexivity].
    unfold written_by_place_order. simpl. intuition discriminate.
  - apply (Hrest "deliveryDate" (VStr "")); [|reflexivity|reflexivity].
    unfold written_by_place_order. simpl. intuition discriminate.
Defined.

Lemma Forall2_In_l {A B : Type} (R : A -> B -> Prop) (l : list A)
    (l' : list B) (x : A) :
  Forall2 R l l' -> In x l -> exists y, In y l' /\ R x y.
Proof.
  induction 1 as [|a b l l' Hab _ IH]; simpl; [tauto|].
  intros [<- | Hin].
  - exists b. auto.
  - destruct (IH Hin) as (y & Hy & HR). exists y. auto.
Qed.

(** Printing a date to the second does not see the rounding to the
    millisecond. *)
Lemma rendered_stored (k : string) (o : option value) :
  rendered k (option_map (stored_field k) o) = rendered k o.
Proof.
  destruct o as [[]|]; try reflexivity. simpl.
  now destruct (String.eqb k "createdAt" || String.eqb k "updatedAt").
Qed.

(** X4.  An order placed without [_id] is among the orders [get_orders]
    returns: under the twenty-four digits of the identifier the driver
    generated, with the day of the call under [orderDate], the instant
    of the call printed under [createdAt], and every field other than
    [total] and [items] as it was received. *)
Theorem placed_order_is_listed
    (coll : collection) (now : datetime) (fresh : N) (order : dict)
    (coll' : collection) (listed : list (option dict)) :
  place_order (Some coll) now fresh order = Ok coll' ->
  dict_get order "_id" = None ->
  get_orders (Some coll') = Ok listed ->
  exists entry,
    In (Some entry) listed
    /\ find_one coll fresh = None
    /\ dict_get entry "_id" = Some (VStr (ObjectId_str fresh))
    /\ dict_get entry "orderDate" = Some (VStr (strftime_date now))
    /\ dict_get entry "createdAt" = Some (VStr (strftime_datetime now))
    /\ (forall k, ~ In k written_by_place_order ->
                  dict_get entry k = rendered k (dict_get order k)).
Proof.
  intros Hp Hnoid Hl.
  destruct (place_order_result _ _ _ _ _ Hp)
    as (stored & oid & -> & Hid & Hnew & Hfresh & Hdate & Hcreated & Hrest).
  specialize (Hfresh Hnoid). subst oid.
  apply get_orders_listed in Hl.
  assert (Hin : In stored (find_sorted (coll ++ [stored]) (fun _ => true))).
  { eapply Permutation_in.
    - apply Permutation_sym, find_sorted_perm.
    - rewrite filter_all. apply in_or_app. right. now left. }
  destruct (Forall2_In_l _ _ _ _ Hl Hin) as ([entry|] & Hentry & Hlisted).
  - destruct Hlisted as (_ & Hoid & Hother).
    exists entry. split; [assumption|]. split; [assumption|].
    split; [now apply Hoid|].
    split; [|split].
    + now rewrite Hother, Hdate by discriminate.
    + now rewrite Hother, Hcreated by discriminate.
    + intros k Hk. rewrite Hother, Hrest; [apply rendered_stored | assumption |].
      intros ->. apply Hk. now left.
  - simpl in Hlisted. subst stored. discriminate.
Qed.

Lemma placed_order_is_listed_witness :
  exists coll' listed entry,
    place_order (Some [sample_old_order]) sample_instant 7
      [("customerName", VStr "Asha"); ("total", VStr "250")] = Ok coll'
    /\ get_orders (Some coll') = Ok listed
    /\ In (Some entry) listed
    /\ find_one [sample_old_order] 7 = None
    /\ dict_get entry "_id" = Some (VStr "000000000000000000000007")
    /\ dict_get entry "orderDate" = Some (VStr "2026-11-03")
    /\ dict_get entry "createdAt" = Some (VStr "2026-11-03 09:05:00")
    /\ (forall k, ~ In k written_by_place_order ->
                  dict_get entry k
                  = rendered k (dict_get [("customerName", VStr "Asha");
                                          ("total", VStr "250")] k)).
Proof.
  eexists _, _.
  destruct (placed_order_is_listed [sample_old_order] sample_instant 7
              [("customerName", VStr "Asha"); ("total", VStr "250")]
              _ _ eq_refl eq_refl eq_refl)
    as (entry & H).
  exists entry.
  split; [vm_compute; reflexivity|]. split; [vm_compute; reflexivity|].
  exact H.
Defined.

Lemma find_today_length (coll : collection) (today : string) :
  length (find_today coll today)
  = length (filter (field_is "orderDate" today) coll).
Proof.
  unfold find_today. rewrite length_map.
  apply Permutation_length, find_sorted_perm.
Qed.

(** X5.  An order that was placed counts in the summary of the day it
    was placed on, and in no other: the summary of that day has one order
    more, the summary of any other day is what it was. *)
Theorem placed_order_is_counted
    (coll : collection) (now : datetime) (fresh : N) (order : dict)
    (coll' : collection) (later : datetime) :
  place_order (Some coll) now fresh order = Ok coll' ->
  (strftime_date later = strftime_date now ->
   forall s s',
     get_daily_summary (Some coll) later = Ok s ->
     get_daily_summary (Some coll') later = Ok s' ->
     total_orders s' = total_orders s + 1)
  /\ (strftime_date later <> strftime_date now ->
      get_daily_summary (Some coll') later
      = get_daily_summary (Some coll) later).
Proof.
  intros Hp.
  destruct (place_order_result _ _ _ _ _ Hp)
    as (stored & oid & -> & _ & _ & _ & Hdate & _).
  split.
  - intros Hday s s' Hs Hs'.
    apply get_daily_summary_parts in Hs as (_ & -> & _).
    apply get_daily_summary_parts in Hs' as (_ & -> & _).
    rewrite !find_today_length, filter_app, length_app. simpl.
    assert (E : field_is "orderDate" (strftime_date later) stored = true)
      by (apply field_is_spec; now rewrite Hday).
    rewrite E. simpl. lia.
  - intros Hday.
    assert (E : find_today (coll ++ [stored]) (strftime_date later)
                = find_today coll (strftime_date later)).
    { unfold find_today, find_sorted. rewrite filter_app. simpl.
      destruct (field_is "orderDate" (strftime_date later) stored) eqn:F.
      - apply field_is_spec in F. rewrite Hdate in F. congruence.
      - now rewrite app_nil_r. }
    unfold get_daily_summary. cbv zeta. now rewrite E.
Qed.

Lemma placed_order_is_counted_witness :
  exists coll' s s',
    place_order (Some [sample_order]) sample_now 7
      [("customerName", VStr "Ravi")] = Ok coll'
    /\ get_daily_summary (Some [sample_order]) sample_now = Ok s
    /\ get_daily_summary (Some coll') sample_now = Ok s'
    /\ total_orders s' = total_orders s + 1
    /\ get_daily_summary (Some coll') sample_yesterday
       = get_daily_summary (Some [sample_order]) sample_yesterday.
Proof.
  eexists _, _, _.
  destruct (placed_order_is_counted [sample_order] sample_now 7
              [("customerName", VStr "Ravi")] _ sample_now eq_refl)
    as [Hsame _].
  destruct (placed_order_is_counted [sample_order] sample_now 7
              [("customerName", VStr "Ravi")] _ sample_yesterday eq_refl)
    as [_ Hother].
  split; [vm_compute; reflexivity|].
  split; [vm_compute; reflexivity|].
  split; [vm_compute; reflexivity|].
  split.
  - apply Hsame; reflexivity.
  - apply Hother. vm_compute. discriminate.
Defined.

(** ** The order a status update finds *)

Lemma dict_get_project_fields (ks : list string) (d : dict) (k : string) :
  dict_get (project_fields ks d) k
  = if existsb (String.eqb k) ks then dict_get d k else None.
Proof.
  induction d as [|[k' v] d IH]; simpl.
  - now destruct (existsb _ ks).
  - destruct (String.eqb_spec k' k) as [->|Hne].
    + destruct (existsb (String.eqb k) ks) eqn:E; simpl.
      * now rewrite String.eqb_refl.
      * exact IH.
    + destruct (existsb (String.eqb k') ks); simpl; [|exact IH].
      destruct (String.eqb_spec k' k); [contradiction | exact IH].
Qed.

Lemma existsb_eqb_In (k : string) (ks : list string) :
  existsb (String.eqb k) ks = true <-> In k ks.
Proof.
  rewrite existsb_exists. split.
  - intros (x & Hx & E). apply String.eqb_eq in E. now subst.
  - intros H. exists k. split; [assumption | apply String.eqb_refl].
Qed.

Lemma update_order_status_found
    (coll : collection) (now : datetime) (order_id : string) (oid : N)
    (doc : dict) (status : value) :
  ObjectId order_id = Ok oid ->
  find_one coll oid = Some doc ->
  let doc' :=
    dict_set (dict_set doc "status" status) "updatedAt"
             (VDatetime (to_milliseconds now)) in
  exists coll',
    update_order_status (Some coll) now order_id status
    = Ok (Some (_serialize_datetimes
                  (dict_set (project_fields status_projection doc') "_id"
                            (VStr (ObjectId_str oid)))), coll')
    /\ find_one coll' oid = Some doc'
    /\ length coll' = length coll.
Proof.
  intros Hid Hfind doc'.
  destruct (find_one_and_update_found coll oid (status_payload status now)
              doc Hfind eq_refl) as (coll' & Hu & Hf & Hlen).
  assert (E : apply_set doc (status_payload status now) = doc')
    by (unfold doc'; now destruct status).
  rewrite E in Hu, Hf. clear E.
  exists coll'. split; [|split; assumption].
  unfold update_order_status. rewrite (parse_id_ok _ _ Hid). cbn [bind].
  rewrite Hu. cbn [option_map].
  assert (Hp : dict_get (project_fields status_projection doc') "_id"
               = Some (VObjectId oid)).
  { rewrite dict_get_project_fields. simpl existsb.
    unfold doc'. dict_lookup. eapply find_one_has_id; eassumption. }
  destruct (project_fields status_projection doc') as [|kv p] eqn:E;
    [discriminate|].
  now rewrite (_serialize_order_with_id _ _ Hp).
Qed.

(** X6.  For an identifier that names a stored order,
    [update_order_status] writes the status it is given, whatever it is
    (a value without a date, as a JSON body gives), and the instant of
    the call, to the millisecond, under [updatedAt],
    and nothing else.  It returns the order as it now stands,
    normalised, cut down to the eleven fields of the projection: any
    other stored field is absent from the answer. *)
Theorem update_order_status_updates
    (coll : collection) (now : datetime) (order_id : string) (oid : N)
    (doc : dict) (status : value) :
  ObjectId order_id = Ok oid ->
  find_one coll oid = Some doc ->
  has_no_date status = true ->
  exists r doc' coll',
    update_order_status (Some coll) now order_id status = Ok (Some r, coll')
    /\ find_one coll' oid = Some doc'
    /\ dict_get doc' "status" = Some status
    /\ dict_get doc' "updatedAt" = Some (VDatetime (to_milliseconds now))
    /\ (forall k, k <> "status" -> k <> "updatedAt" ->
                  dict_get doc' k = dict_get doc k)
    /\ dict_get r "_id" = Some (VStr (ObjectId_str oid))
    /\ dict_get r "status" = Some status
    /\ dict_get r "updatedAt" = Some (VStr (strftime_datetime now))
    /\ (forall k, In k status_projection -> k <> "_id" ->
                  dict_get r k = rendered k (dict_get doc' k))
    /\ (forall k, ~ In k status_projection -> dict_get r k = None).
Proof.
  intros Hid Hfind _.
  destruct (update_order_status_found coll now order_id oid doc status
              Hid Hfind) as (coll' & Hu & Hf & _).
  set (doc' := dict_set (dict_set doc "status" status) "updatedAt"
                        (VDatetime (to_milliseconds now))) in *.
  assert (Hr : forall k, k <> "_id" ->
             dict_get (_serialize_datetimes
                         (dict_set (project_fields status_projection doc')
                                   "_id" (VStr (ObjectId_str oid)))) k
             = rendered k (if existsb (String.eqb k) status_projection
                           then dict_get doc' k else None)).
  { intros k Hk.
    rewrite (proj2 (_serialize_datetimes_spec _)).
    now rewrite dict_get_set_neq, dict_get_project_fields by assumption. }
  eexists _, doc', coll'. split; [exact Hu|]. split; [exact Hf|].
  split; [unfold doc'; now dict_lookup|].
  split; [unfold doc'; now dict_lookup|].
  split; [intros k K1 K2; unfold doc'; now rewrite !dict_get_set_neq|].
  split.
  { rewrite (proj2 (_serialize_datetimes_spec _)).
    now rewrite dict_get_set_eq. }
  split.
  { rewrite Hr by discriminate. unfold doc'. dict_lookup.
    now destruct status. }
  split; [rewrite Hr by discriminate; unfold doc'; now dict_lookup|].
  split.
  - intros k Hin Hk. rewrite Hr by assumption.
    now rewrite (proj2 (existsb_eqb_In k status_projection) Hin).
  - intros k Hout. rewrite Hr.
    + destruct (existsb (String.eqb k) status_projection) eqn:E;
        [|reflexivity].
      apply existsb_eqb_In in E. contradiction.
    + intros ->. apply Hout. now left.
Qed.

Lemma update_order_status_updates_witness :
  exists r doc' coll',
    update_order_status
      (Some [sample_old_order; ("preference", VStr "less sugar") :: sample_order])
      sample_instant sample_id (VInt 3)
    = Ok (Some r, coll')
    /\ find_one coll' sample_oid = Some doc'
    /\ dict_get doc' "status" = Some (VInt 3)
    /\ dict_get doc' "updatedAt"
       = Some (VDatetime (mkDatetime 2026 11 3 9 5 0 1000))
    /\ (forall k, k <> "status" -> k <> "updatedAt" ->
                  dict_get doc' k
                  = dict_get (("preference", VStr "less sugar") :: sample_order) k)
    /\ dict_get r "_id" = Some (VStr sample_id)
    /\ dict_get r "status" = Some (VInt 3)
    /\ dict_get r "updatedAt" = Some (VStr "2026-11-03 09:05:00")
    /\ (forall k, In k status_projection -> k <> "_id" ->
                  dict_get r k = rendered k (dict_get doc' k))
    /\ (forall k, ~ In k status_projection -> dict_get r k = None).
Proof.
  apply (update_order_status_updates
           [sample_old_order; ("preference", VStr "less sugar") :: sample_order]
           sample_instant sample_id sample_oid
           (("preference", VStr "less sugar") :: sample_order) (VInt 3));
    reflexivity.
Defined.

(** ** The documents a mutation leaves alone *)

Lemma untouched_except_refl (oid : N) (coll : collection) :
  untouched_except oid coll coll.
Proof. induction coll; constructor; auto. Qed.

Lemma find_one_and_update_untouched (c : collection) (oid : N) (set : dict) :
  untouched_except oid c (snd (find_one_and_update c oid set)).
Proof.
  induction c as [|doc c IH]; simpl; [constructor|].
  destruct (has_id oid doc) eqn:E; simpl.
  - constructor; [congruence | apply untouched_except_refl].
  - destruct (find_one_and_update c oid set) as [r c']. simpl in *.
    constructor; auto.
Qed.

Lemma mutate_cases (coll : collection) (m : mutation) :
  mutate coll m = coll
  \/ exists oid set,
       parse_id (mutation_id m) = Ok (Some oid)
       /\ mutate coll m = snd (find_one_and_update coll oid set).
Proof.
  destruct m as [now order_id status | now order_id updates]; simpl.
  - unfold update_order_status.
    destruct (parse_id order_id) as [[oid|]|e]; simpl; auto.
    right. exists oid, (status_payload status now). split; [reflexivity|].
    destruct (find_one_and_update coll oid (status_payload status now))
      as [updated coll'] eqn:E. simpl.
    destruct updated as [doc'|]; cbn [option_map]; [|reflexivity].
    destruct (project_fields status_projection doc') as [|kv d] eqn:P;
      [reflexivity|].
    destruct (_serialize_order (Some (kv :: d))) eqn:S; simpl; [reflexivity|].
    (* the answer cannot fail to print: the projection kept the ObjectId *)
    exfalso.
    destruct (find_one coll oid) as [doc|] eqn:F.
    + destruct (find_one_and_update_found coll oid
                  (status_payload status now) doc F eq_refl)
        as (c' & Hu & Hf & _).
      rewrite E in Hu. injection Hu as -> ->.
      apply find_one_has_id in Hf.
      assert (Hp : dict_get (kv :: d) "_id" = Some (VObjectId oid)).
      { rewrite <- P, dict_get_project_fields. exact Hf. }
      rewrite (_serialize_order_with_id _ _ Hp) in S. discriminate.
    + rewrite (find_one_and_update_missing _ _ _ F) in E. discriminate.
  - unfold edit_order.
    destruct (parse_id order_id) as [[oid|]|e]; simpl; auto.
    destruct (build_set_payload updates) as [payload|e] eqn:Hp; simpl; auto.
    destruct payload as [|kv payload].
    + left. destruct (find_one coll oid) as [[|kv d]|]; try reflexivity.
      now destruct (_serialize_order (Some (kv :: d))).
    + set (set_payload := dict_set (kv :: payload) "updatedAt" (VDatetime now)).
      destruct (find_one_and_update coll oid set_payload)
        as [updated coll'] eqn:E.
      destruct updated as [[|kv' d]|].
      * right. exists oid, set_payload. now rewrite E.
      * destruct (_serialize_order (Some (kv' :: d))) eqn:S; simpl.
        -- right. exists oid, set_payload. now rewrite E.
        -- exfalso.
           assert (Hset : dict_get set_payload "_id" = None).
           { apply (edit_payload_spares updates now _ _ Hp);
               solve [not_a_stored_name | discriminate]. }
           destruct (find_one coll oid) as [doc|] eqn:F.
           ++ destruct (find_one_and_update_found coll oid set_payload doc
                          F Hset) as (c' & Hu & Hf & _).
              rewrite E in Hu. injection Hu as Hd ->.
              apply find_one_has_id in Hf. rewrite <- Hd in Hf.
              rewrite (_serialize_order_with_id _ _ Hf) in S. discriminate.
           ++ rewrite (find_one_and_update_missing _ _ _ F) in E.
              discriminate.
      * right. exists oid, set_payload. now rewrite E.
Qed.

Lemma parse_id_Some (order_id : string) (oid : N) :
  parse_id order_id = Ok (Some oid) -> ObjectId order_id = Ok oid.
Proof.
  unfold parse_id. destruct (ObjectId order_id) as [o|[]]; simpl; congruence.
Qed.

Lemma Forall2_same_length {A B : Type} (R : A -> B -> Prop) (l : list A)
    (l' : list B) :
  Forall2 R l l' -> length l' = length l.
Proof. induction 1; simpl; congruence. Qed.

(** X7.  A mutation neither adds nor removes a document, and changes none
    but the ones its identifier names: every other document is the same
    after [update_order_status] or [edit_order] as before, also when the
    call raises. *)
Theorem mutations_touch_one_order (coll : collection) :
  (forall m oid,
      ObjectId (mutation_id m) = Ok oid ->
      untouched_except oid coll (mutate coll m))
  /\ (forall m, length (mutate coll m) = length coll)
  /\ (forall ms, length (mutate_all coll ms) = length coll).
Proof.
  assert (Hlen : forall c m, length (mutate c m) = length c).
  { intros c m. destruct (mutate_cases c m) as [-> | (oid & set & _ & ->)];
      [reflexivity|].
    apply (Forall2_same_length _ _ _ (find_one_and_update_untouched c oid set)). }
  split; [|split].
  - intros m oid Hid.
    destruct (mutate_cases coll m) as [-> | (oid' & set & Hp & ->)].
    + apply untouched_except_refl.
    + apply parse_id_Some in Hp. rewrite Hid in Hp. injection Hp as <-.
      apply find_one_and_update_untouched.
  - apply Hlen.
  - intros ms. revert coll. induction ms as [|m ms IH]; intros coll;
      [reflexivity|].
    change (mutate_all coll (m :: ms)) with (mutate_all (mutate coll m) ms).
    now rewrite IH, Hlen.
Qed.

Lemma mutations_touch_one_order_witness :
  untouched_except sample_oid [sample_old_order; sample_order]
    (mutate [sample_old_order; sample_order]
       (Edit_order sample_now sample_id (VDict [("status", VStr "packed")])))
  /\ length (mutate_all [sample_old_order; sample_order]
               [Update_order_status sample_now sample_id (VStr "packed");
                Edit_order sample_now "laddu" (VDict [("total", VInt 1)]);
                Edit_order sample_now sample_id (VInt 3)])
     = 2%nat.
Proof.
  destruct (mutations_touch_one_order [sample_old_order; sample_order])
    as (Hone & _ & Hall).
  split.
  - apply (Hone (Edit_order sample_now sample_id
                   (VDict [("status", VStr "packed")]))).
    reflexivity.
  - apply Hall.
Defined.

(** ** Editing an order *)

(** X8.  [edit_order] looks at the identifier first.  Every string
    either parses or is an InvalidId.  One that is an InvalidId gives
    [None] whatever the updates are, even updates that would raise.  One
    that parses and names no stored order gives [None] as well, whether
    or not there is something to write.  The collection is as it was. *)
Theorem edit_order_not_found
    (coll : collection) (now : datetime) (order_id : string) :
  ((exists oid, ObjectId order_id = Ok oid)
   \/ ObjectId order_id = Raise InvalidId)
  /\ (ObjectId order_id = Raise InvalidId ->
      forall updates,
        edit_order (Some coll) now order_id updates = Ok (None, coll))
  /\ (forall oid updates payload,
        ObjectId order_id = Ok oid ->
        find_one coll oid = None ->
        build_set_payload updates = Ok payload ->
        edit_order (Some coll) now order_id updates = Ok (None, coll)).
Proof.
  split; [apply ObjectId_total|]. split.
  - intros Hid updates. unfold edit_order.
    now rewrite (parse_id_invalid _ Hid).
  - intros oid updates payload Hid Hfind Hp. unfold edit_order.
    rewrite (parse_id_ok _ _ Hid). cbn [bind]. rewrite Hp. cbn [bind].
    destruct payload as [|kv payload].
    + now rewrite Hfind.
    + now rewrite (find_one_and_update_missing _ _ _ Hfind).
Qed.

Lemma edit_order_not_found_witness :
  edit_order (Some [sample_order]) sample_now "laddu" (VInt 3)
    = Ok (None, [sample_order])
  /\ edit_order (Some [sample_order]) sample_now "laddu"
       (VDict [("total", VInt (10 ^ 400))])
     = Ok (None, [sample_order])
  /\ edit_order (Some [sample_order]) sample_now "6 5a1b2c3d4e5f60718293a4"
       (VDict [("status", VStr "delivered")])
     = Ok (None, [sample_order])
  /\ edit_order (Some [sample_order]) sample_now "65a1b2c3d4e5f60718293a  "
       (VDict [("status", VStr "delivered")])
     = Ok (None, [sample_order])
  /\ edit_order (Some [sample_order]) sample_now "0123456789abcdef01234567"
       (VDict [("status", VStr "delivered")])
     = Ok (None, [sample_order])
  /\ edit_order (Some [sample_order]) sample_now "0123456789abcdef01234567"
       (VDict [])
     = Ok (None, [sample_order]).
Proof.
  destruct (edit_order_not_found [sample_order] sample_now "laddu")
    as (_ & Hbad & _).
  destruct (edit_order_not_found [sample_order] sample_now
              "6 5a1b2c3d4e5f60718293a4") as (_ & Hblank & _).
  destruct (edit_order_not_found [sample_order] sample_now
              "65a1b2c3d4e5f60718293a  ") as (_ & _ & Hshort).
  destruct (edit_order_not_found [sample_order] sample_now
              "0123456789abcdef01234567") as (_ & _ & Hmiss).
  split; [apply Hbad; reflexivity|].
  split; [apply Hbad; reflexivity|].
  split; [apply Hblank; reflexivity|].
  split.
  { eapply (Hshort _ _ [("status", VStr "delivered")]);
      [vm_compute; reflexivity | reflexivity | reflexivity]. }
  split.
  - apply (Hmiss 352125166730063718056674663%N _ [("status", VStr "delivered")]);
      reflexivity.
  - apply (Hmiss 352125166730063718056674663%N _ []); reflexivity.
Defined.

(** X9.  An edit that has something to write stamps the order with the
    instant of the call, to the millisecond, under [updatedAt], writes
    the fields of the payload (with the value built, when that holds no
    date) and leaves the others, the identifier among them, as they
    were.  The answer is the whole order as it now stands,
    normalised: every stored field, not a projection. *)
Theorem edit_order_stamps
    (coll : collection) (now : datetime) (order_id : string) (oid : N)
    (doc : dict) (updates : value) (payload : dict) :
  ObjectId order_id = Ok oid ->
  find_one coll oid = Some doc ->
  build_set_payload updates = Ok payload ->
  payload <> [] ->
  exists r doc' coll',
    edit_order (Some coll) now order_id updates = Ok (Some r, coll')
    /\ find_one coll' oid = Some doc'
    /\ dict_get doc' "updatedAt" = Some (VDatetime (to_milliseconds now))
    /\ (forall dest x, dict_get payload dest = Some x ->
                       has_no_date x = true ->
                       dict_get doc' dest = Some x)
    /\ (forall k, dict_get payload k = None -> k <> "updatedAt" ->
                  dict_get doc' k = dict_get doc k)
    /\ keys r = keys doc'
    /\ dict_get r "_id" = Some (VStr (ObjectId_str oid))
    /\ dict_get r "updatedAt" = Some (VStr (strftime_datetime now))
    /\ (forall k, k <> "_id" -> dict_get r k = rendered k (dict_get doc' k)).
Proof.
  intros Hid Hfind Hp Hne.
  destruct (edit_order_stores coll now order_id oid doc updates payload
              Hid Hfind Hp Hne) as (r & coll' & He & Hf & Hs).
  set (set_payload := dict_set payload "updatedAt" (VDatetime now)) in *.
  set (doc' := apply_set doc set_payload) in *.
  assert (Hnd : NoDup (keys set_payload)).
  { apply NoDup_keys_set. unfold build_set_payload in Hp.
    destruct (update_items updates) as [fields|e]; simpl in Hp;
      [|discriminate].
    apply (foldM_add_update_NoDup fields [] payload); [constructor | exact Hp]. }
  assert (Hkeys : forall k, dict_get payload k <> None ->
                            k <> "createdAt" /\ k <> "updatedAt").
  { intros k Hk.
    assert (Hin : In k (keys payload)).
    { destruct (in_dec string_dec k (keys payload)) as [|Hno]; [assumption|].
      apply dict_get_None_keys in Hno. contradiction. }
    apply (build_set_payload_keys _ _ Hp) in Hin. simpl in Hin.
    split; intros ->; intuition discriminate. }
  assert (Hup : dict_get doc' "updatedAt"
                = Some (VDatetime (to_milliseconds now))).
  { unfold doc'.
    rewrite (dict_get_apply_set_named set_payload doc "updatedAt"
               (VDatetime now) Hnd); [reflexivity|].
    apply dict_get_set_eq. }
  assert (Hdoc' : dict_get doc' "_id" = Some (VObjectId oid)).
  { apply (find_one_has_id _ _ _ Hf). }
  rewrite (_serialize_order_with_id _ _ Hdoc') in Hs. injection Hs as <-.
  destruct (_serialize_datetimes_spec
              (dict_set doc' "_id" (VStr (ObjectId_str oid)))) as [Hk Hg].
  exists (_serialize_datetimes (dict_set doc' "_id" (VStr (ObjectId_str oid)))),
    doc', coll'.
  split; [exact He|]. split; [exact Hf|]. split; [exact Hup|].
  split; [|split; [|split; [|split; [|split]]]].
  - intros dest x Hx Hnodate.
    destruct (Hkeys dest) as [K1 K2]; [congruence|].
    unfold doc'.
    rewrite (dict_get_apply_set_named set_payload doc dest x Hnd).
    + now rewrite stored_field_no_date.
    + unfold set_payload. now rewrite dict_get_set_neq.
  - intros k Hk0 Hk1. apply dict_get_apply_set_other.
    unfold set_payload. now rewrite dict_get_set_neq.
  - rewrite Hk. apply keys_set_present. congruence.
  - rewrite Hg, dict_get_set_eq. reflexivity.
  - rewrite Hg, dict_get_set_neq by discriminate. now rewrite Hup.
  - intros k Hk0. now rewrite Hg, dict_get_set_neq.
Qed.

Lemma edit_order_stamps_witness :
  exists r doc' coll',
    edit_order (Some [sample_order]) sample_instant sample_id
      (VDict [("contact", VStr "555"); ("updatedAt", VStr "never");
              ("_id", VStr "mine")])
    = Ok (Some r, coll')
    /\ find_one coll' sample_oid = Some doc'
    /\ dict_get doc' "updatedAt"
       = Some (VDatetime (mkDatetime 2026 11 3 9 5 0 1000))
    /\ (forall dest x, dict_get [("mobile", VStr "555")] dest = Some x ->
                       has_no_date x = true ->
                       dict_get doc' dest = Some x)
    /\ (forall k, dict_get [("mobile", VStr "555")] k = None ->
                  k <> "updatedAt" ->
                  dict_get doc' k = dict_get sample_order k)
    /\ keys r = keys doc'
    /\ dict_get r "_id" = Some (VStr sample_id)
    /\ dict_get r "updatedAt" = Some (VStr "2026-11-03 09:05:00")
    /\ (forall k, k <> "_id" -> dict_get r k = rendered k (dict_get doc' k)).
Proof.
  apply (edit_order_stamps [sample_order] sample_instant sample_id sample_oid
           sample_order
           (VDict [("contact", VStr "555"); ("updatedAt", VStr "never");
                   ("_id", VStr "mine")])
           [("mobile", VStr "555")]);
    try reflexivity.
  discriminate.
Defined.

Lemma foldM_add_update_keeps (fields : dict) (dest : string) :
  (forall k v, In (k, v) fields -> field_map_get k <> Some dest) ->
  forall acc payload,
    foldM add_update fields acc = Ok payload ->
    dict_get payload dest = dict_get acc dest.
Proof.
  induction fields as [|[k v] fields IH]; intros Hno acc payload; simpl.
  - now intros [= <-].
  - destruct (field_map_get k) as [d|] eqn:Hk; simpl.
    + destruct (coerce_update d v) as [x|e]; simpl; [|discriminate].
      intros H. rewrite (IH (fun k' v' Hin => Hno k' v' (or_intror Hin)) _ _ H).
      apply dict_get_set_neq. intros ->.
      apply (Hno k v); [now left | exact Hk].
    + apply IH. intros k' v' Hin. apply (Hno k' v'). now right.
Qed.

Lemma edit_order_last_update
    (coll : collection) (now : datetime) (order_id : string) (oid : N)
    (doc : dict) (updates : value) (before after : dict) (k : string)
    (v : value) (dest : string) (payload : dict) :
  ObjectId order_id = Ok oid ->
  find_one coll oid = Some doc ->
  update_items updates = Ok (before ++ (k, v) :: after) ->
  field_map_get k = Some dest ->
  (forall k' v', In (k', v') after -> field_map_get k' <> Some dest) ->
  build_set_payload updates = Ok payload ->
  exists x r doc' coll',
    coerce_update dest v = Ok x
    /\ edit_order (Some coll) now order_id updates = Ok (Some r, coll')
    /\ find_one coll' oid = Some doc'
    /\ dict_get doc' dest = Some x.
Proof.
  intros Hid Hfind Hu Hk Hafter Hp.
  assert (Hx : exists x, coerce_update dest v = Ok x
                         /\ dict_get payload dest = Some x).
  { unfold build_set_payload in Hp. rewrite Hu in Hp. cbn [bind] in Hp.
    rewrite foldM_app in Hp.
    destruct (foldM add_update before []) as [acc|e]; simpl in Hp;
      [|discriminate].
    rewrite Hk in Hp. simpl in Hp.
    destruct (coerce_update dest v) as [x|e]; simpl in Hp; [|discriminate].
    exists x. split; [reflexivity|].
    rewrite (foldM_add_update_keeps after dest Hafter _ _ Hp).
    apply dict_get_set_eq. }
  destruct Hx as (x & Hc & Hx).
  assert (Hne : payload <> []) by (intros ->; discriminate).
  destruct (edit_order_stores coll now order_id oid doc updates payload
              Hid Hfind Hp Hne) as (r & coll' & He & Hf & _).
  eexists x, r, _, coll'. split; [exact Hc|]. split; [exact He|].
  split; [exact Hf|].
  assert (Hdest : dest <> "createdAt" /\ dest <> "updatedAt").
  { apply field_map_get_dest in Hk. simpl in Hk.
    split; intros ->; intuition discriminate. }
  rewrite (dict_get_apply_set_named _ doc dest x).
  - now rewrite stored_field_other.
  - apply NoDup_keys_set. unfold build_set_payload in Hp.
    rewrite Hu in Hp. cbn [bind] in Hp.
    apply (foldM_add_update_NoDup (before ++ (k, v) :: after) [] payload);
      [constructor | exact Hp].
  - rewrite dict_get_set_neq; [exact Hx | tauto].
Qed.

(** X10.  When several updates resolve to the same stored field, as
    [contact] and [mobile] or [amount] and [total] do, the last one in
    the order of the updates is the one stored. *)
Theorem edit_order_last_update_wins
    (coll : collection) (now : datetime) (order_id : string) (oid : N)
    (doc : dict) (updates : value) (before after : dict) (k : string)
    (v : value) (dest : string) (payload : dict) :
  ObjectId order_id = Ok oid ->
  find_one coll oid = Some doc ->
  update_items updates = Ok (before ++ (k, v) :: after) ->
  field_map_get k = Some dest ->
  (forall k' v', In (k', v') after -> field_map_get k' <> Some dest) ->
  build_set_payload updates = Ok payload ->
  exists x r doc' coll',
    coerce_update dest v = Ok x
    /\ edit_order (Some coll) now order_id updates = Ok (Some r, coll')
    /\ find_one coll' oid = Some doc'
    /\ dict_get doc' dest = Some x.
Proof. apply edit_order_last_update. Qed.

Lemma edit_order_last_update_wins_witness :
  exists x r doc' coll',
    coerce_update "mobile" (VStr "555") = Ok x
    /\ edit_order (Some [sample_order]) sample_now sample_id
         (VDict [("mobile", VStr "111"); ("contact", VStr "555");
                 ("status", VStr "packed")])
       = Ok (Some r, coll')
    /\ find_one coll' sample_oid = Some doc'
    /\ dict_get doc' "mobile" = Some x.
Proof.
  apply (edit_order_last_update_wins [sample_order] sample_now sample_id
           sample_oid sample_order
           (VDict [("mobile", VStr "111"); ("contact", VStr "555");
                   ("status", VStr "packed")])
           [("mobile", VStr "111")] [("status", VStr "packed")]
           "contact" (VStr "555") "mobile"
           [("mobile", VStr "555"); ("status", VStr "packed")]);
    try reflexivity.
  intros k' v' [[= <- <-] | []]. discriminate.
Defined.

Lemma normalize_items_filter (l : list value) :
  normalize_items l = mapM coerce_item (filter is_dict l).
Proof.
  induction l as [|x l IH]; [reflexivity|].
  destruct x; simpl filter; cbn [normalize_items]; try exact IH.
  cbn [mapM]. unfold coerce_item. rewrite coerce_item_field_dict.
  destruct (coerce_dict_field d "quantity") as [d1|e]; cbn [bind];
    [|reflexivity].
  rewrite coerce_item_field_dict.
  destruct (coerce_dict_field d1 "price") as [d2|e]; cbn [bind];
    [|reflexivity].
  now rewrite IH.
Qed.

(** X11.  [items] sent to [edit_order] as a list are stored without the
    entries that are not dictionaries; each dictionary is stored as
    [place_order] would store it, with the same keys, [quantity] and
    [price] coerced, the other fields as received. *)
Theorem edit_order_normalises_items
    (coll : collection) (now : datetime) (order_id : string) (oid : N)
    (doc : dict) (updates : value) (before after : dict)
    (l : list value) (payload : dict) :
  ObjectId order_id = Ok oid ->
  find_one coll oid = Some doc ->
  update_items updates = Ok (before ++ ("items", VList l) :: after) ->
  (forall v', ~ In ("items", v') after) ->
  build_set_payload updates = Ok payload ->
  exists l' r doc' coll',
    edit_order (Some coll) now order_id updates = Ok (Some r, coll')
    /\ find_one coll' oid = Some doc'
    /\ dict_get doc' "items" = Some (VList l')
    /\ mapM coerce_item (filter is_dict l) = Ok l'
    /\ Forall2 item_as_stored (filter is_dict l) l'.
Proof.
  intros Hid Hfind Hu Hafter Hp.
  destruct (edit_order_last_update coll now order_id oid doc updates
              before after "items" (VList l) "items" payload
              Hid Hfind Hu eq_refl) as (x & r & doc' & coll' & Hc & He & Hf & Hd);
    [|exact Hp|].
  { intros k' v' Hin Hk'. unfold field_map_get in Hk'.
    destruct (find (fun kv => String.eqb (fst kv) k') field_map)
      as [[a b]|] eqn:F; [|discriminate].
    apply find_some in F as [Hmap E]. simpl in E, Hk'.
    apply String.eqb_eq in E. injection Hk' as ->. subst a.
    simpl in Hmap.
    repeat (destruct Hmap as [[= <-] | Hmap]; try discriminate);
      [|contradiction].
    now apply (Hafter v'). }
  unfold coerce_update in Hc. simpl in Hc.
  rewrite normalize_items_filter in Hc.
  destruct (mapM coerce_item (filter is_dict l)) as [l'|e] eqn:M;
    simpl in Hc; [|discriminate].
  injection Hc as <-.
  exists l', r, doc', coll'. repeat split; try assumption.
  apply mapM_coerce_item_spec; [|exact M].
  apply Forall_forall. intros item Hin. apply filter_In in Hin as [_ Hd'].
  destruct item; try discriminate. eauto.
Qed.

Lemma edit_order_normalises_items_witness :
  exists l' r doc' coll',
    edit_order (Some [sample_order]) sample_now sample_id
      (VDict [("items",
               VList [VStr "two laddus";
                      VDict [("sweetName", VStr "Laddu");
                             ("quantity", VStr "2"); ("price", VStr "dear")];
                      VInt 7])])
    = Ok (Some r, coll')
    /\ find_one coll' sample_oid = Some doc'
    /\ dict_get doc' "items" = Some (VList l')
    /\ mapM coerce_item
         [VDict [("sweetName", VStr "Laddu");
                 ("quantity", VStr "2"); ("price", VStr "dear")]]
       = Ok l'
    /\ Forall2 item_as_stored
         [VDict [("sweetName", VStr "Laddu");
                 ("quantity", VStr "2"); ("price", VStr "dear")]]
         l'.
Proof.
  eapply (edit_order_normalises_items [sample_order] sample_now sample_id
            sample_oid sample_order _ [] []
            [VStr "two laddus";
             VDict [("sweetName", VStr "Laddu");
                    ("quantity", VStr "2"); ("price", VStr "dear")];
             VInt 7]);
    try reflexivity.
  intros v' [].
Defined.

(** ** Calls that do not raise *)

(** X12.  With a handle, the two mutations answer instead of raising for
    every identifier string, those with blanks included:
    [update_order_status] whatever the status, [edit_order] for updates
    that are a dict, or false, and hold no integer beyond the floats
    where a number is expected. *)
Theorem mutations_answer
    (coll : collection) (now : datetime) (order_id : string) :
  (forall status,
      exists r coll',
        update_order_status (Some coll) now order_id status = Ok (r, coll'))
  /\ (forall updates fields,
        update_items updates = Ok fields ->
        Forall update_fits fields ->
        exists r coll',
          edit_order (Some coll) now order_id updates = Ok (r, coll')).
Proof.
  destruct (ObjectId_total order_id) as [[oid Hid] | Hid].
  - split.
    + intros status. destruct (find_one coll oid) as [doc|] eqn:F.
      * destruct (update_order_status_found coll now order_id oid doc status
                    Hid F) as (coll' & H & _). eauto.
      * unfold update_order_status. rewrite (parse_id_ok _ _ Hid).
        cbn [bind]. rewrite (find_one_and_update_missing _ _ _ F).
        simpl. eauto.
    + intros updates fields Hu Hfits.
      destruct (foldM_add_update_fits fields [] Hfits) as [payload Hp].
      assert (Hb : build_set_payload updates = Ok payload)
        by (unfold build_set_payload; now rewrite Hu).
      destruct (find_one coll oid) as [doc|] eqn:F.
      * destruct payload as [|kv payload].
        -- unfold edit_order. rewrite (parse_id_ok _ _ Hid). cbn [bind].
           rewrite Hb. cbn [bind]. rewrite F.
           pose proof (find_one_has_id _ _ _ F) as Hdoc.
           destruct doc as [|kv d]; [discriminate|].
           rewrite (_serialize_order_with_id _ _ Hdoc). simpl. eauto.
        -- destruct (edit_order_stores coll now order_id oid doc updates
                       (kv :: payload) Hid F Hb) as (r & coll' & H & _);
             [discriminate | eauto].
      * unfold edit_order. rewrite (parse_id_ok _ _ Hid). cbn [bind].
        rewrite Hb. cbn [bind]. destruct payload as [|kv payload].
        -- rewrite F. eauto.
        -- rewrite (find_one_and_update_missing _ _ _ F). eauto.
  - split.
    + intros status. unfold update_order_status.
      rewrite (parse_id_invalid _ Hid). simpl. eauto.
    + intros updates fields _ _. unfold edit_order.
      rewrite (parse_id_invalid _ Hid). simpl. eauto.
Qed.

Lemma mutations_answer_witness :
  (exists r coll',
      update_order_status (Some [sample_order]) sample_now sample_id
        (VList [VNone]) = Ok (r, coll'))
  /\ (exists r coll',
        update_order_status (Some [sample_order]) sample_now
          "65a1b2c3d4e5f60718293a  " (VStr "packed") = Ok (r, coll'))
  /\ (exists r coll',
        edit_order (Some [sample_order]) sample_now sample_id
          (VDict [("amount", VList []); ("items", VStr "none")])
        = Ok (r, coll'))
  /\ (exists r coll',
        edit_order (Some [sample_order]) sample_now
          "6 5a1b2c3d4e5f60718293a4" (VDict [("amount", VInt 3)])
        = Ok (r, coll')).
Proof.
  destruct (mutations_answer [sample_order] sample_now sample_id) as [Hs He].
  destruct (mutations_answer [sample_order] sample_now
              "65a1b2c3d4e5f60718293a  ") as [Hs' _].
  destruct (mutations_answer [sample_order] sample_now
              "6 5a1b2c3d4e5f60718293a4") as [_ He'].
  split; [apply Hs|]. split; [apply Hs'|]. split.
  - apply (He _ [("amount", VList []); ("items", VStr "none")]);
      [reflexivity|].
    repeat constructor.
  - apply (He' _ [("amount", VInt 3)]); [reflexivity|].
    repeat constructor.
Defined.

(** ** From one call to the next *)

Lemma find_one_last (coll : collection) (oid : N) (doc : dict) :
  find_one coll oid = None -> has_id oid doc = true ->
  find_one (coll ++ [doc]) oid = Some doc.
Proof.
  unfold find_one. induction coll as [|d coll IH]; simpl.
  - now intros _ ->.
  - destruct (has_id oid d); [discriminate | exact IH].
Qed.

(** X13.  An order that was placed is found again under the string form
    of its identifier: for an order that arrives without [_id] and gets
    the twelve bytes the driver generates, [update_order_status] called
    with their twenty-four digits answers with that order, its day and
    its instant of creation, and the new status. *)
Theorem placed_order_can_be_updated
    (coll : collection) (now : datetime) (fresh : N) (order : dict)
    (coll' : collection) (later : datetime) (status : value) :
  place_order (Some coll) now fresh order = Ok coll' ->
  dict_get order "_id" = None ->
  (fresh < 2 ^ 96)%N ->
  exists r coll'',
    update_order_status (Some coll') later (ObjectId_str fresh) status
    = Ok (Some r, coll'')
    /\ length coll'' = S (length coll)
    /\ dict_get r "_id" = Some (VStr (ObjectId_str fresh))
    /\ dict_get r "status" = Some status
    /\ dict_get r "orderDate" = Some (VStr (strftime_date now))
    /\ dict_get r "createdAt" = Some (VStr (strftime_datetime now))
    /\ dict_get r "updatedAt" = Some (VStr (strftime_datetime later)).
Proof.
  intros Hp Hnoid Hsmall.
  destruct (place_order_result _ _ _ _ _ Hp)
    as (stored & oid & -> & Hid & Hnew & Hfresh & Hdate & Hcreated & _).
  specialize (Hfresh Hnoid). subst oid.
  assert (Hfind : find_one (coll ++ [stored]) fresh = Some stored).
  { apply find_one_last; [exact Hnew|].
    unfold has_id. rewrite Hid. apply N.eqb_refl. }
  destruct (ObjectId_str_canonical fresh Hsmall) as [_ Hparse].
  destruct (update_order_status_found _ later _ fresh stored status
              Hparse Hfind) as (coll'' & Hu & _ & Hlen).
  eexists _, coll''. split; [exact Hu|].
  split; [rewrite Hlen, length_app; simpl; lia|].
  assert (Hr : forall k, k <> "_id" ->
             existsb (String.eqb k) status_projection = true ->
             dict_get (_serialize_datetimes
                         (dict_set (project_fields status_projection
                                      (dict_set (dict_set stored "status" status)
                                                "updatedAt"
                                                (VDatetime (to_milliseconds later))))
                                   "_id" (VStr (ObjectId_str fresh)))) k
             = rendered k (dict_get (dict_set (dict_set stored "status" status)
                                              "updatedAt"
                                              (VDatetime (to_milliseconds later)))
                                    k)).
  { intros k Hk Hin.
    rewrite (proj2 (_serialize_datetimes_spec _)).
    now rewrite dict_get_set_neq, dict_get_project_fields, Hin by assumption. }
  split.
  { rewrite (proj2 (_serialize_datetimes_spec _)).
    now rewrite dict_get_set_eq. }
  split; [rewrite Hr by (discriminate || reflexivity); dict_lookup;
          now destruct status|].
  split; [rewrite Hr by (discriminate || reflexivity); dict_lookup;
          now rewrite Hdate|].
  split; [rewrite Hr by (discriminate || reflexivity); dict_lookup;
          now rewrite Hcreated|].
  rewrite Hr by (discriminate || reflexivity). now dict_lookup.
Qed.

Lemma placed_order_can_be_updated_witness :
  exists coll' r coll'',
    place_order (Some [sample_old_order]) sample_yesterday sample_oid
      [("customerName", VStr "Asha")] = Ok coll'
    /\ update_order_status (Some coll') sample_now (ObjectId_str sample_oid)
         (VStr "delivered")
       = Ok (Some r, coll'')
    /\ length coll'' = 2%nat
    /\ dict_get r "_id" = Some (VStr (ObjectId_str sample_oid))
    /\ dict_get r "status" = Some (VStr "delivered")
    /\ dict_get r "orderDate" = Some (VStr (strftime_date sample_yesterday))
    /\ dict_get r "createdAt"
       = Some (VStr (strftime_datetime sample_yesterday))
    /\ dict_get r "updatedAt" = Some (VStr (strftime_datetime sample_now)).
Proof.
  eexists.
  destruct (placed_order_can_be_updated [sample_old_order] sample_yesterday
              sample_oid [("customerName", VStr "Asha")] _ sample_now
              (VStr "delivered") eq_refl eq_refl)
    as (r & coll'' & H).
  - reflexivity.
  - exists r, coll''. split; [vm_compute; reflexivity | exact H].
Defined.

(** ** Items that are not dictionaries *)

Lemma coerce_item_scalar (x : value) :
  is_scalar x = true -> coerce_item x = Raise TypeError.
Proof. destruct x; try discriminate; reflexivity. Qed.

Lemma mapM_raises {A B : Type} (f : A -> res B) (good rest : list A)
    (x : A) (e : exn) :
  Forall (fun a => exists b, f a = Ok b) good -> f x = Raise e ->
  mapM f (good ++ x :: rest) = Raise e.
Proof.
  intros Hgood Hx. induction Hgood as [|a good [b Hb] _ IH]; simpl.
  - now rewrite Hx.
  - now rewrite Hb, IH.
Qed.

(** X14.  [place_order] raises a TypeError, and stores nothing, when the
    list of items holds an entry that is neither a container nor a
    string ([None], a number, a boolean) after dictionaries that convert:
    the handler of the coercion assigns to the entry, which such a value
    does not accept.  [edit_order] drops the same entry. *)
Theorem place_order_rejects_scalar_item
    (coll : collection) (now : datetime) (fresh : N) (order : dict)
    (good rest : list value) (x : value) :
  field_fits order "total" ->
  dict_get order "items" = Some (VList (good ++ x :: rest)) ->
  Forall item_fits good ->
  is_scalar x = true ->
  place_order (Some coll) now fresh order = Raise TypeError.
Proof.
  intros Htotal Hitems Hgood Hx.
  rewrite place_order_steps. cbv zeta.
  set (stamped := dict_set (dict_set order "orderDate" _) "createdAt" _).
  assert (Hfits : field_fits stamped "total").
  { unfold field_fits, stamped. now dict_lookup. }
  destruct (coerce_dict_field_fits stamped "total" Hfits) as [o3 H3].
  rewrite H3. cbn [bind].
  apply coerce_dict_field_spec in H3 as (_ & Ho3 & _).
  assert (Hi : get_default o3 "items" (VList []) = VList (good ++ x :: rest)).
  { unfold get_default. rewrite Ho3 by discriminate.
    unfold stamped. dict_lookup. now rewrite Hitems. }
  unfold coerce_items. rewrite Hi.
  assert (Hor : py_or (VList (good ++ x :: rest)) (VList [])
                = VList (good ++ x :: rest)) by now destruct good.
  rewrite Hor. cbn [py_iter bind].
  rewrite (mapM_raises coerce_item good rest x TypeError).
  - reflexivity.
  - eapply Forall_impl; [|exact Hgood].
    intros item (d & -> & Hq & Hp). now apply coerce_item_fits.
  - now apply coerce_item_scalar.
Qed.

Lemma place_order_rejects_scalar_item_witness :
  place_order (Some [sample_order]) sample_now 7
    [("customerName", VStr "Ravi");
     ("items", VList [VDict [("name", VStr "Barfi"); ("quantity", VStr "x")];
                      VNone;
                      VDict [("name", VStr "Laddu")]])]
  = Raise TypeError.
Proof.
  apply (place_order_rejects_scalar_item [sample_order] sample_now 7 _
           [VDict [("name", VStr "Barfi"); ("quantity", VStr "x")]]
           [VDict [("name", VStr "Laddu")]] VNone).
  - intros v [=].
  - reflexivity.
  - repeat constructor. eexists. split; [reflexivity|].
    split; intros v [= <-]; reflexivity.
  - reflexivity.
Defined.

Lemma coerce_items_string (order : dict) (s : string) (order' : dict) :
  dict_get order "items" = Some (VStr s) ->
  coerce_items order = Ok order' -> order' = order.
Proof.
  unfold coerce_items, get_default. intros ->.
  destruct (py_iter _) as [elements|e]; simpl; [|discriminate].
  destruct (mapM coerce_item elements) as [elements'|e]; simpl;
    [|discriminate].
  unfold py_or. simpl. destruct (negb (String.eqb s "")); congruence.
Qed.

Lemma coerce_dict_field_result (d : dict) (k : string) (d' : dict) :
  coerce_dict_field d k = Ok d' ->
  dict_get d' k = None
  \/ (exists f, dict_get d' k = Some (VFloat f))
  \/ dict_get d' k = Some (VInt 0).
Proof.
  unfold coerce_dict_field, dict_has.
  destruct (dict_get d k) as [v|] eqn:E.
  - destruct (float_or_0 (get_default d k (VInt 0))) as [f|[]]; simpl;
      intros [= <-]; rewrite dict_get_set_eq; eauto.
  - simpl. intros [= <-]. auto.
Qed.

Lemma sum_revenue_one (doc : dict) :
  dict_get doc "total" = None
  \/ (exists f, dict_get doc "total" = Some (VFloat f))
  \/ dict_get doc "total" = Some (VInt 0) ->
  exists n, sum_revenue [doc] = Ok n.
Proof.
  intros H.
  assert (Hf : exists f, float_or_0 (get_default doc "total" (VInt 0)) = Ok f).
  { unfold get_default.
    destruct H as [-> | [[f ->] | ->]]; try (eexists; reflexivity).
    destruct f; eexists; reflexivity. }
  destruct Hf as [f Hf].
  unfold sum_revenue. cbn [foldM]. rewrite Hf. cbn [bind].
  unfold num_add.
  replace (float_of_int 0) with (Ok (float_of_Z 0)) by reflexivity.
  cbn [bind try_except_ValueError_TypeError]. eauto.
Qed.

Lemma no_order_of_the_day (coll : collection) (today : string) :
  (forall doc, In doc coll -> dict_get doc "orderDate" <> Some (VStr today)) ->
  filter (field_is "orderDate" today) coll = [].
Proof.
  induction coll as [|d c IH]; intros Hnone; [reflexivity|].
  simpl. destruct (field_is "orderDate" today d) eqn:F.
  - apply field_is_spec in F. exfalso. apply (Hnone d); [now left | exact F].
  - apply IH. intros doc Hin. apply Hnone. now right.
Qed.

(** X15.  [place_order] takes [items] that are a string, which its loop
    goes through character by character without finding a key; the
    summary of that day then raises an AttributeError, as its own loop
    calls [get] on each character.  Here the order is the first of its
    day. *)
Theorem items_string_breaks_summary
    (coll : collection) (now : datetime) (fresh : N) (order : dict)
    (s : string) (coll' : collection) (later : datetime) :
  dict_get order "items" = Some (VStr s) ->
  s <> "" ->
  place_order (Some coll) now fresh order = Ok coll' ->
  (forall doc, In doc coll ->
               dict_get doc "orderDate" <> Some (VStr (strftime_date now))) ->
  strftime_date later = strftime_date now ->
  get_daily_summary (Some coll') later = Raise AttributeError.
Proof.
  intros Hitems Hs Hp Hnone Hday.
  revert Hp. rewrite place_order_steps. cbv zeta.
  set (stamped := dict_set (dict_set order "orderDate" _) "createdAt" _).
  intros Hp.
  destruct (coerce_dict_field stamped "total") as [o3|e] eqn:H3; simpl in Hp;
    [|discriminate].
  destruct (coerce_items o3) as [o4|e] eqn:H4; simpl in Hp; [|discriminate].
  pose proof (coerce_dict_field_result _ _ _ H3) as Htotal.
  apply coerce_dict_field_spec in H3 as (_ & Ho3 & _).
  assert (Hi3 : dict_get o3 "items" = Some (VStr s)).
  { rewrite Ho3 by discriminate. unfold stamped. now dict_lookup. }
  apply (coerce_items_string _ _ _ Hi3) in H4. subst o4.
  destruct (insert_one_stored _ _ _ _ Hp) as (stored & -> & Hst).
  assert (Hdate : dict_get stored "orderDate"
                  = Some (VStr (strftime_date later))).
  { rewrite Hst, stored_other, Ho3 by discriminate. unfold stamped.
    dict_lookup. now rewrite Hday. }
  assert (Htoday : find_today (coll ++ [stored]) (strftime_date later)
                   = [project_without_id stored]).
  { unfold find_today, find_sorted. rewrite filter_app.
    rewrite Hday at 1. rewrite (no_order_of_the_day _ _ Hnone). simpl.
    now rewrite (proj2 (field_is_spec _ _ _) Hdate). }
  unfold get_daily_summary. cbv zeta. rewrite Htoday.
  assert (Hp_total : forall k, k <> "_id" ->
            k <> "createdAt" -> k <> "updatedAt" ->
            dict_get (project_without_id stored) k = dict_get o3 k).
  { intros k Hk K1 K2. unfold project_without_id.
    rewrite dict_get_without_neq, Hst by assumption.
    now apply stored_other. }
  destruct (sum_revenue_one (project_without_id stored)) as [n ->].
  { rewrite Hp_total by discriminate. exact Htotal. }
  cbn [bind].
  assert (Hc : count_items [project_without_id stored] = Raise AttributeError).
  { unfold count_items, order_items, get_default. cbn [foldM].
    rewrite Hp_total, Hi3 by discriminate.
    unfold py_or. simpl truthy.
    destruct s as [|c s]; [contradiction|]. reflexivity. }
  now rewrite Hc.
Qed.

Lemma items_string_breaks_summary_witness :
  exists coll',
    place_order (Some [sample_old_order]) sample_now 7
      [("customerName", VStr "Ravi"); ("items", VStr "2 laddus")] = Ok coll'
    /\ get_daily_summary (Some coll') sample_now = Raise AttributeError.
Proof.
  eexists. split; [vm_compute; reflexivity|].
  apply (items_string_breaks_summary [sample_old_order] sample_now 7
           [("customerName", VStr "Ravi"); ("items", VStr "2 laddus")]
           "2 laddus" _ sample_now);
    try reflexivity; try discriminate.
  intros doc [<- | []]. discriminate.
Defined.

(** ** Normalising twice *)

Lemma rendered_id (v : option value) : rendered "_id" v = v.
Proof. now destruct v as [[]|]. Qed.

Lemma rendered_not_datetime (k : string) (v : option value) (t : datetime) :
  k = "createdAt" \/ k = "updatedAt" -> rendered k v <> Some (VDatetime t).
Proof.
  intros [-> | ->]; destruct v as [[]|]; discriminate.
Qed.

Lemma stringify_datetime_same (doc : dict) (k : string) :
  (forall t, dict_get doc k <> Some (VDatetime t)) ->
  stringify_datetime doc k = doc.
Proof.
  unfold stringify_datetime. intros H.
  destruct (dict_get doc k) as [[]|] eqn:E; try reflexivity.
  now destruct (H t).
Qed.

Lemma dict_set_not_nil (d : dict) (k : string) (v : value) :
  dict_set d k v <> [].
Proof.
  destruct d as [|[k' v'] d]; simpl; [discriminate|].
  destruct (String.eqb k' k); discriminate.
Qed.

Lemma _serialize_datetimes_idempotent (doc : dict) :
  _serialize_datetimes (_serialize_datetimes doc) = _serialize_datetimes doc.
Proof.
  destruct (_serialize_datetimes_spec doc) as [_ Hg].
  set (d := _serialize_datetimes doc) in *.
  unfold _serialize_datetimes at 1. destruct d as [|kv d'] eqn:E;
    [reflexivity|].
  rewrite <- E in *. cbv zeta.
  rewrite (stringify_datetime_same d "createdAt").
  - apply stringify_datetime_same. intros t. rewrite Hg.
    apply rendered_not_datetime. now right.
  - intros t. rewrite Hg. apply rendered_not_datetime. now left.
Qed.

(** X16.  Normalising is idempotent, and what it returns can be printed
    as JSON where the store could not: the identifier is a string (or
    absent, or [None]), and neither [createdAt] nor [updatedAt] is a
    datetime. *)
Theorem serialize_order_idempotent (doc d : dict) :
  _serialize_order (Some doc) = Ok (Some d) ->
  _serialize_order (Some d) = Ok (Some d)
  /\ (forall o, dict_get d "_id" <> Some (VObjectId o))
  /\ (forall t, dict_get d "createdAt" <> Some (VDatetime t))
  /\ (forall t, dict_get d "updatedAt" <> Some (VDatetime t)).
Proof.
  intros H.
  assert (H0 : exists d0,
             d = _serialize_datetimes d0 /\ d0 <> []
             /\ (get_default d0 "_id" VNone = VNone
                 \/ exists s, dict_get d0 "_id" = Some (VStr s))).
  { assert (Hne : doc <> []) by (intros ->; discriminate).
    assert (Hform :
      _serialize_order (Some doc)
      = bind match get_default doc "_id" VNone with
             | VNone => Ok doc
             | id => bind (py_str id)
                          (fun s => Ok (dict_set doc "_id" (VStr s)))
             end
             (fun doc => Ok (Some (_serialize_datetimes doc))))
      by (destruct doc; [contradiction | reflexivity]).
    rewrite Hform in H. clear Hform.
    destruct (get_default doc "_id" VNone) eqn:G; cbn [py_str bind] in H;
      try discriminate; injection H as <-;
      try (eexists; split; [reflexivity|]; split;
           [apply dict_set_not_nil | right; eexists; apply dict_get_set_eq]).
    exists doc. split; [reflexivity|]. split; [assumption | now left]. }
  destruct H0 as (d0 & -> & Hne & Hid).
  destruct (_serialize_datetimes_spec d0) as [Hk Hg].
  set (d := _serialize_datetimes d0) in *.
  assert (Hid' : dict_get d "_id" = dict_get d0 "_id")
    by (rewrite Hg; apply rendered_id).
  split; [|split; [|split]].
  - unfold _serialize_order.
    destruct d as [|kv d'] eqn:E.
    { destruct d0; [contradiction | discriminate]. }
    rewrite <- E in *. unfold get_default. rewrite Hid'.
    destruct Hid as [Hnone | [s Hs]].
    + unfold get_default in Hnone. rewrite Hnone. cbn [bind].
      unfold d. now rewrite _serialize_datetimes_idempotent.
    + rewrite Hs. simpl. rewrite dict_set_same by congruence.
      unfold d. now rewrite _serialize_datetimes_idempotent.
  - intros o. rewrite Hid'. destruct Hid as [Hnone | [s Hs]].
    + unfold get_default in Hnone. destruct (dict_get d0 "_id"); congruence.
    + congruence.
  - intros t. rewrite Hg. apply rendered_not_datetime. now left.
  - intros t. rewrite Hg. apply rendered_not_datetime. now right.
Qed.

Lemma serialize_order_idempotent_witness :
  exists d,
    _serialize_order (Some (("updatedAt", VDatetime sample_now) :: sample_order))
    = Ok (Some d)
    /\ _serialize_order (Some d) = Ok (Some d)
    /\ (forall o, dict_get d "_id" <> Some (VObjectId o))
    /\ (forall t, dict_get d "createdAt" <> Some (VDatetime t))
    /\ (forall t, dict_get d "updatedAt" <> Some (VDatetime t)).
Proof.
  eexists. split; [vm_compute; reflexivity|].
  apply (serialize_order_idempotent
           (("updatedAt", VDatetime sample_now) :: sample_order) _ eq_refl).
Defined.

(** ** The summary of the day *)

(** X17.  On a day for which no order is stored, the summary is the
    zeroed one, with the integer [0] for the revenue and for the items
    sold: the same answer as without a database handle. *)
Theorem summary_of_a_day_without_orders (coll : collection) (now : datetime) :
  (forall doc, In doc coll ->
               dict_get doc "orderDate" <> Some (VStr (strftime_date now))) ->
  get_daily_summary (Some coll) now = Ok empty_summary
  /\ get_daily_summary (Some coll) now = get_daily_summary None now.
Proof.
  intros Hnone.
  assert (E : get_daily_summary (Some coll) now = Ok empty_summary).
  { unfold get_daily_summary, find_today, find_sorted. cbv zeta.
    now rewrite (no_order_of_the_day _ _ Hnone). }
  split; [exact E | now rewrite E].
Qed.

Lemma summary_of_a_day_without_orders_witness :
  get_daily_summary (Some [sample_old_order]) sample_now = Ok empty_summary
  /\ get_daily_summary (Some [sample_old_order]) sample_now
     = get_daily_summary None sample_now.
Proof.
  apply (summary_of_a_day_without_orders [sample_old_order] sample_now).
  intros doc [<- | []]. discriminate.
Defined.

(** X18.  An order whose total does not convert, by a ValueError or a
    TypeError, is passed over by the loop that adds up the revenue: the
    sum is what it is without that order. *)
Theorem revenue_skips_bad_totals (before after : list dict) (bad : dict) :
  float_or_0 (get_default bad "total" (VInt 0)) = Raise ValueError
  \/ float_or_0 (get_default bad "total" (VInt 0)) = Raise TypeError ->
  sum_revenue (before ++ bad :: after) = sum_revenue (before ++ after).
Proof.
  intros Hbad. unfold sum_revenue. rewrite !foldM_app.
  destruct (foldM _ before (NInt 0)) as [acc|e]; cbn [bind]; [|reflexivity].
  cbn [foldM]. destruct Hbad as [-> | ->]; reflexivity.
Qed.

Lemma revenue_skips_bad_totals_witness :
  sum_revenue ([sample_order] ++ [("total", VStr "plenty")] :: [sample_old_order])
  = sum_revenue ([sample_order] ++ [sample_old_order]).
Proof.
  apply (revenue_skips_bad_totals [sample_order] [sample_old_order]
           [("total", VStr "plenty")]).
  left. reflexivity.
Defined.

Lemma datetime_eqb_sym (a b : datetime) : datetime_eqb a b = datetime_eqb b a.
Proof.
  unfold datetime_eqb.
  rewrite (Nat.eqb_sym (year a)), (Nat.eqb_sym (month a)),
    (Nat.eqb_sym (day a)), (Nat.eqb_sym (hour a)), (Nat.eqb_sym (minute a)),
    (Nat.eqb_sym (second a)), (Nat.eqb_sym (microsecond a)).
  reflexivity.
Qed.

Lemma key_eqb_sym (a b : value) : key_eqb a b = key_eqb b a.
Proof.
  unfold key_eqb.
  destruct (as_number a) as [x|] eqn:Ea, (as_number b) as [y|] eqn:Eb;
    try reflexivity.
  - unfold num_eq. apply andb_comm.
  - destruct a, b; try reflexivity; try discriminate.
    + apply String.eqb_sym.
    + apply datetime_eqb_sym.
    + apply N.eqb_sym.
Qed.

Lemma item_sweet_name_truthy (item n : value) :
  item_sweet_name item = Ok n -> truthy n = true.
Proof.
  unfold item_sweet_name.
  destruct (py_get item "sweetName" VNone) as [a|e]; cbn [bind];
    [|discriminate].
  destruct (truthy a) eqn:Ta; [now intros [= <-]|].
  destruct (py_get item "name" VNone) as [b|e]; cbn [bind]; [|discriminate].
  intros [= <-]. unfold py_or. now destruct (truthy b) eqn:Tb.
Qed.

Lemma stat_add_name (st : sweet_stat) (q p : number) (st' : sweet_stat) :
  (q' <- num_add (quantity st) q ;;
   amount <- num_mul q p ;;
   r <- num_add (revenue st) amount ;;
   Ok (mkStat (name st) q' r)) = Ok st' ->
  name st' = name st.
Proof.
  destruct (num_add (quantity st) q) as [q'|e]; cbn [bind]; [|discriminate].
  destruct (num_mul q p) as [amount|e]; cbn [bind]; [|discriminate].
  destruct (num_add (revenue st) amount) as [r|e]; cbn [bind];
    [|discriminate].
  now intros [= <-].
Qed.

Lemma add_to_stats_names (stats : list sweet_stat) (n : value) (q p : number) :
  forall stats',
    add_to_stats stats n q p = Ok stats' ->
    map name stats' = map name stats
    \/ (map name stats' = map name stats ++ [n]
        /\ Forall (fun st => key_eqb n (name st) = false) stats).
Proof.
  induction stats as [|st rest IH]; intros stats'; cbn [add_to_stats].
  - match goal with
    | |- bind ?c _ = _ -> _ => destruct c as [st'|e] eqn:E
    end; cbn [bind]; [|discriminate].
    intros [= <-]. right. split; [|constructor].
    pose proof (stat_add_name (mkStat n (NInt 0) (NInt 0)) q p st' E) as Hn.
    cbn [map app]. now rewrite Hn.
  - destruct (key_eqb n (name st)) eqn:K.
    + match goal with
      | |- bind ?c _ = _ -> _ => destruct c as [st'|e] eqn:E
      end; cbn [bind]; [|discriminate].
      intros [= <-]. left. cbn [map].
      now rewrite (stat_add_name st q p st' E).
    + destruct (add_to_stats rest n q p) as [rest'|e]; cbn [bind];
        [|discriminate].
      intros [= <-]. cbn [map].
      destruct (IH rest' eq_refl) as [-> | [-> Hall]]; [now left|].
      right. split; [reflexivity|]. now constructor.
Qed.

(** What [sweet_stats] keeps true of its entries: a name each, that is
    true, and no two entries under names that are equal. *)
Lemma add_to_stats_distinct (stats : list sweet_stat) (n : value)
    (q p : number) (stats' : list sweet_stat) :
  truthy n = true ->
  distinct_names stats /\ Forall (fun st => truthy (name st) = true) stats ->
  add_to_stats stats n q p = Ok stats' ->
  distinct_names stats' /\ Forall (fun st => truthy (name st) = true) stats'.
Proof.
  intros Hn. revert stats'.
  induction stats as [|st rest IH]; intros stats' [Hd Ht] H.
  - apply add_to_stats_names in H as [E | [E _]]; simpl in E.
    + destruct stats'; [|discriminate]. split; constructor.
    + destruct stats' as [|st' [|? ?]]; try discriminate.
      injection E as E. split; repeat constructor. now rewrite E.
  - pose proof (add_to_stats_names _ _ _ _ _ H) as Hnames.
    revert H. cbn [add_to_stats].
    inversion Hd as [|? ? Hst Hrest]; subst.
    inversion Ht as [|? ? Tst Trest]; subst.
    destruct (key_eqb n (name st)) eqn:K.
    + match goal with
      | |- bind ?c _ = _ -> _ => destruct c as [st'|e] eqn:E
      end; cbn [bind]; [|discriminate].
      intros [= <-].
      destruct Hnames as [E' | [E' Hall]].
      * simpl in E'. injection E' as E'.
        split; constructor; try assumption; now rewrite E'.
      * inversion Hall; congruence.
    + destruct (add_to_stats rest n q p) as [rest'|e] eqn:R; cbn [bind];
        [|discriminate].
      intros [= <-].
      destruct (IH rest' (conj Hrest Trest) eq_refl) as [Hd' Ht'].
      split; constructor; try assumption.
      apply Forall_map with (f := name)
                            (P := fun a => key_eqb (name st) a = false).
      apply Forall_map with (f := name)
                            (P := fun a => key_eqb (name st) a = false) in Hst.
      destruct (add_to_stats_names _ _ _ _ _ R) as [-> | [-> _]];
        [assumption|].
      apply Forall_app. split; [assumption|].
      constructor; [|constructor]. now rewrite key_eqb_sym.
Qed.

Lemma count_items_distinct (today_orders : list dict) (sold : number)
    (stats : list sweet_stat) :
  count_items today_orders = Ok (sold, stats) ->
  distinct_names stats /\ Forall (fun st => truthy (name st) = true) stats.
Proof.
  set (Inv := fun l : list sweet_stat =>
                distinct_names l /\ Forall (fun st => truthy (name st) = true) l).
  assert (Hitem : forall item acc acc',
             Inv (snd acc) -> count_item acc item = Ok acc' -> Inv (snd acc')).
  { intros item [sold0 stats0] acc' Hinv. unfold count_item.
    destruct (item_number item "quantity") as [q|e]; cbn [bind];
      [|discriminate].
    destruct (item_sweet_name item) as [n|e] eqn:N; cbn [bind];
      [|discriminate].
    destruct (item_number item "price") as [p|e]; cbn [bind]; [|discriminate].
    destruct (num_add sold0 q) as [sold'|e]; cbn [bind]; [|discriminate].
    destruct (hashable n); [|discriminate].
    destruct (add_to_stats stats0 n q p) as [stats'|e] eqn:E; cbn [bind];
      [|discriminate].
    intros [= <-]. simpl.
    eapply add_to_stats_distinct; [|exact Hinv|exact E].
    eapply item_sweet_name_truthy; eassumption. }
  assert (Hitems : forall items acc acc',
             Inv (snd acc) -> foldM count_item items acc = Ok acc' ->
             Inv (snd acc')).
  { induction items as [|item items IH]; intros acc acc' Hinv; cbn [foldM].
    - now intros [= <-].
    - destruct (count_item acc item) as [acc1|e] eqn:E; cbn [bind];
        [|discriminate].
      apply IH. eapply Hitem; eassumption. }
  unfold count_items. intros H.
  change stats with (snd (sold, stats)).
  assert (Hnil : Inv (snd (NInt 0, @nil sweet_stat)))
    by (split; constructor).
  revert Hnil H. generalize (NInt 0, @nil sweet_stat) as acc.
  generalize (sold, stats) as acc'.
  induction today_orders as [|order orders IH]; intros acc' acc Hinv;
    cbn [foldM].
  - now intros [= <-].
  - destruct (order_items order) as [items|e]; cbn [bind]; [|discriminate].
    destruct (foldM count_item items acc) as [acc1|e] eqn:E1; cbn [bind];
      [|discriminate].
    apply IH. eapply Hitems; eassumption.
Qed.

Lemma ForallOrdPairs_perm {A : Type} (R : A -> A -> Prop) (l l' : list A) :
  (forall a b, R a b -> R b a) ->
  Permutation l l' -> ForallOrdPairs R l -> ForallOrdPairs R l'.
Proof.
  intros Hsym Hp. induction Hp as [|x l l' Hp IH|x y l|l l' l'' _ IH1 _ IH2];
    intros H.
  - constructor.
  - inversion H as [|? ? Hx Hl]; subst. constructor; [|now apply IH].
    eapply Permutation_Forall; eassumption.
  - inversion H as [|? ? Hy Hxl]; subst.
    inversion Hxl as [|? ? Hx Hl]; subst.
    inversion Hy as [|? ? Hyx Hyl]; subst.
    repeat constructor; auto.
  - auto.
Qed.

Lemma ForallOrdPairs_firstn {A : Type} (R : A -> A -> Prop) (n : nat) :
  forall l, ForallOrdPairs R l -> ForallOrdPairs R (firstn n l).
Proof.
  induction n as [|n IH]; intros l H; simpl; [constructor|].
  destruct H as [|a l Ha Hl]; constructor.
  - rewrite <- (firstn_skipn n l) in Ha. now apply Forall_app in Ha.
  - now apply IH.
Qed.

(** X19.  The parts of a summary agree with each other.  [total_orders]
    is the number of entries of [orders]; these are the normalised forms
    of the documents of the day, each once, the most recent first.  In
    [popular_sweets] every entry has a name that is true (the [sweetName]
    of an item, else its [name], else ["Unknown"]), and no two entries
    have equal names. *)
Theorem summary_is_consistent
    (coll : collection) (now : datetime) (s : summary) :
  get_daily_summary (Some coll) now = Ok s ->
  total_orders s = Z.of_nat (length (orders s))
  /\ (exists docs,
        Permutation docs
          (filter (field_is "orderDate" (strftime_date now)) coll)
        /\ newest_first docs
        /\ Forall2 summarised_as docs (orders s))
  /\ distinct_names (popular_sweets s)
  /\ Forall (fun st => truthy (name st) = true) (popular_sweets s).
Proof.
  intros H.
  pose proof (summary_orders _ _ _ H) as Horders.
  destruct (get_daily_summary_parts _ _ _ H)
    as (stats & Htotal & _ & Hcount & Hpop & Hmap).
  split; [|split].
  - rewrite Htotal. f_equal. symmetry.
    apply (Forall2_same_length _ _ _ (mapM_Forall2 _ _ _ Hmap)).
  - eexists. split; [apply find_sorted_perm|].
    split; [apply find_sorted_newest_first | exact Horders].
  - destruct (count_items_distinct _ _ _ Hcount) as [Hd Ht].
    rewrite Hpop. split.
    + apply ForallOrdPairs_firstn.
      eapply ForallOrdPairs_perm; [| |exact Hd].
      * intros a b Hab. now rewrite key_eqb_sym.
      * apply Permutation_sym, sort_reverse_perm.
    + assert (Ht' : Forall (fun st => truthy (name st) = true)
                           (sorted_reverse quantity stats)).
      { eapply Permutation_Forall; [|exact Ht].
        apply Permutation_sym, sort_reverse_perm. }
      rewrite <- (firstn_skipn 5 (sorted_reverse quantity stats)) in Ht'.
      now apply Forall_app in Ht'.
Qed.

Lemma summary_is_consistent_witness :
  exists s,
    get_daily_summary (Some sample_busy_day) sample_now = Ok s
    /\ total_orders s = Z.of_nat (length (orders s))
    /\ (exists docs,
          Permutation docs [sample_order; sample_second_order]
          /\ newest_first docs
          /\ Forall2 summarised_as docs (orders s))
    /\ distinct_names (popular_sweets s)
    /\ Forall (fun st => truthy (name st) = true) (popular_sweets s).
Proof.
  eexists. split; [vm_compute; reflexivity|].
  apply (summary_is_consistent sample_busy_day sample_now _ eq_refl).
Defined.

Lemma float_or_0_of_stored (v : option value) :
  v = None \/ (exists f, v = Some (VFloat f)) \/ v = Some (VInt 0) ->
  exists f,
    float_or_0 (match v with Some x => x | None => VInt 0 end) = Ok f.
Proof.
  intros [-> | [[f ->] | ->]]; try (eexists; reflexivity).
  destruct f; eexists; reflexivity.
Qed.

(** X20.  A total written by [place_order] or by [edit_order] is a float
    or the integer [0], never a string or a container, so the loop that
    adds up the revenue converts the total of every order the module
    stored, and passes over none of them. *)
Theorem stored_totals_are_numbers :
  (forall coll now fresh order coll',
      place_order (Some coll) now fresh order = Ok coll' ->
      exists stored,
        coll' = coll ++ [stored]
        /\ (dict_get stored "total" = None
            \/ (exists f, dict_get stored "total" = Some (VFloat f))
            \/ dict_get stored "total" = Some (VInt 0))
        /\ exists f,
             float_or_0 (get_default (project_without_id stored) "total"
                                     (VInt 0)) = Ok f)
  /\ (forall v x,
        coerce_update "total" v = Ok x ->
        ((exists f, x = VFloat f) \/ x = VInt 0)
        /\ exists f, float_or_0 x = Ok f).
Proof.
  split.
  - intros coll now fresh order coll'.
    rewrite place_order_steps. cbv zeta.
    set (stamped := dict_set (dict_set order "orderDate" _) "createdAt" _).
    intros Hp.
    destruct (coerce_dict_field stamped "total") as [o3|e] eqn:H3;
      simpl in Hp; [|discriminate].
    destruct (coerce_items o3) as [o4|e] eqn:H4; simpl in Hp; [|discriminate].
    pose proof (coerce_dict_field_result _ _ _ H3) as Htotal.
    destruct (insert_one_stored _ _ _ _ Hp) as (stored & -> & Hst).
    assert (E : dict_get stored "total" = dict_get o3 "total").
    { rewrite Hst, stored_other by discriminate.
      now apply (coerce_items_other _ _ "total" H4). }
    exists stored. split; [reflexivity|]. rewrite E.
    split; [exact Htotal|].
    unfold get_default, project_without_id.
    rewrite dict_get_without_neq, E by discriminate.
    now apply float_or_0_of_stored.
  - intros v x. unfold coerce_update. simpl String.eqb. cbv iota.
    destruct (float_or_0 v) as [f|[]] eqn:F; simpl; try discriminate;
      intros [= <-].
    + split; [eauto|].
      apply (float_or_0_of_stored (Some (VFloat f))). eauto.
    + split; [auto | eexists; reflexivity].
    + split; [auto | eexists; reflexivity].
Qed.

Lemma stored_totals_are_numbers_witness :
  exists coll' stored,
    place_order (Some [sample_order]) sample_now 7
      [("customerName", VStr "Ravi"); ("total", VStr "plenty")] = Ok coll'
    /\ coll' = [sample_order] ++ [stored]
    /\ (dict_get stored "total" = None
        \/ (exists f, dict_get stored "total" = Some (VFloat f))
        \/ dict_get stored "total" = Some (VInt 0))
    /\ exists f,
         float_or_0 (get_default (project_without_id stored) "total" (VInt 0))
         = Ok f.
Proof.
  eexists.
  destruct (proj1 stored_totals_are_numbers [sample_order] sample_now 7%N
              [("customerName", VStr "Ravi"); ("total", VStr "plenty")]
              _ eq_refl) as (stored & H).
  exists stored. split; [vm_compute; reflexivity | exact H].
Defined.

(** ** Updates that are not a dict *)

(** X21.  For an identifier that parses, [edit_order] raises an
    AttributeError when the updates are a true value other than a dict (a
    list, a string, a number): [items()] is called on them before any
    order is looked up, so it raises whether or not the order exists. *)
Theorem edit_order_rejects_non_dict
    (coll : collection) (now : datetime) (order_id : string) (oid : N)
    (updates : value) :
  ObjectId order_id = Ok oid ->
  truthy updates = true ->
  is_dict updates = false ->
  edit_order (Some coll) now order_id updates = Raise AttributeError.
Proof.
  intros Hid Ht Hd. unfold edit_order. rewrite (parse_id_ok _ _ Hid).
  cbn [bind]. unfold build_set_payload, update_items, py_or. rewrite Ht.
  now destruct updates.
Qed.

Lemma edit_order_rejects_non_dict_witness :
  edit_order (Some [sample_order]) sample_now sample_id
    (VList [VDict [("status", VStr "delivered")]])
  = Raise AttributeError
  /\ edit_order (Some []) sample_now sample_id (VStr "delivered")
     = Raise AttributeError.
Proof.
  split.
  - apply (edit_order_rejects_non_dict [sample_order] sample_now sample_id
             sample_oid); reflexivity.
  - apply (edit_order_rejects_non_dict [] sample_now sample_id sample_oid);
      reflexivity.
Defined.

(** ** The answer of an edit *)

Lemma find_one_and_update_In (c : collection) (oid : N) (set : dict) :
  forall d c',
    find_one_and_update c oid set = (Some d, c') -> In d c'.
Proof.
  induction c as [|doc c IH]; intros d c'; simpl; [discriminate|].
  destruct (has_id oid doc).
  - intros [= <- <-]. now left.
  - destruct (find_one_and_update c oid set) as [r c''].
    intros [= -> <-]. right. now apply IH.
Qed.

(** X22.  What [edit_order] answers for an order is what [get_orders]
    lists for it right after: the whole stored document, normalised the
    same way. *)
Theorem edit_order_answer_is_listed
    (coll : collection) (now : datetime) (order_id : string)
    (updates : value) (r : dict) (coll' : collection)
    (listed : list (option dict)) :
  edit_order (Some coll) now order_id updates = Ok (Some r, coll') ->
  get_orders (Some coll') = Ok listed ->
  In (Some r) listed.
Proof.
  intros He Hl.
  assert (Hdoc : exists doc, In doc coll'
                             /\ _serialize_order (Some doc) = Ok (Some r)).
  { revert He. unfold edit_order.
    destruct (parse_id order_id) as [[oid|]|e]; cbn [bind]; try discriminate.
    destruct (build_set_payload updates) as [payload|e]; cbn [bind];
      [|discriminate].
    destruct payload as [|kv payload].
    - destruct (find_one coll oid) as [[|kv d]|] eqn:F; try discriminate.
      destruct (_serialize_order (Some (kv :: d))) as [entry|e] eqn:S;
        cbn [bind]; [|discriminate].
      intros [= -> <-]. exists (kv :: d). split; [|exact S].
      apply find_some in F. tauto.
    - set (set_payload := dict_set (kv :: payload) "updatedAt" (VDatetime now)).
      destruct (find_one_and_update coll oid set_payload)
        as [updated c'] eqn:U.
      destruct updated as [[|kv' d]|]; try discriminate.
      destruct (_serialize_order (Some (kv' :: d))) as [entry|e] eqn:S;
        cbn [bind]; [|discriminate].
      intros [= -> <-]. exists (kv' :: d). split; [|exact S].
      now apply (find_one_and_update_In _ _ _ _ _ U). }
  destruct Hdoc as (doc & Hin & Hs).
  unfold get_orders in Hl. apply mapM_Forall2 in Hl.
  assert (Hin' : In doc (find_sorted coll' (fun _ => true))).
  { eapply Permutation_in.
    - apply Permutation_sym, find_sorted_perm.
    - now rewrite filter_all. }
  destruct (Forall2_In_l _ _ _ _ Hl Hin') as (entry & Hentry & Hser).
  simpl in Hser. rewrite Hs in Hser. injection Hser as <-. exact Hentry.
Qed.

Lemma edit_order_answer_is_listed_witness :
  exists r coll' listed,
    edit_order (Some [sample_old_order; sample_order]) sample_now sample_id
      (VDict [("preference", VStr "less sugar")])
    = Ok (Some r, coll')
    /\ get_orders (Some coll') = Ok listed
    /\ In (Some r) listed.
Proof.
  eexists _, _, _. split; [vm_compute; reflexivity|].
  split; [vm_compute; reflexivity|].
  eapply (edit_order_answer_is_listed [sample_old_order; sample_order]
            sample_now sample_id (VDict [("preference", VStr "less sugar")]));
    vm_compute; reflexivity.
Defined.
